(** * Weather pipeline: parsers, fusion, feature engineering, comfort score,
      storage, request times, processing

    A shallow embedding of

    - [src/data_ingestion/parsers.py]           (module [parsers]),
    - [src/data_ingestion/kma_client.py]        (module [kma_client]),
    - [src/features/feature_builder.py]         (module [feature_builder]),
    - [src/storage/s3_client.py]                (module [s3_client]),
    - [src/data_ingestion/weather_processor.py] (module [weather_processor]),

    together with the pieces of the Python runtime these functions call
    (modules [Py] and [Calendar]).

    Conventions of the embedding.

    - A Python [str] is a [string]: the payloads are ASCII text, one [ascii]
      per character.  Comparison of strings is comparison of code points,
      which on bytes is [String.compare].
    - A Python [float] is a binary64 [float] of the kernel; arithmetic and
      comparisons are the IEEE ones.  A missing number is [None] (Python's
      [None]) or a NaN; [isna] accepts both, as [pd.isna] does.
    - A timestamp is a [Z]: microseconds since 1970-01-01T00:00:00Z.
      [None] in a datetime cell is pandas' [NaT].
    - [datetime.now] is a clock: a function from the number of earlier reads
      to the reading, threaded through the parsers.
    - A [DataFrame] is the list of its rows; column-wise pandas operations
      are modelled row by row, numeric columns holding floats with NaN for
      a missing value.
      A frame on which pandas raises has no rows to speak of:
      [feature_builder] models the frames pandas takes, and
      [weather_processor], whose answer depends on the exception, is given
      the frames pandas takes as a parameter.
    - A bucket is a finite map from keys to objects, and a listing returns
      all its keys under the prefix.  A call of the object store does not
      fail.
    - [strftime] prints a year of four digits; the statements that depend
      on the printed year are about the years 1000 to 9999.
    - A fetch method of the client is modelled by the request it hands to
      [requests.get]. *)

From Stdlib Require Import ZArith List String Ascii Bool Lia Floats.
From Stdlib Require Import DecimalString.
From stdpp Require Import gmap strings list sorting.

Set Warnings "-inexact-float".

Open Scope string_scope.
Open Scope list_scope.

(** ** The Python runtime *)

Module Py.

(** *** [str] methods *)

(** [str.isspace] on one ASCII character: TAB..CR, FS..US and the space.
    [str.strip()] and [str.split()] use this class. *)
Definition isspace (c : ascii) : bool :=
  let n := N_of_ascii c in
  ((9 <=? n)%N && (n <=? 13)%N) || ((28 <=? n)%N && (n <=? 32)%N).

Definition is_digit (c : ascii) : bool :=
  let n := N_of_ascii c in (48 <=? n)%N && (n <=? 57)%N.

Definition digit_val (c : ascii) : Z := Z.of_N (N_of_ascii c) - 48.

Fixpoint lstrip (s : string) : string :=
  match s with
  | EmptyString => EmptyString
  | String c r => if isspace c then lstrip r else s
  end.

Fixpoint rstrip (s : string) : string :=
  match s with
  | EmptyString => EmptyString
  | String c r =>
      match rstrip r with
      | EmptyString => if isspace c then EmptyString else String c EmptyString
      | r' => String c r'
      end
  end.

(** [s.strip()] *)
Definition strip (s : string) : string := rstrip (lstrip s).

(** [s.split(sep)] for a one-character separator: empty pieces are kept,
    and the empty string splits into one empty piece. *)
Fixpoint split (sep : ascii) (s : string) : list string :=
  match s with
  | EmptyString => [EmptyString]
  | String c r =>
      if Ascii.eqb c sep then EmptyString :: split sep r
      else match split sep r with
           | h :: t => String c h :: t
           | [] => [String c EmptyString]
           end
  end.

(** [s.split()]: the maximal runs of non-whitespace characters. *)
Fixpoint split_ws (s : string) : list string :=
  match s with
  | EmptyString => []
  | String c r =>
      if isspace c then split_ws r
      else match r with
           | EmptyString => [String c EmptyString]
           | String c' _ =>
               if isspace c' then String c EmptyString :: split_ws r
               else match split_ws r with
                    | h :: t => String c h :: t
                    | [] => [String c EmptyString]
                    end
           end
  end.

(** [s.startswith(p)] *)
Definition startswith (p s : string) : bool := String.prefix p s.

(** [s.endswith(p)] *)
Fixpoint endswith (p s : string) : bool :=
  String.eqb s p ||
  match s with
  | EmptyString => false
  | String _ r => endswith p r
  end.

(** [s.replace(c, '')] for a one-character [c]. *)
Fixpoint remove_char (c : ascii) (s : string) : string :=
  match s with
  | EmptyString => EmptyString
  | String d r => if Ascii.eqb d c then remove_char c r else String d (remove_char c r)
  end.

Fixpoint all_digits (s : string) : bool :=
  match s with
  | EmptyString => true
  | String c r => is_digit c && all_digits r
  end.

(** [s.isdigit()]: at least one character, all of them digits. *)
Definition isdigit (s : string) : bool :=
  match s with
  | EmptyString => false
  | _ => all_digits s
  end.

(** [bool(s)] *)
Definition nonempty (s : string) : bool :=
  match s with EmptyString => false | _ => true end.

(** The value of a digit string, most significant digit first. *)
Fixpoint digits_value (acc : Z) (s : string) : Z :=
  match s with
  | EmptyString => acc
  | String c r => digits_value (10 * acc + digit_val c) r
  end.

(** [int(s)] on a string that passed [isdigit]. *)
Definition int_of_digits (s : string) : Z := digits_value 0 s.

(** [str(n)] for an [int]. *)
Definition str_of_int (z : Z) : string := NilZero.string_of_int (Z.to_int z).

(** *** [float] *)

Definition isna (x : option float) : bool :=
  match x with
  | None => true
  | Some v => is_nan v
  end.

(** Nearest binary64 (ties to even) of the rational [n / d], [0 <= n],
    [0 < d], with sign [neg]; an overflow gives an infinity.  The quotient
    is computed to at least 63 bits with a sticky last bit and rounded
    once. *)
Definition round_ratio (neg : bool) (n d : Z) : float :=
  if (n =? 0)%Z then (if neg then (-0)%float else 0%float)
  else
    let s := Z.max 0 (Z.log2 d - Z.log2 n + 64) in
    let q := (n * 2 ^ s / d)%Z in
    let r := ((n * 2 ^ s) mod d)%Z in
    let m := (2 * q + (if (r =? 0)%Z then 0 else 1))%Z in
    SF2Prim (binary_normalize prec emax (if neg then (- m)%Z else m) (- s - 1) false).

(** [float(n)] for an [int]; [None] is [OverflowError]. *)
Definition float_of_int (z : Z) : option float :=
  let f := round_ratio (z <? 0)%Z (Z.abs z) 1 in
  if is_infinity f then None else Some f.

(** C's [isspace] in the C locale, which [float] strips around its argument. *)
Definition c_isspace (c : ascii) : bool :=
  let n := N_of_ascii c in ((9 <=? n)%N && (n <=? 13)%N) || (n =? 32)%N.

Fixpoint c_lstrip (s : string) : string :=
  match s with
  | EmptyString => EmptyString
  | String c r => if c_isspace c then c_lstrip r else s
  end.

Fixpoint c_rstrip (s : string) : string :=
  match s with
  | EmptyString => EmptyString
  | String c r =>
      match c_rstrip r with
      | EmptyString => if c_isspace c then EmptyString else String c EmptyString
      | r' => String c r'
      end
  end.

(** Underscores of a numeric literal: allowed between two digits only.
    [prev] is the previous character (NUL at the start). *)
Fixpoint drop_underscores (prev : ascii) (s : string) : option string :=
  match s with
  | EmptyString => if Ascii.eqb prev "_" then None else Some EmptyString
  | String c r =>
      if Ascii.eqb c "_" then
        (if is_digit prev then drop_underscores c r else None)
      else if Ascii.eqb prev "_" && negb (is_digit c) then None
      else option_map (String c) (drop_underscores c r)
  end.

(** The longest prefix of digits, and the rest. *)
Fixpoint span_digits (s : string) : string * string :=
  match s with
  | EmptyString => (EmptyString, EmptyString)
  | String c r =>
      if is_digit c then let '(d, rest) := span_digits r in (String c d, rest)
      else (EmptyString, s)
  end.

Definition take_sign (s : string) : bool * string :=
  match s with
  | String "-" r => (true, r)
  | String "+" r => (false, r)
  | _ => (false, s)
  end.

Definition lower (c : ascii) : ascii :=
  let n := N_of_ascii c in
  if (65 <=? n)%N && (n <=? 90)%N then ascii_of_N (n + 32) else c.

Fixpoint lowercase (s : string) : string :=
  match s with
  | EmptyString => EmptyString
  | String c r => String (lower c) (lowercase r)
  end.

(** The exponent part [e[+-]ddd] of a decimal literal, to the end of the
    string; [None] when what follows the mantissa is anything else. *)
Definition parse_exponent (s : string) : option Z :=
  match s with
  | EmptyString => Some 0%Z
  | String c r =>
      if Ascii.eqb (lower c) "e" then
        let '(neg, r1) := take_sign r in
        let '(ds, rest) := span_digits r1 in
        if nonempty ds && negb (nonempty rest)
        then Some (if neg then (- digits_value 0 ds)%Z else digits_value 0 ds)
        else None
      else None
  end.

(** A decimal literal [ddd[.ddd][e[+-]ddd]] with at least one mantissa
    digit, as [strtod] reads it. *)
Definition parse_decimal (neg : bool) (s : string) : option float :=
  let '(ip, r1) := span_digits s in
  let '(fp, r2) :=
    match r1 with
    | String "." r => span_digits r
    | _ => (EmptyString, r1)
    end in
  if nonempty ip || nonempty fp then
    match parse_exponent r2 with
    | Some e =>
        let m := digits_value (digits_value 0 ip) fp in
        let k := (e - Z.of_nat (String.length fp))%Z in
        Some (if (0 <=? k)%Z then round_ratio neg (m * 10 ^ k) 1
              else round_ratio neg m (10 ^ (- k)))
    | None => None
    end
  else None.

(** [inf], [infinity] and [nan], in any case. *)
Definition parse_inf_nan (neg : bool) (s : string) : option float :=
  let l := lowercase s in
  if String.eqb l "inf" || String.eqb l "infinity"
  then Some (if neg then neg_infinity else infinity)
  else if String.eqb l "nan" then Some nan
  else None.

(** [float(s)] for a [str]; [None] is [ValueError]. *)
Definition float_of_str (s : string) : option float :=
  match drop_underscores Ascii.zero s with
  | None => None
  | Some s1 =>
      let body := c_rstrip (c_lstrip s1) in
      let '(neg, r) := take_sign body in
      match parse_decimal neg r with
      | Some f => Some f
      | None => parse_inf_nan neg r
      end
  end.

(** *** Cell values

    The values a parsed record carries in its [value] fields: [None], a
    [str] or an [int] (the three parsers emit nothing else). *)
Inductive pyval : Type :=
| PNone
| PStr (s : string)
| PInt (z : Z).

(** [bool(v)] *)
Definition truthy (v : pyval) : bool :=
  match v with
  | PNone => false
  | PStr s => nonempty s
  | PInt z => negb (z =? 0)%Z
  end.

(** [str(v)] *)
Definition to_str (v : pyval) : string :=
  match v with
  | PNone => "None"
  | PStr s => s
  | PInt z => str_of_int z
  end.

(** [float(v)]; [None] is the exception ([TypeError], [ValueError] or
    [OverflowError]). *)
Definition to_float (v : pyval) : option float :=
  match v with
  | PNone => None
  | PStr s => float_of_str s
  | PInt z => float_of_int z
  end.

End Py.

(** ** Calendar arithmetic of [datetime] *)

Module Calendar.

#[local] Open Scope Z_scope.

Definition us_per_minute : Z := 60000000.
Definition us_per_hour : Z := 3600000000.
Definition us_per_day : Z := 86400000000.

Definition is_leap (y : Z) : bool :=
  ((y mod 4 =? 0) && negb (y mod 100 =? 0) || (y mod 400 =? 0))%Z.

Definition days_in_month (y m : Z) : Z :=
  if (m =? 2)%Z then (if is_leap y then 29 else 28)
  else if ((m =? 4) || (m =? 6) || (m =? 9) || (m =? 11))%Z then 30
  else 31.

(** Days from 1970-01-01 to the proleptic Gregorian date [y-m-d]. *)
Definition days_from_civil (y m d : Z) : Z :=
  let y' := if (m <=? 2)%Z then y - 1 else y in
  let era := y' / 400 in
  let yoe := y' - era * 400 in
  let doy := (153 * (if (2 <? m)%Z then m - 3 else m + 9) + 2) / 5 + d - 1 in
  let doe := yoe * 365 + yoe / 4 - yoe / 100 + doy in
  era * 146097 + doe - 719468.

(** The month (1..12) of the day [z] days after 1970-01-01. *)
Definition month_of_days (z : Z) : Z :=
  let z' := z + 719468 in
  let era := z' / 146097 in
  let doe := z' - era * 146097 in
  let yoe := (doe - doe / 1460 + doe / 36524 - doe / 146096) / 365 in
  let doy := doe - (365 * yoe + yoe / 4 - yoe / 100) in
  let mp := (5 * doy + 2) / 153 in
  if (mp <? 10)%Z then mp + 3 else mp - 9.

(** [datetime(y, m, d, H, M, tzinfo=utc)]; [None] is [ValueError]. *)
Definition datetime (y m d H M : Z) : option Z :=
  if ((1 <=? y) && (y <=? 9999) && (1 <=? m) && (m <=? 12) &&
      (1 <=? d) && (d <=? days_in_month y m) &&
      (0 <=? H) && (H <=? 23) && (0 <=? M) && (M <=? 59))%Z
  then Some (days_from_civil y m d * us_per_day + H * us_per_hour + M * us_per_minute)%Z
  else None.

(** [Series.dt.hour], [.dt.dayofweek] (Monday is 0) and [.dt.month]. *)
Definition hour (t : Z) : Z := (t / us_per_hour) mod 24.
Definition dayofweek (t : Z) : Z := (t / us_per_day + 3) mod 7.
Definition month (t : Z) : Z := month_of_days (t / us_per_day).

Definition two_digits (a b : ascii) : option Z :=
  if Py.is_digit a && Py.is_digit b
  then Some (10 * Py.digit_val a + Py.digit_val b)%Z
  else None.

(** The day field of [%d] at full width: two digits, or a space and a
    digit. *)
Definition day_field (a b : ascii) : option Z :=
  if Ascii.eqb a " " && Py.is_digit b then Some (Py.digit_val b)
  else two_digits a b.

(** [datetime.strptime(s, "%Y%m%d%H%M").replace(tzinfo=utc)] for a string
    [s] of twelve characters, the only length [_parse_datetime_from_line]
    passes; [None] is [ValueError].  The five fields take at most 4, 2,
    2, 2 and 2 characters and the whole string has to be consumed, so
    each field takes its full width. *)
Definition strptime_YmdHM (s : string) : option Z :=
  match s with
  | String y1 (String y2 (String y3 (String y4 (String m1 (String m2
      (String d1 (String d2 (String h1 (String h2 (String n1 (String n2
      EmptyString))))))))))) =>
      match two_digits y1 y2, two_digits y3 y4, two_digits m1 m2,
            day_field d1 d2, two_digits h1 h2, two_digits n1 n2 with
      | Some yh, Some yl, Some m, Some d, Some H, Some M =>
          if (1 <=? d)%Z then datetime (100 * yh + yl) m d H M else None
      | _, _, _, _, _, _ => None
      end
  | _ => None
  end.

(** The proleptic Gregorian date (year, month, day) of the day [z] days
    after 1970-01-01. *)
Definition civil_of_days (z : Z) : Z * Z * Z :=
  let z' := z + 719468 in
  let era := z' / 146097 in
  let doe := z' - era * 146097 in
  let yoe := (doe - doe / 1460 + doe / 36524 - doe / 146096) / 365 in
  let doy := doe - (365 * yoe + yoe / 4 - yoe / 100) in
  let mp := (5 * doy + 2) / 153 in
  let d := doy - (153 * mp + 2) / 5 + 1 in
  let m := if (mp <? 10)%Z then mp + 3 else mp - 9 in
  (yoe + era * 400 + (if (m <=? 2)%Z then 1 else 0), m, d).

(** The other fields of a [datetime]. *)
Definition year (t : Z) : Z := fst (fst (civil_of_days (t / us_per_day))).
Definition day (t : Z) : Z := snd (civil_of_days (t / us_per_day)).
Definition minute (t : Z) : Z := (t / us_per_minute) mod 60.
Definition second (t : Z) : Z := (t / 1000000) mod 60.

(** [t.replace(minute=0, second=0, microsecond=0)] *)
Definition on_the_hour (t : Z) : Z := t - t mod us_per_hour.

(** *** [strftime]

    Zero-padded decimal fields.  [%Y] is modelled for the years 1000 to
    9999, which print as four digits. *)
Definition digit_char (n : Z) : ascii := ascii_of_N (Z.to_N (48 + n mod 10)).

Definition pad2 (n : Z) : string :=
  String (digit_char (n / 10)) (String (digit_char n) EmptyString).

Definition pad4 (n : Z) : string := (pad2 (n / 100) ++ pad2 (n mod 100))%string.

(** [t.strftime("%Y%m%d%H%M")] *)
Definition strftime_YmdHM (t : Z) : string :=
  (pad4 (year t) ++ pad2 (month t) ++ pad2 (day t) ++ pad2 (hour t) ++ pad2 (minute t))%string.

(** [t.strftime("%Y/%m/%d")] *)
Definition strftime_date_path (t : Z) : string :=
  (pad4 (year t) ++ "/" ++ pad2 (month t) ++ "/" ++ pad2 (day t))%string.

(** [t.strftime("%H%M%S")] *)
Definition strftime_HMS (t : Z) : string :=
  (pad2 (hour t) ++ pad2 (minute t) ++ pad2 (second t))%string.

(** *** [strptime] on a string of any length

    The format is compiled to a regular expression, one group per field,
    each group a list of alternatives tried in order with backtracking;
    the first match of the whole expression is taken, and it has to end
    where the string ends. *)

(** An alternative reads a field at the head of a string. *)
Definition alternative : Type := string -> option (Z * string).

Definition one_char (ok : ascii -> bool) : alternative :=
  fun s =>
    match s with
    | String a r => if ok a then Some (Py.digit_val a, r) else None
    | EmptyString => None
    end.

Definition two_chars (ok1 ok2 : ascii -> bool) : alternative :=
  fun s =>
    match s with
    | String a (String b r) =>
        if ok1 a && ok2 b
        then Some ((if Py.is_digit a then 10 * Py.digit_val a else 0) + Py.digit_val b, r)
        else None
    | _ => None
    end.

Definition between (lo hi : ascii) (c : ascii) : bool :=
  ((N_of_ascii lo <=? N_of_ascii c)%N && (N_of_ascii c <=? N_of_ascii hi)%N).

(** [%Y]: [\d\d\d\d] *)
Definition year_field : list alternative :=
  [ fun s =>
      match s with
      | String a (String b (String c (String d r))) =>
          if Py.is_digit a && Py.is_digit b && Py.is_digit c && Py.is_digit d
          then Some (1000 * Py.digit_val a + 100 * Py.digit_val b
                     + 10 * Py.digit_val c + Py.digit_val d, r)
          else None
      | _ => None
      end ].

(** [%m]: [1[0-2]|0[1-9]|[1-9]] *)
Definition month_field : list alternative :=
  [ two_chars (between "1" "1") (between "0" "2");
    two_chars (between "0" "0") (between "1" "9");
    one_char (between "1" "9") ].

(** [%d]: [3[0-1]|[1-2]\d|0[1-9]|[1-9]| [1-9]] *)
Definition day_field_any : list alternative :=
  [ two_chars (between "3" "3") (between "0" "1");
    two_chars (between "1" "2") Py.is_digit;
    two_chars (between "0" "0") (between "1" "9");
    one_char (between "1" "9");
    two_chars (between " " " ") (between "1" "9") ].

(** [%H]: [2[0-3]|[0-1]\d|\d] *)
Definition hour_field : list alternative :=
  [ two_chars (between "2" "2") (between "0" "3");
    two_chars (between "0" "1") Py.is_digit;
    one_char Py.is_digit ].

(** [%M]: [[0-5]\d|\d] *)
Definition minute_field : list alternative :=
  [ two_chars (between "0" "5") Py.is_digit;
    one_char Py.is_digit ].

Fixpoint first_some {A B : Type} (f : A -> option B) (l : list A) : option B :=
  match l with
  | [] => None
  | a :: rest =>
      match f a with
      | Some b => Some b
      | None => first_some f rest
      end
  end.

(** The first match of the fields, in order, at the head of [s]: the
    values of the fields and what is left of [s]. *)
Fixpoint match_fields (fields : list (list alternative)) (s : string)
  : option (list Z * string) :=
  match fields with
  | [] => Some ([], s)
  | alternatives :: rest =>
      first_some
        (fun a : alternative =>
           match a s with
           | Some (v, s') =>
               match match_fields rest s' with
               | Some (vs, remaining) => Some (v :: vs, remaining)
               | None => None
               end
           | None => None
           end)
        alternatives
  end.

(** [datetime.strptime(s, "%Y%m%d%H%M").replace(tzinfo=utc)]; [None] is
    [ValueError]. *)
Definition strptime (s : string) : option Z :=
  match match_fields [year_field; month_field; day_field_any; hour_field; minute_field] s with
  | Some ([y; m; d; H; M], EmptyString) => datetime y m d H M
  | _ => None
  end.

End Calendar.

(** ** [src/data_ingestion/parsers.py] *)

Module parsers.

(** One parsed record (a [dict]).  [uva_value] and [euv_value] are keys of
    the ultraviolet records only; elsewhere they are [PNone], what
    [dict.get] answers for an absent key. *)
Record record : Type := {
  station_id : string;
  observed_at : Z;
  category : string;
  value : Py.pyval;
  uva_value : Py.pyval;
  euv_value : Py.pyval;
  unit : string;
  created_at : Z;
  raw_line : string
}.

(** Computations that read the clock: the state is the number of reads
    made so far. *)
Definition Clock (A : Type) : Type := nat -> A * nat.

Definition ret {A : Type} (a : A) : Clock A := fun n => (a, n).

Definition bind {A B : Type} (m : Clock A) (f : A -> Clock B) : Clock B :=
  fun n => let '(a, n') := m n in f a n'.

Notation "x <- m ;; k" := (bind m (fun x => k))
  (at level 100, m at next level, right associativity).

Section WithClock.

(** [now k] is what the [k]-th call of [datetime.now(tz=timezone.utc)]
    returns. *)
Variable now : nat -> Z.

Definition datetime_now : Clock Z := fun n => (now n, S n).

(** [_parse_datetime_from_line] *)
Definition _parse_datetime_from_line (datetime_str : string) : Clock Z :=
  if (String.length datetime_str =? 12)%nat then
    match Calendar.strptime_YmdHM datetime_str with
    | Some t => ret t
    | None => datetime_now
    end
  else if (String.length datetime_str =? 10)%nat then
    match Calendar.strptime_YmdHM ("20" ++ datetime_str) with
    | Some t => ret t
    | None => datetime_now
    end
  else datetime_now.

(** [[line for line in lines if not line.startswith('#') and line.strip()]] *)
Definition is_data_line (line : string) : bool :=
  negb (Py.startswith "#" line) && Py.nonempty (Py.strip line).

Definition data_lines (raw_data : string) : list string :=
  List.filter is_data_line (Py.split "010" (Py.strip raw_data)).

(** The body of the [for line in data_lines] loops: the records appended
    for the lines, in order. *)
Fixpoint for_lines (body : string -> Clock (option record)) (lines : list string)
  : Clock (list record) :=
  match lines with
  | [] => ret []
  | line :: rest =>
      o <- body line ;;
      rs <- for_lines body rest ;;
      ret (match o with Some r => r :: rs | None => rs end)
  end.

Definition asos_line (line : string) : Clock (option record) :=
  let parts := Py.split_ws line in
  if (3 <=? List.length parts)%nat then
    let p0 := nth 0 parts "" in
    obs <- (if Py.nonempty p0 then _parse_datetime_from_line p0 else datetime_now) ;;
    created <- datetime_now ;;
    ret (Some {| station_id := if (1 <? List.length parts)%nat then nth 1 parts "" else "unknown";
                 observed_at := obs;
                 category := "asos";
                 value := if (2 <? List.length parts)%nat then Py.PStr (nth 2 parts "") else Py.PNone;
                 uva_value := Py.PNone;
                 euv_value := Py.PNone;
                 unit := "";
                 created_at := created;
                 raw_line := line |})
  else ret None.

(** [parse_asos_raw].  Nothing in the body raises, so the enclosing
    [try ... except Exception: return []] never takes its handler. *)
Definition parse_asos_raw (raw_data : string) : Clock (list record) :=
  for_lines asos_line (data_lines raw_data).

Definition pm10_line (line : string) : Clock (option record) :=
  let parts := Py.split "," line in
  if (3 <=? List.length parts)%nat then
    let p0 := nth 0 parts "" in
    let datetime_str := if Py.nonempty p0 then Py.strip p0 else "" in
    let station := if (1 <? List.length parts)%nat then Py.strip (nth 1 parts "") else "unknown" in
    let pm10_value :=
      if (2 <? List.length parts)%nat then
        let v := Py.strip (nth 2 parts "") in
        if Py.nonempty v && Py.isdigit v then Py.PInt (Py.int_of_digits v) else Py.PNone
      else Py.PNone in
    obs <- (if Py.nonempty datetime_str then _parse_datetime_from_line datetime_str
            else datetime_now) ;;
    created <- datetime_now ;;
    ret (Some {| station_id := station;
                 observed_at := obs;
                 category := "pm10";
                 value := pm10_value;
                 uva_value := Py.PNone;
                 euv_value := Py.PNone;
                 unit := "μg/m³";
                 created_at := created;
                 raw_line := line |})
  else ret None.

(** [parse_pm10_raw] *)
Definition parse_pm10_raw (raw_data : string) : Clock (list record) :=
  for_lines pm10_line (data_lines raw_data).

Definition uv_line (line : string) : Clock (option record) :=
  let parts := Py.split_ws line in
  if (5 <=? List.length parts)%nat then
    let p0 := nth 0 parts "" in
    obs <- (if Py.nonempty p0 then _parse_datetime_from_line p0 else datetime_now) ;;
    created <- datetime_now ;;
    ret (Some {| station_id := if (1 <? List.length parts)%nat then nth 1 parts "" else "unknown";
                 observed_at := obs;
                 category := "uv";
                 value := if (2 <? List.length parts)%nat then Py.PStr (nth 2 parts "") else Py.PNone;
                 uva_value := if (3 <? List.length parts)%nat then Py.PStr (nth 3 parts "") else Py.PNone;
                 euv_value := if (4 <? List.length parts)%nat then Py.PStr (nth 4 parts "") else Py.PNone;
                 unit := "W/m²";
                 created_at := created;
                 raw_line := line |})
  else ret None.

(** [parse_uv_raw] *)
Definition parse_uv_raw (raw_data : string) : Clock (list record) :=
  for_lines uv_line (data_lines raw_data).

End WithClock.

(** *** [extract_measurements]

    The payload is a mapping read with [get]; a field is [None] when its
    key is absent.  The base date and the base time are strings when they
    are there. *)
Module payload.

Record item : Type := {
  stationId : Py.pyval;
  category : Py.pyval;
  obsrValue : Py.pyval;
  unit : option Py.pyval
}.

Record body_t : Type := {
  items : option (list item);
  baseDate : option string;
  baseTime : option string
}.

Record response_t : Type := { body : option body_t }.

Record t : Type := { response : option response_t }.

(** The empty mapping [{}] that [get] defaults to. *)
Definition no_body : body_t := {| items := None; baseDate := None; baseTime := None |}.

End payload.

(** A row of [extract_measurements]. *)
Module measurement.

Record t : Type := {
  station_id : Py.pyval;
  observed_at : Z;
  category : Py.pyval;
  value : Py.pyval;
  unit : Py.pyval;
  created_at : Z
}.

End measurement.

(** [_parse_datetime]; [None] is the [ValueError] of [strptime]. *)
Definition _parse_datetime (base_date base_time : string) : option Z :=
  Calendar.strptime (base_date ++ base_time).

Section Measurements.

Variable now : nat -> Z.

(** The [for item in items] loop. *)
Fixpoint measurement_rows (observed_at : Z) (items : list payload.item)
  : Clock (list measurement.t) :=
  match items with
  | [] => ret []
  | item :: rest =>
      created <- datetime_now now ;;
      rows <- measurement_rows observed_at rest ;;
      ret ({| measurement.station_id := payload.stationId item;
              measurement.observed_at := observed_at;
              measurement.category := payload.category item;
              measurement.value := payload.obsrValue item;
              measurement.unit := match payload.unit item with
                                  | Some u => u
                                  | None => Py.PStr ""
                                  end;
              measurement.created_at := created |} :: rows)
  end.

(** [payload.get("response", {}).get("body", {})] *)
Definition response_body (p : payload.t) : payload.body_t :=
  match payload.response p with
  | Some r => match payload.body r with Some b => b | None => payload.no_body end
  | None => payload.no_body
  end.

(** [response_body.get("items", [])] *)
Definition items_of (response_body : payload.body_t) : list payload.item :=
  match payload.items response_body with Some l => l | None => [] end.

(** [extract_measurements]; [None] is [ValueError], raised by the check
    of the metadata or by [strptime]. *)
Definition extract_measurements (p : payload.t) : Clock (option (list measurement.t)) :=
  let response_body := response_body p in
  let items := items_of response_body in
  match payload.baseDate response_body, payload.baseTime response_body with
  | Some base_date, Some base_time =>
      if Py.nonempty base_date && Py.nonempty base_time then
        match _parse_datetime base_date base_time with
        | Some observed_at =>
            rows <- measurement_rows observed_at items ;;
            ret (Some rows)
        | None => ret None
        end
      else ret None
  | _, _ => ret None
  end.

End Measurements.

End parsers.

(** ** [src/data_ingestion/kma_client.py] *)

Module kma_client.

#[local] Open Scope string_scope.

Import parsers.

(** [KMAApiConfig] *)
Record KMAApiConfig : Type := {
  base_url : string;
  api_key : string;
  station_id : string;
  timeout_seconds : Z
}.

(** The argument of the fetch methods: [None], a [str] or a [datetime]. *)
Inductive time_arg : Type :=
| no_time
| time_str (s : string)
| time_datetime (t : Z).

(** The request a fetch method hands to [requests.get]. *)
Record request : Type := {
  url : string;
  params : list (string * string);
  timeout : Z
}.

Section WithClock.

Variable now : nat -> Z.

(** [_normalize_time]; [None] is the [ValueError] of [strptime]. *)
Definition _normalize_time (target_time : time_arg) : Clock (option Z) :=
  match target_time with
  | no_time =>
      target <- datetime_now now ;;
      ret (Some (Calendar.on_the_hour target))
  | time_str s =>
      ret (match Calendar.strptime s with
           | Some target => Some (Calendar.on_the_hour target)
           | None => None
           end)
  | time_datetime target => ret (Some (Calendar.on_the_hour target))
  end.

(** The request of [fetch_asos]. *)
Definition fetch_asos (config : KMAApiConfig) (target_time : time_arg)
  : Clock (option request) :=
  o <- _normalize_time target_time ;;
  ret (match o with
       | Some target =>
           Some {| url := base_url config ++ "/kma_sfctm2.php";
                   params := [("tm", Calendar.strftime_YmdHM target);
                              ("stn", station_id config);
                              ("authKey", api_key config)];
                   timeout := timeout_seconds config |}
       | None => None
       end).

(** The request of [fetch_pm10]. *)
Definition fetch_pm10 (config : KMAApiConfig) (start_time end_time : time_arg)
  : Clock (option request) :=
  s <- _normalize_time start_time ;;
  match s with
  | Some start =>
      e <- _normalize_time end_time ;;
      ret (match e with
           | Some end_ =>
               Some {| url := base_url config ++ "/kma_pm10.php";
                       params := [("tm1", Calendar.strftime_YmdHM start);
                                  ("tm2", Calendar.strftime_YmdHM end_);
                                  ("stn", station_id config);
                                  ("authKey", api_key config)];
                       timeout := timeout_seconds config |}
           | None => None
           end)
  | None => ret None
  end.

(** The request of [fetch_uv]. *)
Definition fetch_uv (config : KMAApiConfig) (target_time : time_arg)
  : Clock (option request) :=
  o <- _normalize_time target_time ;;
  ret (match o with
       | Some target =>
           Some {| url := base_url config ++ "/kma_sfctm_uv.php";
                   params := [("tm", Calendar.strftime_YmdHM target);
                              ("stn", station_id config);
                              ("authKey", api_key config)];
                   timeout := timeout_seconds config |}
       | None => None
       end).

End WithClock.

End kma_client.

(** ** [src/features/feature_builder.py] *)

(** A row of one of the three input frames of [create_ml_dataset], after
    [pd.DataFrame(...)] and [pd.to_datetime(df["observed_at"], utc=True)].
    [observed_at = None] is a missing timestamp: the row's [datetime] cell
    is [NaT], which compares unequal to everything and is dropped by
    [dropna]. *)
Module raw.

Record t : Type := {
  station_id : string;
  observed_at : option Z;
  value : Py.pyval;
  uva_value : Py.pyval;
  euv_value : Py.pyval
}.

(** The row a parsed record gives. *)
Definition of_record (r : parsers.record) : t :=
  {| station_id := parsers.station_id r;
     observed_at := Some (parsers.observed_at r);
     value := parsers.value r;
     uva_value := parsers.uva_value r;
     euv_value := parsers.euv_value r |}.

End raw.

Module feature_builder.

#[local] Open Scope float_scope.

(** The argument of [create_ml_dataset]: the lists under the keys
    ["asos"], ["pm10"] and ["uv"]. *)
Record raw_data : Type := {
  asos : list raw.t;
  pm10_records : list raw.t;
  uv : list raw.t
}.

(** An entry of [all_records], and a row of [merged_df] before the
    engineered columns are added. *)
Record fused : Type := {
  station_id : string;
  datetime : option Z;
  temperature : option float;
  pm10 : option float;
  uv_uvb : option float;
  uv_uva : option float;
  uv_euv : option float
}.

(** [record["datetime"] == datetime_val] *)
Definition datetime_eqb (a b : option Z) : bool :=
  match a, b with
  | Some x, Some y => (x =? y)%Z
  | _, _ => false
  end.

(** [record["station_id"] == station_id and record["datetime"] == datetime_val] *)
Definition same_key (station : string) (dt : option Z) (record : fused) : bool :=
  String.eqb (station_id record) station && datetime_eqb (datetime record) dt.

(** The scan [for record in all_records: if ...: <update>; found = True;
    break]: the first entry with the key is updated in place; [None] when
    no entry has the key ([found] stays [False]). *)
Fixpoint update_first (station : string) (dt : option Z) (upd : fused -> fused)
  (all_records : list fused) : option (list fused) :=
  match all_records with
  | [] => None
  | record :: rest =>
      if same_key station dt record then Some (upd record :: rest)
      else option_map (cons record) (update_first station dt upd rest)
  end.

(** *** Ground-station rows *)

(** The [temperature] expression of the ASOS loop; the outer [None] is an
    exception raised by [float]. *)
Definition asos_temperature (v : Py.pyval) : option (option float) :=
  if Py.truthy v &&
     Py.isdigit (Py.remove_char "-" (Py.remove_char "." (Py.to_str v)))
  then match Py.to_float v with
       | Some f => Some (Some f)
       | None => None
       end
  else Some None.

(** One turn of the ASOS loop.  An exception skips the row ([except:
    continue]). *)
Definition asos_row (all_records : list fused) (row : raw.t) : list fused :=
  match asos_temperature (raw.value row) with
  | Some temp =>
      all_records ++ [ {| station_id := raw.station_id row;
                          datetime := raw.observed_at row;
                          temperature := temp;
                          pm10 := None;
                          uv_uvb := None;
                          uv_uva := None;
                          uv_euv := None |} ]
  | None => all_records
  end.

(** *** Particulate rows *)

(** [pm10_val] after the numeric check. *)
Definition pm10_value (v : Py.pyval) : option float :=
  match v with
  | Py.PNone => None
  | _ => Py.to_float v
  end.

Definition set_pm10 (v : option float) (record : fused) : fused :=
  {| station_id := station_id record;
     datetime := datetime record;
     temperature := temperature record;
     pm10 := v;
     uv_uvb := uv_uvb record;
     uv_uva := uv_uva record;
     uv_euv := uv_euv record |}.

(** One turn of the PM10 loop. *)
Definition pm10_row (all_records : list fused) (row : raw.t) : list fused :=
  let station := raw.station_id row in
  let datetime_val := raw.observed_at row in
  let pm10_val := pm10_value (raw.value row) in
  match update_first station datetime_val (set_pm10 pm10_val) all_records with
  | Some updated => updated
  | None =>
      all_records ++ [ {| station_id := station;
                          datetime := datetime_val;
                          temperature := None;
                          pm10 := pm10_val;
                          uv_uvb := None;
                          uv_uva := None;
                          uv_euv := None |} ]
  end.

(** *** Ultraviolet rows *)

(** One of [uvb_val], [uva_val], [euv_val] after the numeric check. *)
Definition uv_value (v : Py.pyval) : option float :=
  match v with
  | Py.PNone => None
  | _ =>
      match Py.to_float v with
      | Some f => if f =? -999.0 then None else Some f
      | None => None
      end
  end.

Definition set_uv (b a e : option float) (record : fused) : fused :=
  {| station_id := station_id record;
     datetime := datetime record;
     temperature := temperature record;
     pm10 := pm10 record;
     uv_uvb := b;
     uv_uva := a;
     uv_euv := e |}.

(** One turn of the UV loop. *)
Definition uv_row (all_records : list fused) (row : raw.t) : list fused :=
  let station := raw.station_id row in
  let datetime_val := raw.observed_at row in
  let uvb_val := uv_value (raw.value row) in
  let uva_val := uv_value (raw.uva_value row) in
  let euv_val := uv_value (raw.euv_value row) in
  match update_first station datetime_val (set_uv uvb_val uva_val euv_val) all_records with
  | Some updated => updated
  | None =>
      all_records ++ [ {| station_id := station;
                          datetime := datetime_val;
                          temperature := None;
                          pm10 := None;
                          uv_uvb := uvb_val;
                          uv_uva := uva_val;
                          uv_euv := euv_val |} ]
  end.

(** The three loops. *)
Definition process_asos (rows : list raw.t) (all_records : list fused) : list fused :=
  fold_left asos_row rows all_records.

Definition process_pm10 (rows : list raw.t) (all_records : list fused) : list fused :=
  fold_left pm10_row rows all_records.

Definition process_uv (rows : list raw.t) (all_records : list fused) : list fused :=
  fold_left uv_row rows all_records.

(** [all_records] when the three loops are done. *)
Definition collect (d : raw_data) : list fused :=
  process_uv (uv d) (process_pm10 (pm10_records d) (process_asos (asos d) [])).

(** The same three loops with the particulate loop run before the
    ground-station loop.  [create_ml_dataset] never runs them in this
    order; the definition serves to state what the order matters for. *)
Definition collect_pm10_first (d : raw_data) : list fused :=
  process_uv (uv d) (process_asos (asos d) (process_pm10 (pm10_records d) [])).

(** *** Cleaning and ordering *)

(** [merged_df.dropna(subset=["datetime"])] *)
Definition has_datetime (r : fused) : bool :=
  match datetime r with Some _ => true | None => false end.

Definition dropna (rows : list fused) : list fused := List.filter has_datetime rows.

(** The order of [sort_values(["datetime", "station_id"])]: by timestamp,
    then by station identifier; a missing timestamp sorts last. *)
Definition key_leb (a b : fused) : bool :=
  match datetime a, datetime b with
  | Some x, Some y =>
      (x <? y)%Z || ((x =? y)%Z && String.leb (station_id a) (station_id b))
  | Some _, None => true
  | None, Some _ => false
  | None, None => String.leb (station_id a) (station_id b)
  end.

Definition key_le (a b : fused) : Prop := key_leb a b = true.

#[export] Instance key_le_dec : RelDecision key_le :=
  fun a b => Bool.bool_dec (key_leb a b) true.

Definition sort_values (rows : list fused) : list fused := merge_sort key_le rows.

(** *** Engineered features *)

Inductive season_t : Type := winter | spring | summer | autumn.
Inductive temp_category_t : Type := very_cold | cold | mild | warm | hot.
Inductive region_t : Type := central | south | east | west | other.
Inductive pm10_grade_t : Type := good | moderate | unhealthy | very_unhealthy.

(** [np.searchsorted(bins, x, side="left")] on increasing [bins]: the
    number of leading bins below [x]. *)
Fixpoint searchsorted_left (bins : list float) (x : float) : nat :=
  match bins with
  | [] => O
  | b :: rest => if b <? x then S (searchsorted_left rest x) else O
  end.

(** [pd.cut(x, bins=bins, labels=labels)]: right-closed intervals, the
    lowest edge excluded; NaN outside the bins and for a missing [x]. *)
Definition pd_cut {L : Type} (bins : list float) (labels : list L) (x : option float)
  : option L :=
  match x with
  | None => None
  | Some v =>
      if is_nan v then None
      else
        let ids := searchsorted_left bins v in
        if (ids =? List.length bins)%nat || (ids =? 0)%nat then None
        else nth_error labels (ids - 1)
  end.

(** A comparison of a numeric column with a constant: [False] where the
    value is missing. *)
Definition col_test (p : float -> bool) (x : option float) : bool :=
  match x with
  | Some v => p v
  | None => false
  end.

(** Arithmetic on a numeric column: missing stays missing. *)
Definition col_map (f : float -> float) (x : option float) : option float :=
  match x with
  | Some v => Some (f v)
  | None => None
  end.

Definition isin {A : Type} (eqb : A -> A -> bool) (x : A) (l : list A) : bool :=
  existsb (eqb x) l.

Definition temp_category_of (t : option float) : option temp_category_t :=
  pd_cut [-999; 0; 10; 20; 30; 999] [very_cold; cold; mild; warm; hot] t.

Definition pm10_grade_of (p : option float) : option pm10_grade_t :=
  pd_cut [0; 30; 80; 150; 999] [good; moderate; unhealthy; very_unhealthy] p.

Definition season_of (month : Z) : option season_t :=
  if isin Z.eqb month [12; 1; 2]%Z then Some winter
  else if isin Z.eqb month [3; 4; 5]%Z then Some spring
  else if isin Z.eqb month [6; 7; 8]%Z then Some summer
  else if isin Z.eqb month [9; 10; 11]%Z then Some autumn
  else None.

Definition metro_stations : list string :=
  ["100"; "101"; "102"; "104"; "105"; "108"; "112"; "119"; "129"; "133"]%string.

Definition coastal_stations : list string :=
  ["102"; "104"; "115"; "130"; "131"; "152"; "156"; "159"; "168"]%string.

Definition region_of (station : string) : region_t :=
  match station with
  | String "1" _ => central
  | String "2" _ => south
  | String "3" _ => east
  | String "9" _ => west
  | _ => other
  end.

(** *** The comfort score *)

(** The columns [calculate_comfort_score] looks for, for one row of its
    frame.  The outer [None] is a column the frame does not have. *)
Record score_columns : Type := {
  c_temperature : option (option float);
  c_pm10 : option (option float);
  c_is_rush_hour : option bool;
  c_is_weekend : option bool;
  c_temp_extreme : option bool
}.

Definition temp_score (x : option float) : float :=
  match x with
  | None => 100
  | Some v =>
      if is_nan v then 100
      else if (15 <=? v) && (v <=? 22) then 90
      else if (10 <=? v) && (v <=? 25) then 70
      else if (5 <=? v) && (v <=? 30) then 50
      else if (0 <=? v) && (v <=? 35) then 20
      else 10
  end.

Definition pm10_score (x : option float) : float :=
  match x with
  | None => 50
  | Some v =>
      if is_nan v then 50
      else if v <=? 15 then 90
      else if v <=? 35 then 70
      else if v <=? 75 then 50
      else if v <=? 150 then 30
      else 10
  end.

(** [flag * k] for a boolean column and an [int] constant. *)
Definition times (flag : bool) (k : float) : float := if flag then k else 0.

(** [np.clip(x, lo, hi)] *)
Definition clip (x lo hi : float) : float :=
  if x <? lo then lo else if hi <? x then hi else x.

(** [calculate_comfort_score], on one row. *)
Definition calculate_comfort_score (df : score_columns) : float :=
  let scores := 50.0 in
  let scores :=
    match c_temperature df with
    | Some x => scores * 0.5 + temp_score x * 0.5
    | None => scores
    end in
  let scores :=
    match c_pm10 df with
    | Some x => scores * 0.7 + pm10_score x * 0.3
    | None => scores
    end in
  let scores :=
    match c_is_rush_hour df with
    | Some b => scores - times b 10
    | None => scores
    end in
  let scores :=
    match c_is_weekend df with
    | Some b => scores + times b 5
    | None => scores
    end in
  let scores :=
    match c_temp_extreme df with
    | Some b => scores - times b 20
    | None => scores
    end in
  clip scores 0 100.

(** A row of the frame [add_engineered_features] returns. *)
Record feature : Type := {
  row : fused;
  hour : option Z;
  day_of_week : option Z;
  month : option Z;
  is_rush_hour : bool;
  is_morning_rush : bool;
  is_evening_rush : bool;
  is_weekday : bool;
  is_weekend : bool;
  season : option season_t;
  temp_category : option temp_category_t;
  temp_comfort : option float;
  temp_extreme : bool;
  heating_needed : bool;
  cooling_needed : bool;
  is_metro_area : bool;
  is_coastal : bool;
  region : region_t;
  pm10_grade : option pm10_grade_t;
  mask_needed : bool;
  outdoor_activity_ok : bool;
  has_uv : bool;
  sun_protection_needed : bool;
  comfort_score : float
}.

Definition opt_test {A : Type} (p : A -> bool) (x : option A) : bool :=
  match x with
  | Some v => p v
  | None => false
  end.

(** The columns [add_engineered_features] hands to
    [calculate_comfort_score]: all five are present. *)
Definition score_columns_of (r : fused) (rush weekend extreme : bool) : score_columns :=
  {| c_temperature := Some (temperature r);
     c_pm10 := Some (pm10 r);
     c_is_rush_hour := Some rush;
     c_is_weekend := Some weekend;
     c_temp_extreme := Some extreme |}.

Definition engineer (r : fused) : feature :=
  let h := option_map Calendar.hour (datetime r) in
  let dow := option_map Calendar.dayofweek (datetime r) in
  let mon := option_map Calendar.month (datetime r) in
  let rush := opt_test (fun x => isin Z.eqb x [7; 8; 9; 18; 19; 20]%Z) h in
  let weekend := opt_test (fun x => 5 <=? x)%Z dow in
  let extreme := col_test (fun t => (t <? 0) || (30 <? t)) (temperature r) in
  {| row := r;
     hour := h;
     day_of_week := dow;
     month := mon;
     is_rush_hour := rush;
     is_morning_rush := opt_test (fun x => isin Z.eqb x [7; 8; 9]%Z) h;
     is_evening_rush := opt_test (fun x => isin Z.eqb x [18; 19; 20]%Z) h;
     is_weekday := opt_test (fun x => x <? 5)%Z dow;
     is_weekend := weekend;
     season := match mon with Some m => season_of m | None => None end;
     temp_category := temp_category_of (temperature r);
     temp_comfort := col_map (fun t => 20 - abs (t - 20)) (temperature r);
     temp_extreme := extreme;
     heating_needed := col_test (fun t => t <? 10) (temperature r);
     cooling_needed := col_test (fun t => 25 <? t) (temperature r);
     is_metro_area := isin String.eqb (station_id r) metro_stations;
     is_coastal := isin String.eqb (station_id r) coastal_stations;
     region := region_of (station_id r);
     pm10_grade := pm10_grade_of (pm10 r);
     mask_needed := col_test (fun p => 50 <? p) (pm10 r);
     outdoor_activity_ok := col_test (fun p => p <=? 80) (pm10 r);
     has_uv := negb (Py.isna (uv_uvb r)) && col_test (fun u => 0 <? u) (uv_uvb r);
     sun_protection_needed := col_test (fun u => 0.02 <? u) (uv_uvb r);
     comfort_score := calculate_comfort_score (score_columns_of r rush weekend extreme) |}.

(** [add_engineered_features]: every column is computed row by row, so an
    empty frame comes back empty. *)
Definition add_engineered_features (df : list fused) : list feature :=
  List.map engineer df.

(** [create_ml_dataset] *)
Definition create_ml_dataset (d : raw_data) : list feature :=
  match collect d with
  | [] => []
  | all_records => add_engineered_features (sort_values (dropna all_records))
  end.

End feature_builder.

(** ** [src/storage/s3_client.py] *)

Module s3_client.

#[local] Open Scope string_scope.

(** What a call gives back: a value, or an exception. *)
Inductive outcome (A : Type) : Type :=
| Returned (a : A)
| Raised.

Arguments Returned {A} a.
Arguments Raised {A}.

(** The order of [sorted] on [str]: code point order. *)
Definition str_le (a b : string) : Prop := String.leb a b = true.

#[export] Instance str_le_dec : RelDecision str_le :=
  fun a b => Bool.bool_dec (String.leb a b) true.

(** [sorted(keys)] *)
Definition sorted (keys : list string) : list string := merge_sort str_le keys.

Section Bucket.

(** The value of a parquet table, and [pd.read_parquet(io.BytesIO(obj))];
    [None] is the exception raised for bytes that are not a parquet
    file. *)
Variable table : Type.
Variable read_parquet : list Byte.byte -> option table.

(** The bucket behind an [S3StorageClient]: the object stored under each
    key. *)
Definition bucket : Type := gmap string (list Byte.byte).

(** [S3StorageClient.list_objects]: the keys that start with [prefix]. *)
Definition list_objects (prefix : string) (b : bucket) : list string :=
  List.filter (String.prefix prefix) (List.map fst (map_to_list b)).

(** [S3StorageClient.get_object]; a key that is not there raises. *)
Definition get_object (key : string) (b : bucket) : outcome (list Byte.byte) :=
  match b !! key with
  | Some obj => Returned obj
  | None => Raised
  end.

(** [WeatherDataS3Handler.load_latest_ml_dataset] *)
Definition load_latest_ml_dataset (days_back : Z) (b : bucket) : outcome (option table) :=
  let prefix := "ml_dataset/" in
  let keys := list_objects prefix b in
  match keys with
  | [] => Returned None
  | _ =>
      let parquet_keys := List.filter (Py.endswith ".parquet") keys in
      match parquet_keys with
      | [] => Returned None
      | _ =>
          let latest_key := List.last (sorted parquet_keys) "" in
          match get_object latest_key b with
          | Returned obj =>
              match read_parquet obj with
              | Some df => Returned (Some df)
              | None => Raised
              end
          | Raised => Raised
          end
      end
  end.

End Bucket.

Arguments load_latest_ml_dataset {table} read_parquet days_back b.

(** What [put_object] is given: a [str] or [bytes]. *)
Inductive body : Type :=
| Text (s : string)
| Bytes (l : list Byte.byte).

(** [body.encode("utf-8")] *)
Definition encode (s : string) : list Byte.byte := list_byte_of_string s.

(** [S3StorageClient.put_object]: the key it returns, and the bucket. *)
Definition put_object (key : string) (data : body) (b : bucket) : string * bucket :=
  let data := match data with Text s => encode s | Bytes l => l end in
  (key, <[key := data]> b).

(** [S3StorageClient.delete_object] *)
Definition delete_object (key : string) (b : bucket) : bucket := delete key b.

(** [get_data_inventory] *)
Record inventory : Type := {
  raw_data : nat;
  processed_data : nat;
  ml_datasets : nat;
  total : nat
}.

Definition get_data_inventory (b : bucket) : inventory :=
  {| raw_data := List.length (list_objects "raw/" b);
     processed_data := List.length (list_objects "processed/" b);
     ml_datasets := List.length (list_objects "ml_dataset/" b);
     total := List.length (list_objects "" b) |}.

(** [save_raw_weather_data] *)
Definition save_raw_weather_data (data_type raw_data : string) (timestamp : Z) (b : bucket)
  : string * bucket :=
  let date_str := Calendar.strftime_date_path timestamp in
  let time_str := Calendar.strftime_HMS timestamp in
  let key := "raw/" ++ data_type ++ "/" ++ date_str ++ "/" ++ time_str ++ ".txt" in
  let '(_, b) := put_object key (Text raw_data) b in
  (key, b).

Section Handler.

(** [json.dumps(parsed_data, ensure_ascii=False, default=str)] on a list
    of records, and [df.to_parquet(buffer, index=False)] followed by
    [buffer.getvalue()]. *)
Variable records : Type.
Variable json_dumps : records -> string.
Variable table : Type.
Variable to_parquet : table -> list Byte.byte.

(** [save_parsed_weather_data] *)
Definition save_parsed_weather_data (data_type : string) (parsed_data : records)
  (timestamp : Z) (b : bucket) : string * bucket :=
  let date_str := Calendar.strftime_date_path timestamp in
  let time_str := Calendar.strftime_HMS timestamp in
  let key := "processed/" ++ data_type ++ "/" ++ date_str ++ "/" ++ time_str ++ ".json" in
  let json_data := json_dumps parsed_data in
  let '(_, b) := put_object key (Text json_data) b in
  (key, b).

(** [save_ml_dataset] *)
Definition save_ml_dataset (df : table) (timestamp : Z) (b : bucket) : string * bucket :=
  let date_str := Calendar.strftime_date_path timestamp in
  let time_str := Calendar.strftime_HMS timestamp in
  let key := "ml_dataset/" ++ date_str ++ "/dataset_" ++ time_str ++ ".parquet" in
  let '(_, b) := put_object key (Bytes (to_parquet df)) b in
  (key, b).

End Handler.

Arguments save_parsed_weather_data {records} json_dumps data_type parsed_data timestamp b.
Arguments save_ml_dataset {table} to_parquet df timestamp b.

End s3_client.

(** ** [src/data_ingestion/weather_processor.py] *)

Module weather_processor.

#[local] Open Scope string_scope.

Import parsers.

Section Processor.

Variable now : nat -> Z.
Variable json_dumps : list parsers.record -> string.
Variable to_parquet : list feature_builder.feature -> list Byte.byte.

(** Whether pandas and the parquet writer take the frame of the parsed
    records: where they do not, [create_ml_dataset] or [save_ml_dataset]
    raises, and the handler of [process_and_store_weather_data] answers
    for the whole call. *)
Variable accepted : feature_builder.raw_data -> bool.

(** [if raw:] on an argument that is [None] or a [str]. *)
Definition given (raw : option string) : bool :=
  match raw with
  | Some s => Py.nonempty s
  | None => false
  end.

Definition payload_of (raw : option string) : string :=
  match raw with Some s => s | None => "" end.

(** [stored_keys[name] = key] on a [dict] kept in insertion order; the
    names stored by one call are all different. *)
Definition store (name key : string) (stored_keys : list (string * string))
  : list (string * string) :=
  stored_keys ++ [(name, key)].

(** One [if raw: stored_keys[...] = save_raw_weather_data(...)]. *)
Definition store_raw (name data_type : string) (raw : option string) (timestamp : Z)
  (st : list (string * string) * s3_client.bucket) : list (string * string) * s3_client.bucket :=
  if given raw then
    let '(key, b) := s3_client.save_raw_weather_data data_type (payload_of raw) timestamp (snd st) in
    (store name key (fst st), b)
  else st.

(** One [if parsed: stored_keys[...] = save_parsed_weather_data(...)]. *)
Definition store_parsed (name data_type : string) (parsed : list parsers.record)
  (timestamp : Z) (st : list (string * string) * s3_client.bucket)
  : list (string * string) * s3_client.bucket :=
  match parsed with
  | [] => st
  | _ =>
      let '(key, b) := s3_client.save_parsed_weather_data json_dumps data_type parsed timestamp (snd st) in
      (store name key (fst st), b)
  end.

(** [parsers.parse_..._raw(raw) if raw else []] *)
Definition parse_if_given (parse : string -> Clock (list parsers.record)) (raw : option string)
  : Clock (list parsers.record) :=
  if given raw then parse (payload_of raw) else ret [].

Definition raw_data_of (parsed_asos parsed_pm10 parsed_uv : list parsers.record)
  : feature_builder.raw_data :=
  {| feature_builder.asos := List.map raw.of_record parsed_asos;
     feature_builder.pm10_records := List.map raw.of_record parsed_pm10;
     feature_builder.uv := List.map raw.of_record parsed_uv |}.

(** [WeatherDataProcessor.process_and_store_weather_data]: the stored
    keys and the bucket afterwards.  The stores and the parsers do not
    raise; an exception of the dataset step is caught by the handler,
    which answers [{}] and leaves the bucket as the stores before it made
    it. *)
Definition process_and_store_weather_data (asos_raw pm10_raw uv_raw : option string)
  (timestamp : option Z) (b : s3_client.bucket)
  : Clock (list (string * string) * s3_client.bucket) :=
  timestamp <- (match timestamp with Some t => ret t | None => datetime_now now end) ;;
  let st := ([], b) in
  let st := store_raw "asos_raw" "asos" asos_raw timestamp st in
  let st := store_raw "pm10_raw" "pm10" pm10_raw timestamp st in
  let st := store_raw "uv_raw" "uv" uv_raw timestamp st in
  parsed_asos <- parse_if_given (parse_asos_raw now) asos_raw ;;
  parsed_pm10 <- parse_if_given (parse_pm10_raw now) pm10_raw ;;
  parsed_uv <- parse_if_given (parse_uv_raw now) uv_raw ;;
  let st := store_parsed "asos_parsed" "asos" parsed_asos timestamp st in
  let st := store_parsed "pm10_parsed" "pm10" parsed_pm10 timestamp st in
  let st := store_parsed "uv_parsed" "uv" parsed_uv timestamp st in
  ret (match parsed_asos, parsed_pm10, parsed_uv with
       | [], [], [] => st
       | _, _, _ =>
           let raw_data := raw_data_of parsed_asos parsed_pm10 parsed_uv in
           if accepted raw_data then
             match feature_builder.create_ml_dataset raw_data with
             | [] => st
             | ml_dataset =>
                 let '(ml_key, b) :=
                   s3_client.save_ml_dataset to_parquet ml_dataset timestamp (snd st) in
                 (store "ml_dataset" ml_key (fst st), b)
             end
           else ([], snd st)
       end).

(** [WeatherDataProcessor.parse_weather_data]; an unsupported type raises
    [ValueError] inside the [try], whose handler answers the empty
    list. *)
Definition parse_weather_data (data_type raw_data : string) : Clock (list parsers.record) :=
  if String.eqb data_type "asos" then parse_asos_raw now raw_data
  else if String.eqb data_type "pm10" then parse_pm10_raw now raw_data
  else if String.eqb data_type "uv" then parse_uv_raw now raw_data
  else ret [].

End Processor.

End weather_processor.

(** ** Vocabulary of the statements *)

Module Spec.

#[local] Open Scope float_scope.

(** A float in the closed interval [[0, 100]]. *)
Definition in_range (s : float) : Prop :=
  is_nan s = false /\ (0 <=? s) = true /\ (s <=? 100) = true.

(** A property of entries of [all_records] that the particulate and the
    ultraviolet loop never destroy. *)
Definition stable (Q : feature_builder.fused -> Prop) : Prop :=
  (forall v x, Q x -> Q (feature_builder.set_pm10 v x)) /\
  (forall b a e x, Q x -> Q (feature_builder.set_uv b a e x)).

(** A value that [float] reads as the sentinel -999.0. *)
Definition sentinel (v : Py.pyval) : Prop :=
  exists f : float, Py.to_float v = Some f /\ (f =? -999.0) = true.

(** A ground-station reading at station 108, 2025-01-01 13:00 UTC, and a
    particulate reading for the same station and hour. *)
Definition asos_108 : raw.t :=
  {| raw.station_id := "108"; raw.observed_at := Some 1735736400000000%Z;
     raw.value := Py.PStr "5.2"; raw.uva_value := Py.PNone; raw.euv_value := Py.PNone |}.

Definition pm10_108 : raw.t :=
  {| raw.station_id := "108"; raw.observed_at := Some 1735736400000000%Z;
     raw.value := Py.PInt 42; raw.uva_value := Py.PNone; raw.euv_value := Py.PNone |}.

(** A clock that stands still. *)
Definition midnight (_ : nat) : Z := 0%Z.

(** The line feed, on which the parsers split a payload. *)
Definition LF : ascii := "010"%char.

(** A line with nothing but whitespace, and a line the parsers skip: a
    comment (it starts with [#]) or a blank line. *)
Definition blank (line : string) : Prop := Py.strip line = "".

Definition comment_or_blank (line : string) : Prop :=
  Py.startswith "#" line = true \/ blank line.

(** The lines of a piece [s] of a payload: [all_skipped s] when every
    line is skipped; [tail_skipped s] when every line but the first is
    (the first being the rest of a comment); [blank_then_skipped s] when
    moreover the first is blank (being the rest of a blank line). *)
Definition all_skipped (s : string) : Prop :=
  comment_or_blank (hd "" (Py.split LF s)) /\ Forall comment_or_blank (tl (Py.split LF s)).

Definition tail_skipped (s : string) : Prop :=
  Forall comment_or_blank (tl (Py.split LF s)).

Definition blank_then_skipped (s : string) : Prop :=
  blank (hd "" (Py.split LF s)) /\ Forall comment_or_blank (tl (Py.split LF s)).

(** A key of the bucket under the [ml_dataset/] prefix that ends in
    [.parquet]. *)
Definition dataset_key (b : s3_client.bucket) (key : string) : Prop :=
  is_Some (b !! key) /\
  Py.startswith "ml_dataset/" key = true /\
  Py.endswith ".parquet" key = true.

(** The identity key of a fused row, and the keys of the rows of a list
    that have a datetime. *)
Definition key (r : feature_builder.fused) : string * option Z :=
  (feature_builder.station_id r, feature_builder.datetime r).

Definition valid_keys (rows : list feature_builder.fused) : list (string * option Z) :=
  List.map key (feature_builder.dropna rows).

(** The keys of the input records that have a timestamp. *)
Definition raw_valid_keys (rows : list raw.t) : list (string * option Z) :=
  List.map (fun r => (raw.station_id r, raw.observed_at r))
    (List.filter (fun r => match raw.observed_at r with Some _ => true | None => false end)
       rows).

(** The lexicographic combination of two comparisons. *)
Definition lex (c1 c2 : comparison) : comparison :=
  match c1 with Eq => c2 | _ => c1 end.

(** A timestamp whose year prints as four digits, as [%Y] is modelled. *)
Definition four_digit_year (t : Z) : Prop := (1000 <= Calendar.year t <= 9999)%Z.

(** A bucket with nothing under [ml_dataset/] that ends in [.parquet]. *)
Definition no_dataset (b : s3_client.bucket) : Prop := forall key, ~ dataset_key b key.

(** A ground-station row that the ASOS loop appends: [float] did not
    raise on its value. *)
Definition asos_accepted (r : raw.t) : bool :=
  match feature_builder.asos_temperature (raw.value r) with
  | Some _ => true
  | None => false
  end.

(** The key of an input row. *)
Definition raw_key (r : raw.t) : string * option Z := (raw.station_id r, raw.observed_at r).

(** The keys of the returned rows. *)
Definition dataset_keys (rows : list feature_builder.feature) : list (string * option Z) :=
  List.map (fun f => key (feature_builder.row f)) rows.

(** Where the values of a fused row come from: the temperature from a
    ground-station record of the row's station and timestamp, the PM10
    value from a particulate record, and the three ultraviolet values,
    when one of them is there, from one and the same ultraviolet
    record. *)
Definition provenance (d : feature_builder.raw_data) (x : feature_builder.fused) : Prop :=
  (forall v, feature_builder.temperature x = Some v ->
     exists r, In r (feature_builder.asos d) /\ raw_key r = key x /\
               feature_builder.asos_temperature (raw.value r) = Some (Some v)) /\
  (forall v, feature_builder.pm10 x = Some v ->
     exists r, In r (feature_builder.pm10_records d) /\ raw_key r = key x /\
               feature_builder.pm10_value (raw.value r) = Some v) /\
  (feature_builder.uv_uvb x <> None \/ feature_builder.uv_uva x <> None \/
   feature_builder.uv_euv x <> None ->
     exists r, In r (feature_builder.uv d) /\ raw_key r = key x /\
               feature_builder.uv_uvb x = feature_builder.uv_value (raw.value r) /\
               feature_builder.uv_uva x = feature_builder.uv_value (raw.uva_value r) /\
               feature_builder.uv_euv x = feature_builder.uv_value (raw.euv_value r)).

(** An entry with key [k] and the particulate value [v]. *)
Definition has_pm10 (k : string * option Z) (v : option float) (x : feature_builder.fused) : Prop :=
  key x = k /\ feature_builder.pm10 x = v.

(** The temporal columns of a returned row: all are there and in range,
    and the season is the one of the month. *)
Definition timed (f : feature_builder.feature) : Prop :=
  exists (t h w m : Z) (s : feature_builder.season_t),
    feature_builder.datetime (feature_builder.row f) = Some t /\
    feature_builder.hour f = Some h /\ (0 <= h <= 23)%Z /\
    feature_builder.day_of_week f = Some w /\ (0 <= w <= 6)%Z /\
    feature_builder.month f = Some m /\ (1 <= m <= 12)%Z /\
    feature_builder.season f = Some s /\
    s = (if (m <=? 2)%Z then feature_builder.winter
         else if (m <=? 5)%Z then feature_builder.spring
         else if (m <=? 8)%Z then feature_builder.summer
         else if (m <=? 11)%Z then feature_builder.autumn
         else feature_builder.winter) /\
    feature_builder.is_weekday f = negb (feature_builder.is_weekend f) /\
    feature_builder.is_weekend f = (5 <=? w)%Z.

(** The bin of a particulate grade and of a temperature category, as a
    test on the value. *)
Definition in_grade (g : feature_builder.pm10_grade_t) (v : float) : bool :=
  match g with
  | feature_builder.good => (0 <? v) && (v <=? 30)
  | feature_builder.moderate => (30 <? v) && (v <=? 80)
  | feature_builder.unhealthy => (80 <? v) && (v <=? 150)
  | feature_builder.very_unhealthy => (150 <? v) && (v <=? 999)
  end.

Definition in_category (c : feature_builder.temp_category_t) (v : float) : bool :=
  match c with
  | feature_builder.very_cold => (-999 <? v) && (v <=? 0)
  | feature_builder.cold => (0 <? v) && (v <=? 10)
  | feature_builder.mild => (10 <? v) && (v <=? 20)
  | feature_builder.warm => (20 <? v) && (v <=? 30)
  | feature_builder.hot => (30 <? v) && (v <=? 999)
  end.

(** A row with its temperature replaced. *)
Definition with_temperature (t : option float) (r : feature_builder.fused)
  : feature_builder.fused :=
  {| feature_builder.station_id := feature_builder.station_id r;
     feature_builder.datetime := feature_builder.datetime r;
     feature_builder.temperature := t;
     feature_builder.pm10 := feature_builder.pm10 r;
     feature_builder.uv_uvb := feature_builder.uv_uvb r;
     feature_builder.uv_uva := feature_builder.uv_uva r;
     feature_builder.uv_euv := feature_builder.uv_euv r |}.

(** A token of [str.split()]: not empty, and without whitespace. *)
Definition token (s : string) : Prop :=
  s <> "" /\ Forall (fun c => Py.isspace c = false) (list_ascii_of_string s).

(** The shape of the records of the three parsers. *)
Definition asos_shape (r : parsers.record) : Prop :=
  parsers.category r = "asos" /\ parsers.unit r = "" /\
  token (parsers.station_id r) /\
  (exists v, parsers.value r = Py.PStr v /\ token v) /\
  parsers.uva_value r = Py.PNone /\ parsers.euv_value r = Py.PNone.

Definition pm10_shape (r : parsers.record) : Prop :=
  parsers.category r = "pm10" /\ parsers.unit r = "μg/m³" /\
  (parsers.value r = Py.PNone \/ exists n : Z, parsers.value r = Py.PInt n /\ (0 <= n)%Z) /\
  parsers.uva_value r = Py.PNone /\ parsers.euv_value r = Py.PNone.

Definition uv_shape (r : parsers.record) : Prop :=
  parsers.category r = "uv" /\ parsers.unit r = "W/m²" /\
  token (parsers.station_id r) /\
  (exists v, parsers.value r = Py.PStr v /\ token v) /\
  (exists v, parsers.uva_value r = Py.PStr v /\ token v) /\
  (exists v, parsers.euv_value r = Py.PStr v /\ token v).

(** The records of a parser run from the [n]-th reading of the clock to
    the [n']-th: each is stamped with a reading of its own, in order, and
    no record takes more than two readings. *)
Definition stamped (now : nat -> Z) (n : nat) (rows : list parsers.record) (n' : nat) : Prop :=
  (n + List.length rows <= n' <= n + 2 * List.length rows)%nat /\
  exists ks : list nat,
    List.map parsers.created_at rows = List.map now ks /\
    StronglySorted lt ks /\ Forall (fun k => n <= k < n')%nat ks.

(** The clock over one line: a record takes one reading for its
    [created_at], after at most one for its [observed_at]. *)
Definition line_stamp (now : nat -> Z) (n : nat) (o : option parsers.record) (k : nat) : Prop :=
  match o with
  | Some r => (k = S n \/ k = S (S n)) /\ parsers.created_at r = now (k - 1)%nat
  | None => k = n
  end.

(** The names under which [process_and_store_weather_data] reports its
    keys, in the order of the stores. *)
Definition report_names : list string :=
  ["asos_raw"; "pm10_raw"; "uv_raw"; "asos_parsed"; "pm10_parsed"; "uv_parsed"; "ml_dataset"].

(** A key under one of the three prefixes of the handler. *)
Definition under_prefixes (key : string) : bool :=
  Py.startswith "raw/" key || Py.startswith "processed/" key || Py.startswith "ml_dataset/" key.

(** A report that is true of the bucket [b'] reached from [b]: every
    reported key holds an object, under one of the three prefixes, and
    the objects under the other keys are those of [b]. *)
Definition faithful_report (b : s3_client.bucket) (stored_keys : list (string * string))
  (b' : s3_client.bucket) : Prop :=
  (forall name key, In (name, key) stored_keys ->
     is_Some (b' !! key) /\ under_prefixes key = true) /\
  (forall key, ~ In key (List.map snd stored_keys) -> b' !! key = b !! key).

(** A bucket [b'] grown from [b]: no key is lost, and only objects under
    the three prefixes differ. *)
Definition grown (b b' : s3_client.bucket) : Prop :=
  (forall key, is_Some (b !! key) -> is_Some (b' !! key)) /\
  (forall key, under_prefixes key = false -> b' !! key = b !! key).

(** The records [process_and_store_weather_data] parses from its
    payloads, the clock standing at its [n]-th reading on entry. *)
Definition parsed_payloads (now : nat -> Z) (asos_raw pm10_raw uv_raw : option string)
  (timestamp : option Z) (n : nat) : feature_builder.raw_data :=
  let n0 := match timestamp with Some _ => n | None => S n end in
  let '(parsed_asos, n1) :=
    weather_processor.parse_if_given (parsers.parse_asos_raw now) asos_raw n0 in
  let '(parsed_pm10, n2) :=
    weather_processor.parse_if_given (parsers.parse_pm10_raw now) pm10_raw n1 in
  let '(parsed_uv, _) :=
    weather_processor.parse_if_given (parsers.parse_uv_raw now) uv_raw n2 in
  weather_processor.raw_data_of parsed_asos parsed_pm10 parsed_uv.

End Spec.

(** * Properties *)

(** ** The comfort score *)

Section ComfortScore.

Import feature_builder Spec.

#[local] Open Scope float_scope.

(** The two sub-scores take their values in a fixed table. *)
Lemma temp_score_values (x : option float) :
  In (temp_score x) [100; 90; 70; 50; 20; 10].
Proof.
  unfold temp_score.
  destruct x as [v|]; [|simpl; auto].
  destruct (is_nan v); [simpl; auto|].
  repeat match goal with
         | |- context [if ?b then _ else _] => destruct b
         end; simpl; auto 10.
Qed.

Lemma pm10_score_values (x : option float) :
  In (pm10_score x) [50; 90; 70; 30; 10].
Proof.
  unfold pm10_score.
  destruct x as [v|]; [|simpl; auto].
  destruct (is_nan v); [simpl; auto|].
  repeat match goal with
         | |- context [if ?b then _ else _] => destruct b
         end; simpl; auto 10.
Qed.

Lemma score_of_subscores_in_range (t p : option float) (r w e : option bool) :
  (match t with Some f => In f [100; 90; 70; 50; 20; 10] | None => True end) ->
  (match p with Some f => In f [50; 90; 70; 30; 10] | None => True end) ->
  in_range
    (clip
       (let s := 50.0 in
        let s := match t with Some f => s * 0.5 + f * 0.5 | None => s end in
        let s := match p with Some f => s * 0.7 + f * 0.3 | None => s end in
        let s := match r with Some b => s - times b 10 | None => s end in
        let s := match w with Some b => s + times b 5 | None => s end in
        let s := match e with Some b => s - times b 20 | None => s end in
        s) 0 100).
Proof.
  intros Ht Hp.
  destruct t as [t|], p as [p|]; simpl in Ht, Hp;
    repeat match goal with
           | H : _ \/ _ |- _ => destruct H as [<-|H]
           | H : False |- _ => destruct H
           end;
    destruct r as [[|]|], w as [[|]|], e as [[|]|];
    vm_compute; auto.
Qed.

Lemma calculate_comfort_score_in_range (df : score_columns) :
  in_range (calculate_comfort_score df).
Proof.
  destruct df as [t p r w e].
  unfold calculate_comfort_score; cbn [c_temperature c_pm10 c_is_rush_hour c_is_weekend c_temp_extreme].
  pose proof (score_of_subscores_in_range
                (option_map temp_score t) (option_map pm10_score p) r w e) as H.
  destruct t as [t|], p as [p|]; cbn [option_map] in H; apply H;
    auto using temp_score_values, pm10_score_values.
Qed.

(** The score column of [add_engineered_features] is within the range. *)
Lemma engineer_comfort_score_in_range (r : fused) :
  in_range (comfort_score (engineer r)).
Proof. apply calculate_comfort_score_in_range. Qed.

(** C3: [calculate_comfort_score] is a total function, and whatever columns
    the frame has and whichever values are missing, the score of a row is
    a number (not a NaN) of the closed interval [[0, 100]]. *)
Theorem comfort_score_total_in_range (df : score_columns) :
  exists s : float, calculate_comfort_score df = s /\ in_range s.
Proof.
  eexists; split; [reflexivity|]. apply calculate_comfort_score_in_range.
Qed.


(** The row with nothing but a station and a timestamp: Wednesday
    2025-01-01, 13:00 UTC. *)
Example all_missing_row_flags :
  let f := engineer {| station_id := "108"; datetime := Some 1735736400000000%Z;
                       temperature := None; pm10 := None;
                       uv_uvb := None; uv_uva := None; uv_euv := None |} in
  (is_rush_hour f, is_weekend f, temp_extreme f) = (false, false, false).
Proof. reflexivity. Qed.




End ComfortScore.

(** ** Order of binary64 numbers *)

Section FloatOrder.

#[local] Open Scope float_scope.

Lemma SFcompare_cases_lt (a b c : spec_float) :
  SFltb a b = true -> SFltb b c = true -> SFltb a c = true.
Proof.
  unfold SFltb, SFcompare.
  destruct a as [[|]|[|]| |[|] ma ea], b as [[|]|[|]| |[|] mb eb], c as [[|]|[|]| |[|] mc ec];
    try discriminate; try reflexivity;
    change (Pos.compare_cont Eq) with Pos.compare;
    destruct (Z.compare_spec ea eb), (Z.compare_spec eb ec), (Z.compare_spec ea ec);
    try discriminate; try reflexivity; try lia; subst;
    destruct (Pos.compare_spec ma mb), (Pos.compare_spec mb mc), (Pos.compare_spec ma mc);
    cbn; try discriminate; try reflexivity; try lia.
Qed.

Lemma SFleb_SFltb_false (a b : spec_float) :
  SFleb a b = true -> SFltb b a = false.
Proof.
  unfold SFleb, SFltb, SFcompare.
  destruct a as [[|]|[|]| |[|] ma ea], b as [[|]|[|]| |[|] mb eb];
    try discriminate; try reflexivity;
    change (Pos.compare_cont Eq) with Pos.compare;
    destruct (Z.compare_spec ea eb), (Z.compare_spec eb ea);
    try discriminate; try reflexivity; try lia; subst;
    destruct (Pos.compare_spec ma mb), (Pos.compare_spec mb ma);
    cbn; try discriminate; try reflexivity; try lia.
Qed.

Lemma SFltb_not_nan_r (a b : spec_float) :
  SFltb a b = true -> SFeqb b b = true.
Proof.
  unfold SFltb, SFeqb, SFcompare.
  destruct a as [[|]|[|]| |[|] ma ea], b as [[|]|[|]| |[|] mb eb];
    try discriminate; try reflexivity; intros _;
    change (Pos.compare_cont Eq) with Pos.compare;
    rewrite Z.compare_refl, Pos.compare_refl; reflexivity.
Qed.

Lemma SFleb_not_nan_l (a b : spec_float) :
  SFleb a b = true -> SFeqb a a = true.
Proof.
  unfold SFleb, SFeqb, SFcompare.
  destruct a as [[|]|[|]| |[|] ma ea], b as [[|]|[|]| |[|] mb eb];
    try discriminate; try reflexivity; intros _;
    change (Pos.compare_cont Eq) with Pos.compare;
    rewrite Z.compare_refl, Pos.compare_refl; reflexivity.
Qed.

Lemma ltb_trans (x y z : float) :
  (x <? y) = true -> (y <? z) = true -> (x <? z) = true.
Proof. rewrite !FloatAxioms.ltb_spec. apply SFcompare_cases_lt. Qed.

Lemma leb_ltb_false (x y : float) :
  (x <=? y) = true -> (y <? x) = false.
Proof. rewrite FloatAxioms.leb_spec, FloatAxioms.ltb_spec. apply SFleb_SFltb_false. Qed.

Lemma ltb_not_nan_r (x y : float) :
  (x <? y) = true -> is_nan y = false.
Proof.
  unfold is_nan. rewrite FloatAxioms.ltb_spec, FloatAxioms.eqb_spec. intros H.
  now rewrite (SFltb_not_nan_r _ _ H).
Qed.

Lemma leb_not_nan_l (x y : float) :
  (x <=? y) = true -> is_nan x = false.
Proof.
  unfold is_nan. rewrite FloatAxioms.leb_spec, FloatAxioms.eqb_spec. intros H.
  now rewrite (SFleb_not_nan_l _ _ H).
Qed.

End FloatOrder.

(** ** Temperature categories *)

Section TempCategory.

Import feature_builder.

#[local] Open Scope float_scope.

(** Below an edge, below every greater edge. *)
Lemma below_edge (lo hi v : float) :
  (lo <? hi) = true -> (hi <? v) = true -> (lo <? v) = true.
Proof. apply ltb_trans. Qed.

Lemma not_above_edge (lo hi v : float) :
  (lo <? hi) = true -> (v <=? lo) = true -> (hi <? v) = false.
Proof.
  intros Hlh Hv.
  destruct (hi <? v) eqn:E; [|reflexivity].
  pose proof (ltb_trans _ _ _ Hlh E) as H.
  rewrite (leb_ltb_false _ _ Hv) in H. discriminate.
Qed.

(** The bin of a temperature between two consecutive edges. *)
Lemma temp_category_in_bin (v : float) :
  ((-999 <? v) = true -> (v <=? 0) = true -> temp_category_of (Some v) = Some very_cold) /\
  ((0 <? v) = true -> (v <=? 10) = true -> temp_category_of (Some v) = Some cold) /\
  ((10 <? v) = true -> (v <=? 20) = true -> temp_category_of (Some v) = Some mild) /\
  ((20 <? v) = true -> (v <=? 30) = true -> temp_category_of (Some v) = Some warm) /\
  ((30 <? v) = true -> (v <=? 999) = true -> temp_category_of (Some v) = Some hot).
Proof.
  unfold temp_category_of, pd_cut, searchsorted_left.
  repeat split; intros Hlo Hhi; rewrite (ltb_not_nan_r _ _ Hlo).
  - rewrite Hlo, (leb_ltb_false _ _ Hhi). reflexivity.
  - rewrite (below_edge (-999) 0 v eq_refl Hlo), Hlo, (leb_ltb_false _ _ Hhi). reflexivity.
  - rewrite (below_edge (-999) 10 v eq_refl Hlo), (below_edge 0 10 v eq_refl Hlo), Hlo,
      (leb_ltb_false _ _ Hhi). reflexivity.
  - rewrite (below_edge (-999) 20 v eq_refl Hlo), (below_edge 0 20 v eq_refl Hlo),
      (below_edge 10 20 v eq_refl Hlo), Hlo, (leb_ltb_false _ _ Hhi). reflexivity.
  - rewrite (below_edge (-999) 30 v eq_refl Hlo), (below_edge 0 30 v eq_refl Hlo),
      (below_edge 10 30 v eq_refl Hlo), (below_edge 20 30 v eq_refl Hlo), Hlo,
      (leb_ltb_false _ _ Hhi). reflexivity.
Qed.

Lemma temp_category_out_of_bins (v : float) :
  ((v <=? -999) = true -> temp_category_of (Some v) = None) /\
  ((999 <? v) = true -> temp_category_of (Some v) = None).
Proof.
  unfold temp_category_of, pd_cut, searchsorted_left.
  split; intros H.
  - rewrite (leb_ltb_false _ _ H). now destruct (is_nan v).
  - rewrite (below_edge (-999) 999 v eq_refl H), (below_edge 0 999 v eq_refl H),
      (below_edge 10 999 v eq_refl H), (below_edge 20 999 v eq_refl H),
      (below_edge 30 999 v eq_refl H), H. now destruct (is_nan v).
Qed.

Lemma temp_category_missing (t : option float) :
  Py.isna t = true -> temp_category_of t = None.
Proof.
  unfold temp_category_of, pd_cut.
  destruct t as [v|]; [|reflexivity]. simpl. now intros ->.
Qed.




End TempCategory.

(** ** Order of strings and of fused rows *)

Section Orders.

Import feature_builder.

Lemma ascii_compare_N (a b : ascii) :
  Ascii.compare a b = N.compare (N_of_ascii a) (N_of_ascii b).
Proof. reflexivity. Qed.

Lemma string_leb_trans (a b c : string) :
  String.leb a b = true -> String.leb b c = true -> String.leb a c = true.
Proof.
  unfold String.leb.
  revert b c.
  induction a as [|x xs IH]; intros [|y ys] [|z zs]; cbn [String.compare];
    try discriminate; try reflexivity.
  rewrite !ascii_compare_N.
  destruct (N.compare_spec (N_of_ascii x) (N_of_ascii y)),
           (N.compare_spec (N_of_ascii y) (N_of_ascii z)),
           (N.compare_spec (N_of_ascii x) (N_of_ascii z));
    try discriminate; try reflexivity; try lia.
  apply IH.
Qed.

Lemma string_leb_refl (a : string) : String.leb a a = true.
Proof. destruct (String.leb_total a a); assumption. Qed.

#[export] Instance str_le_total : Total s3_client.str_le.
Proof. intros a b. apply String.leb_total. Qed.

#[export] Instance str_le_trans : Transitive s3_client.str_le.
Proof. intros a b c. apply string_leb_trans. Qed.

#[export] Instance key_le_total : Total key_le.
Proof.
  intros a b. unfold key_le, key_leb.
  destruct (datetime a) as [x|], (datetime b) as [y|]; auto.
  - destruct (String.leb_total (station_id a) (station_id b)) as [H|H]; rewrite H;
      destruct (Z.ltb_spec x y), (Z.ltb_spec y x), (Z.eqb_spec x y), (Z.eqb_spec y x);
      cbn; auto; lia.
  - apply String.leb_total.
Qed.

#[export] Instance key_le_trans : Transitive key_le.
Proof.
  intros a b c. unfold key_le, key_leb.
  destruct (datetime a) as [x|], (datetime b) as [y|], (datetime c) as [z|];
    try discriminate; auto.
  - destruct (Z.ltb_spec x y), (Z.ltb_spec y z), (Z.ltb_spec x z),
             (Z.eqb_spec x y), (Z.eqb_spec y z), (Z.eqb_spec x z);
      cbn; auto; try lia; try discriminate.
    apply string_leb_trans.
  - apply string_leb_trans.
Qed.

(** [row] undoes [engineer]. *)
Lemma map_row_engineer (l : list fused) :
  List.map row (add_engineered_features l) = l.
Proof.
  unfold add_engineered_features.
  rewrite List.map_map. cbn [row engineer]. apply List.map_id.
Qed.

(** The fused part of the result of [create_ml_dataset]. *)
Lemma create_ml_dataset_rows (d : raw_data) :
  List.map row (create_ml_dataset d) = sort_values (dropna (collect d)).
Proof.
  unfold create_ml_dataset.
  destruct (collect d) as [|x l] eqn:E.
  - reflexivity.
  - apply map_row_engineer.
Qed.

(** On rows that have a datetime, [key_le] is the lexicographic order of
    (datetime, station_id). *)
Lemma key_le_lexicographic (l : list fused) :
  Forall (fun r => datetime r <> None) l ->
  StronglySorted key_le l ->
  StronglySorted
    (fun a b =>
       match datetime a, datetime b with
       | Some x, Some y =>
           (x < y)%Z \/ (x = y /\ String.leb (station_id a) (station_id b) = true)
       | _, _ => False
       end) l.
Proof.
  intros Hall Hs.
  induction Hs as [|a l Hs IH Ha]; [constructor|].
  inversion Hall as [|? ? Hda Hl]; subst.
  constructor; [apply IH; assumption|].
  rewrite Forall_forall in *. intros b Hb.
  specialize (Ha b Hb). specialize (Hl b Hb).
  unfold key_le, key_leb in Ha.
  destruct (datetime a) as [x|]; [|congruence].
  destruct (datetime b) as [y|]; [|congruence].
  destruct (Z.ltb_spec x y), (Z.eqb_spec x y); cbn in Ha; auto; try lia; discriminate.
Qed.

Lemma dropna_has_datetime (l : list fused) :
  Forall (fun r => datetime r <> None) (dropna l).
Proof.
  unfold dropna. apply Forall_forall. intros r Hr.
  apply list_elem_of_In, filter_In in Hr as [_ Hr]. unfold has_datetime in Hr.
  destruct (datetime r); [discriminate|discriminate].
Qed.

(** C8: the rows [create_ml_dataset] returns are the collected rows that
    have a datetime, each exactly as often as it was collected, in
    ascending order of (datetime, station_id). *)
Theorem create_ml_dataset_sorted (d : raw_data) :
  let out := List.map row (create_ml_dataset d) in
  Forall (fun r => datetime r <> None) out /\
  out ≡ₚ List.filter (fun r => match datetime r with Some _ => true | None => false end)
           (collect d) /\
  StronglySorted
    (fun a b =>
       match datetime a, datetime b with
       | Some x, Some y =>
           (x < y)%Z \/ (x = y /\ String.leb (station_id a) (station_id b) = true)
       | _, _ => False
       end) out.
Proof.
  cbv zeta. rewrite create_ml_dataset_rows. unfold sort_values.
  assert (Hperm : merge_sort key_le (dropna (collect d)) ≡ₚ dropna (collect d))
    by apply merge_sort_Permutation.
  assert (Hall : Forall (fun r => datetime r <> None) (merge_sort key_le (dropna (collect d)))).
  { rewrite Hperm. apply dropna_has_datetime. }
  split; [exact Hall|]. split; [exact Hperm|].
  apply key_le_lexicographic; [exact Hall|].
  apply StronglySorted_merge_sort; typeclasses eauto.
Qed.

End Orders.

(** ** Fusion *)

Section Fusion.

Import feature_builder Spec.

#[local] Open Scope float_scope.

Lemma merge_sort_singleton (x : fused) : sort_values [x] = [x].
Proof. reflexivity. Qed.

(** The scan changes at most one entry, and only through [upd]. *)
Lemma update_first_In st dt upd all all' x :
  update_first st dt upd all = Some all' ->
  In x all -> In x all' \/ In (upd x) all'.
Proof.
  revert all'. induction all as [|y l IH]; intros all' H Hx; [destruct Hx|].
  cbn [update_first] in H.
  destruct (same_key st dt y).
  - injection H as <-. destruct Hx as [->|Hx]; [right; now left | left; now right].
  - destruct (update_first st dt upd l) as [l'|]; [|discriminate].
    injection H as <-.
    destruct Hx as [->|Hx]; [left; now left|].
    destruct (IH l' eq_refl Hx); [left | right]; now right.
Qed.

(** When the scan finds an entry, the updated entry is in the result, and
    it had the key looked for. *)
Lemma update_first_found st dt upd all all' :
  update_first st dt upd all = Some all' ->
  exists x, In x all /\ same_key st dt x = true /\ In (upd x) all'.
Proof.
  revert all'. induction all as [|y l IH]; intros all' H; [discriminate|].
  cbn [update_first] in H.
  destruct (same_key st dt y) eqn:E.
  - injection H as <-. exists y. repeat split; [now left | assumption | now left].
  - destruct (update_first st dt upd l) as [l'|]; [|discriminate].
    injection H as <-.
    destruct (IH l' eq_refl) as (x & Hx & Hk & Hu).
    exists x. repeat split; [now right | assumption | now right].
Qed.

Lemma same_key_true st dt x :
  same_key st dt x = true -> station_id x = st /\ datetime x = dt.
Proof.
  unfold same_key, datetime_eqb. intros H.
  apply andb_prop in H as [Hs Hd].
  apply String.eqb_eq in Hs.
  destruct (datetime x) as [a|], dt as [b|]; try discriminate.
  apply Z.eqb_eq in Hd. now subst.
Qed.

Lemma fold_left_app_step {A B : Type} (f : A -> B -> A) (l1 l2 : list B) (x : B) (a : A) :
  fold_left f (l1 ++ x :: l2) a = fold_left f l2 (f (fold_left f l1 a) x).
Proof. now rewrite fold_left_app. Qed.

Lemma asos_row_keeps Q all r :
  (exists x, In x all /\ Q x) -> exists x, In x (asos_row all r) /\ Q x.
Proof.
  intros (x & Hx & HQ). exists x. split; [|exact HQ].
  unfold asos_row. destruct (asos_temperature (raw.value r)); [|exact Hx].
  apply in_or_app. now left.
Qed.

Lemma pm10_row_keeps Q all r :
  stable Q -> (exists x, In x all /\ Q x) -> exists x, In x (pm10_row all r) /\ Q x.
Proof.
  intros [Hp _] (x & Hx & HQ). unfold pm10_row.
  destruct (update_first _ _ _ all) as [all'|] eqn:E.
  - destruct (update_first_In _ _ _ _ _ x E Hx) as [H|H].
    + exists x. now split.
    + eexists. split; [exact H|]. now apply Hp.
  - exists x. split; [|exact HQ]. apply in_or_app. now left.
Qed.

Lemma uv_row_keeps Q all r :
  stable Q -> (exists x, In x all /\ Q x) -> exists x, In x (uv_row all r) /\ Q x.
Proof.
  intros [_ Hu] (x & Hx & HQ). unfold uv_row.
  destruct (update_first _ _ _ all) as [all'|] eqn:E.
  - destruct (update_first_In _ _ _ _ _ x E Hx) as [H|H].
    + exists x. now split.
    + eexists. split; [exact H|]. now apply Hu.
  - exists x. split; [|exact HQ]. apply in_or_app. now left.
Qed.

Lemma process_asos_keeps Q rows all :
  (exists x, In x all /\ Q x) -> exists x, In x (process_asos rows all) /\ Q x.
Proof.
  unfold process_asos. revert all.
  induction rows as [|r rows IH]; intros all H; [exact H|].
  cbn [fold_left]. apply IH. now apply asos_row_keeps.
Qed.

Lemma process_pm10_keeps Q rows all :
  stable Q -> (exists x, In x all /\ Q x) -> exists x, In x (process_pm10 rows all) /\ Q x.
Proof.
  intros HQ. unfold process_pm10. revert all.
  induction rows as [|r rows IH]; intros all H; [exact H|].
  cbn [fold_left]. apply IH. now apply pm10_row_keeps.
Qed.

Lemma process_uv_keeps Q rows all :
  stable Q -> (exists x, In x all /\ Q x) -> exists x, In x (process_uv rows all) /\ Q x.
Proof.
  intros HQ. unfold process_uv. revert all.
  induction rows as [|r rows IH]; intros all H; [exact H|].
  cbn [fold_left]. apply IH. now apply uv_row_keeps.
Qed.

(** An entry with a datetime that is collected is returned. *)
Lemma collected_is_returned (d : raw_data) (x : fused) :
  In x (collect d) -> datetime x <> None ->
  exists f, In f (create_ml_dataset d) /\ row f = x.
Proof.
  intros Hx Hd.
  assert (H : In x (List.map row (create_ml_dataset d))).
  { rewrite create_ml_dataset_rows. unfold sort_values.
    apply list_elem_of_In. rewrite merge_sort_Permutation.
    apply list_elem_of_In. unfold dropna. apply filter_In. split; [exact Hx|].
    unfold has_datetime. destruct (datetime x); congruence. }
  apply in_map_iff in H as (f & Hf & Hin). now exists f.
Qed.

End Fusion.

(** ** Fusion: what the loops do to one record *)

Section FusionRecords.

Import feature_builder Spec.

#[local] Open Scope float_scope.








End FusionRecords.

(** ** The ultraviolet sentinel *)

Section Sentinel.

Import feature_builder Spec.

#[local] Open Scope float_scope.

(** C6, counterexample: the record [parse_uv_raw] returns for a line whose
    three readings are the sentinel carries the three tokens as strings,
    not as missing values. *)
Lemma uv_parser_keeps_sentinel_tokens :
  List.map (fun r => (parsers.value r, parsers.uva_value r, parsers.euv_value r))
    (fst (parsers.parse_uv_raw midnight "202501011300 108 -999.0 -999.0 -999.0" O))
  = [(Py.PStr "-999.0", Py.PStr "-999.0", Py.PStr "-999.0")].
Proof. vm_compute. reflexivity. Qed.

Lemma uv_value_sentinel (v : Py.pyval) : sentinel v -> uv_value v = None.
Proof.
  intros (f & Hf & Hs). unfold uv_value. rewrite Hf, Hs. now destruct v.
Qed.

(** The entry the UV loop leaves for a record. *)
Lemma uv_row_entry (all : list fused) (r : raw.t) :
  exists x, In x (uv_row all r) /\
            station_id x = raw.station_id r /\
            datetime x = raw.observed_at r /\
            uv_uvb x = uv_value (raw.value r) /\
            uv_uva x = uv_value (raw.uva_value r) /\
            uv_euv x = uv_value (raw.euv_value r).
Proof.
  unfold uv_row.
  destruct (update_first _ _ _ all) as [all'|] eqn:E.
  - destruct (update_first_found _ _ _ _ _ E) as (x & _ & Hk & Hx).
    apply same_key_true in Hk as [Hs Hd].
    eexists. split; [exact Hx|]. cbn. auto.
  - eexists. split; [apply in_or_app; right; left; reflexivity|]. cbn. auto.
Qed.

(** C6, as amended: [parse_uv_raw] copies the UVB, UVA and erythemal-UV
    tokens of a line into its record as they are; it is the UV loop of
    [create_ml_dataset] that stores a reading which [float] reads as
    -999.0 as missing. *)
Theorem uv_sentinel_is_normalised_by_fusion :
  (forall (now : nat -> Z) (line : string) (n n' : nat) (r : parsers.record),
     parsers.uv_line now line n = (Some r, n') ->
     parsers.value r = Py.PStr (nth 2 (Py.split_ws line) "") /\
     parsers.uva_value r = Py.PStr (nth 3 (Py.split_ws line) "") /\
     parsers.euv_value r = Py.PStr (nth 4 (Py.split_ws line) "")) /\
  (forall (all_records : list fused) (r : raw.t),
     exists x, In x (uv_row all_records r) /\
               station_id x = raw.station_id r /\
               datetime x = raw.observed_at r /\
               (sentinel (raw.value r) -> uv_uvb x = None) /\
               (sentinel (raw.uva_value r) -> uv_uva x = None) /\
               (sentinel (raw.euv_value r) -> uv_euv x = None)).
Proof.
  split.
  - intros now line n n' r. unfold parsers.uv_line.
    destruct (5 <=? List.length (Py.split_ws line))%nat eqn:E; [|discriminate].
    apply Nat.leb_le in E.
    assert (H2 : (2 <? List.length (Py.split_ws line))%nat = true) by (apply Nat.ltb_lt; lia).
    assert (H3 : (3 <? List.length (Py.split_ws line))%nat = true) by (apply Nat.ltb_lt; lia).
    assert (H4 : (4 <? List.length (Py.split_ws line))%nat = true) by (apply Nat.ltb_lt; lia).
    rewrite H2, H3, H4.
    unfold parsers.bind, parsers.ret, parsers.datetime_now.
    destruct (if Py.nonempty (nth 0 (Py.split_ws line) "") then _ else _) as [obs k].
    intros H. injection H as <- _. cbn. auto.
  - intros all r.
    destruct (uv_row_entry all r) as (x & Hx & Hs & Hd & Hb & Ha & He).
    exists x. rewrite Hb, Ha, He.
    repeat split; auto using uv_value_sentinel.
Qed.

Lemma uv_sentinel_is_normalised_by_fusion_witness :
  exists x,
    In x (uv_row []
            {| raw.station_id := "108"; raw.observed_at := Some 1735736400000000%Z;
               raw.value := Py.PStr "-999.0"; raw.uva_value := Py.PStr "0.1";
               raw.euv_value := Py.PStr "-999.0" |}) /\
    station_id x = "108" /\ uv_uvb x = None /\ uv_euv x = None.
Proof.
  destruct (proj2 uv_sentinel_is_normalised_by_fusion []
              {| raw.station_id := "108"; raw.observed_at := Some 1735736400000000%Z;
                 raw.value := Py.PStr "-999.0"; raw.uva_value := Py.PStr "0.1";
                 raw.euv_value := Py.PStr "-999.0" |})
    as (x & Hx & Hs & _ & Hb & _ & He).
  exists x. repeat split.
  - exact Hx.
  - exact Hs.
  - apply Hb. exists (-999.0). split; vm_compute; reflexivity.
  - apply He. exists (-999.0). split; vm_compute; reflexivity.
Defined.

(** From the line to the fused row: the sentinel readings of a line end up
    missing, the other reading is kept. *)
Example uv_line_end_to_end :
  List.map (fun f => (uv_uvb (row f), uv_uva (row f), uv_euv (row f)))
    (create_ml_dataset
       {| asos := []; pm10_records := [];
          uv := List.map raw.of_record
                  (fst (parsers.parse_uv_raw midnight "202501011300 108 -999.0 0.5 -999.0" O)) |})
  = [(None, Some 0.5, None)].
Proof. vm_compute. reflexivity. Qed.

End Sentinel.

(** ** The parsers *)

Section Parsers.

Import parsers Spec.

(** *** Lines of a stripped payload *)

Lemma split_nonempty (sep : ascii) (s : string) :
  Py.split sep s = hd "" (Py.split sep s) :: tl (Py.split sep s).
Proof.
  destruct s as [|c r]; [reflexivity|].
  cbn [Py.split]. destruct (Ascii.eqb c sep); [reflexivity|].
  now destruct (Py.split sep r).
Qed.

Lemma split_cons (sep c : ascii) (r : string) :
  Py.split sep (String c r) =
  if Ascii.eqb c sep then "" :: Py.split sep r
  else String c (hd "" (Py.split sep r)) :: tl (Py.split sep r).
Proof.
  cbn [Py.split]. destruct (Ascii.eqb c sep); [reflexivity|].
  now rewrite (split_nonempty sep r) at 1.
Qed.

Lemma rstrip_cons (c : ascii) (r : string) :
  Py.rstrip (String c r) =
  match Py.rstrip r with
  | EmptyString => if Py.isspace c then EmptyString else String c EmptyString
  | r' => String c r'
  end.
Proof. reflexivity. Qed.

Lemma rstrip_keeps_head (c : ascii) (r : string) :
  Py.isspace c = false -> exists r', Py.rstrip (String c r) = String c r'.
Proof.
  intros H. rewrite rstrip_cons, H. destruct (Py.rstrip r); eauto.
Qed.

Lemma blank_cons (c : ascii) (h : string) :
  blank (String c h) <-> Py.isspace c = true /\ blank h.
Proof.
  unfold blank, Py.strip. cbn [Py.lstrip].
  destruct (Py.isspace c) eqn:E.
  - tauto.
  - destruct (rstrip_keeps_head c h E) as (r' & ->).
    split; [discriminate | intros [? _]; discriminate].
Qed.

Lemma blank_empty : blank "".
Proof. reflexivity. Qed.

Lemma startswith_hash_cons (c : ascii) (h : string) :
  Py.startswith "#" (String c h) = true <-> c = "#"%char.
Proof.
  unfold Py.startswith. cbn [String.prefix].
  destruct (ascii_dec "#" c) as [<-|Hne].
  - now destruct h.
  - split; [discriminate | congruence].
Qed.

Lemma skipped_iff (line : string) :
  is_data_line line = false <-> comment_or_blank line.
Proof.
  unfold is_data_line, comment_or_blank, blank.
  destruct (Py.startswith "#" line); cbn.
  - split; auto.
  - destruct (Py.strip line); cbn; split; auto; intros [H|H]; discriminate.
Qed.

Lemma comment_or_blank_cons (c : ascii) (h : string) :
  comment_or_blank (String c h) <->
  c = "#"%char \/ (Py.isspace c = true /\ blank h).
Proof.
  unfold comment_or_blank. now rewrite startswith_hash_cons, blank_cons.
Qed.

Lemma blank_is_skipped (line : string) : blank line -> comment_or_blank line.
Proof. now right. Qed.

Lemma all_skipped_iff (s : string) :
  all_skipped s <-> Forall comment_or_blank (Py.split LF s).
Proof.
  unfold all_skipped. rewrite (split_nonempty LF s) at 3.
  rewrite Forall_cons. tauto.
Qed.

Lemma rstrip_skipped (s : string) :
  (all_skipped s -> all_skipped (Py.rstrip s)) /\
  (tail_skipped s -> tail_skipped (Py.rstrip s)) /\
  (blank_then_skipped s -> blank_then_skipped (Py.rstrip s)).
Proof.
  unfold all_skipped, tail_skipped, blank_then_skipped.
  induction s as [|c r (IHa & IHt & IHb)]; [tauto|].
  rewrite rstrip_cons, split_cons.
  destruct (Ascii.eqb_spec c LF) as [->|Hc].
  - (* a line feed: a new line starts *)
    cbn [hd tl Py.isspace].
    destruct (Py.rstrip r) as [|c' r'] eqn:E.
    + cbn. repeat split; auto using blank_empty, blank_is_skipped.
    + rewrite <- E in IHa, IHt, IHb |- *.
      rewrite split_cons, Ascii.eqb_refl. cbn [hd tl].
      rewrite (split_nonempty LF (Py.rstrip r)), !Forall_cons.
      rewrite (split_nonempty LF r), !Forall_cons. tauto.
  - cbn [hd tl].
    destruct (Py.rstrip r) as [|c' r'] eqn:E.
    + destruct (Py.isspace c) eqn:Es.
      * cbn. repeat split; auto using blank_empty, blank_is_skipped.
      * rewrite split_cons.
        destruct (Ascii.eqb_spec c LF) as [?|_]; [contradiction|]. cbn.
        rewrite !comment_or_blank_cons, !blank_cons, Es.
        repeat split; auto; intuition discriminate.
    + rewrite <- E in IHa, IHt, IHb |- *.
      rewrite split_cons.
      destruct (Ascii.eqb_spec c LF) as [?|_]; [contradiction|]. cbn [hd tl].
      rewrite !comment_or_blank_cons, !blank_cons. tauto.
Qed.

Lemma lstrip_skipped (s : string) :
  all_skipped s -> all_skipped (Py.lstrip s).
Proof.
  unfold all_skipped.
  induction s as [|c r IH]; [tauto|].
  cbn [Py.lstrip]. destruct (Py.isspace c) eqn:Es; [|tauto].
  rewrite split_cons.
  destruct (Ascii.eqb_spec c LF) as [->|Hc]; cbn [hd tl].
  - rewrite (split_nonempty LF r) at 1. rewrite Forall_cons. tauto.
  - rewrite comment_or_blank_cons. intros [[->|[_ Hb]] Ht]; [discriminate|].
    apply IH. auto using blank_is_skipped.
Qed.

(** A payload of comment and blank lines has no data line. *)
Lemma no_data_lines (raw_data : string) :
  Forall comment_or_blank (Py.split LF raw_data) -> data_lines raw_data = [].
Proof.
  intros H. apply all_skipped_iff, lstrip_skipped, (proj1 (rstrip_skipped _)),
              all_skipped_iff in H.
  unfold data_lines. fold LF. fold (Py.strip raw_data) in H.
  induction H as [|l ls Hl _ IH]; [reflexivity|].
  cbn [List.filter]. apply skipped_iff in Hl. now rewrite Hl.
Qed.

(** *** The loop over the data lines *)

(** A loop body that answers for a line by itself: it appends a record,
    carrying the line, exactly for the lines that satisfy [ok]. *)
Lemma for_lines_raw_lines (body : string -> Clock (option record)) (ok : string -> bool) :
  (forall line n,
     match fst (body line n) with
     | Some r => raw_line r = line /\ ok line = true
     | None => ok line = false
     end) ->
  forall lines n,
    List.map raw_line (fst (for_lines body lines n)) = List.filter ok lines.
Proof.
  intros Hbody lines.
  induction lines as [|line rest IH]; intros n; [reflexivity|].
  cbn [for_lines List.filter]. unfold bind at 1.
  specialize (Hbody line n).
  destruct (body line n) as [o k]. cbn [fst] in Hbody.
  unfold bind. specialize (IH k).
  destruct (for_lines body rest k) as [rs k']. cbn [fst ret] in *.
  destruct o as [r|].
  - destruct Hbody as [<- ->]. cbn. now rewrite IH.
  - now rewrite Hbody.
Qed.

Lemma asos_line_answer (now : nat -> Z) (line : string) (n : nat) :
  match fst (asos_line now line n) with
  | Some r => raw_line r = line /\ (3 <=? List.length (Py.split_ws line))%nat = true
  | None => (3 <=? List.length (Py.split_ws line))%nat = false
  end.
Proof.
  unfold asos_line.
  destruct (3 <=? List.length (Py.split_ws line))%nat; [|reflexivity].
  unfold bind, ret, datetime_now.
  destruct (if Py.nonempty _ then _ else _) as [obs k]. cbn. auto.
Qed.

Lemma pm10_line_answer (now : nat -> Z) (line : string) (n : nat) :
  match fst (pm10_line now line n) with
  | Some r => raw_line r = line /\ (3 <=? List.length (Py.split "," line))%nat = true
  | None => (3 <=? List.length (Py.split "," line))%nat = false
  end.
Proof.
  unfold pm10_line.
  destruct (3 <=? List.length (Py.split "," line))%nat; [|reflexivity].
  unfold bind, ret, datetime_now.
  destruct (if Py.nonempty (if Py.nonempty _ then _ else _) then _ else _) as [obs k].
  cbn. auto.
Qed.

Lemma uv_line_answer (now : nat -> Z) (line : string) (n : nat) :
  match fst (uv_line now line n) with
  | Some r => raw_line r = line /\ (5 <=? List.length (Py.split_ws line))%nat = true
  | None => (5 <=? List.length (Py.split_ws line))%nat = false
  end.
Proof.
  unfold uv_line.
  destruct (5 <=? List.length (Py.split_ws line))%nat; [|reflexivity].
  unfold bind, ret, datetime_now.
  destruct (if Py.nonempty _ then _ else _) as [obs k]. cbn. auto.
Qed.

(** C7: each parser is a total function of the payload and returns a
    list of records: one record per data line with enough fields, in the
    order of the lines, whatever the other lines hold (a line with too few
    fields yields no record and stops nothing); and a payload of comment
    and blank lines only yields the empty list. *)
Theorem parsers_skip_bad_lines (now : nat -> Z) (raw_data : string) (n : nat) :
  (List.map raw_line (fst (parse_asos_raw now raw_data n)) =
     List.filter (fun line => (3 <=? List.length (Py.split_ws line))%nat) (data_lines raw_data) /\
   List.map raw_line (fst (parse_pm10_raw now raw_data n)) =
     List.filter (fun line => (3 <=? List.length (Py.split "," line))%nat) (data_lines raw_data) /\
   List.map raw_line (fst (parse_uv_raw now raw_data n)) =
     List.filter (fun line => (5 <=? List.length (Py.split_ws line))%nat) (data_lines raw_data)) /\
  (Forall comment_or_blank (Py.split LF raw_data) ->
   fst (parse_asos_raw now raw_data n) = [] /\
   fst (parse_pm10_raw now raw_data n) = [] /\
   fst (parse_uv_raw now raw_data n) = []).
Proof.
  unfold parse_asos_raw, parse_pm10_raw, parse_uv_raw.
  split.
  - repeat split.
    + apply for_lines_raw_lines, asos_line_answer.
    + apply for_lines_raw_lines, pm10_line_answer.
    + apply for_lines_raw_lines, uv_line_answer.
  - intros H. rewrite (no_data_lines raw_data H). auto.
Qed.

(** Two comments, a blank line and a trailing line feed. *)
Lemma parsers_skip_bad_lines_witness :
  fst (parse_asos_raw midnight
         ("# START7777" ++ String LF "#  TM STN TA" ++ String LF "   " ++ String LF "") O) = [] /\
  fst (parse_pm10_raw midnight
         ("# START7777" ++ String LF "#  TM STN TA" ++ String LF "   " ++ String LF "") O) = [] /\
  fst (parse_uv_raw midnight
         ("# START7777" ++ String LF "#  TM STN TA" ++ String LF "   " ++ String LF "") O) = [].
Proof.
  apply (proj2 (parsers_skip_bad_lines midnight
                  ("# START7777" ++ String LF "#  TM STN TA" ++ String LF "   " ++ String LF "") O)).
  repeat constructor; vm_compute; reflexivity.
Defined.

(** A line with too few fields between two good lines. *)
Example asos_bad_line_between_good_lines :
  List.map (fun r => (station_id r, value r))
    (fst (parse_asos_raw midnight
            ("202501011300 108 5.2" ++ String LF "garbage" ++ String LF "202501011300 112 -1.0") O))
  = [("108", Py.PStr "5.2"); ("112", Py.PStr "-1.0")].
Proof. vm_compute. reflexivity. Qed.

End Parsers.

(** ** The latest dataset *)

Section LatestDataset.

Import s3_client Spec.

Context {table : Type}.
Variable read_parquet : list Byte.byte -> option table.

Lemma last_in {A : Type} (l : list A) (d : A) : l <> [] -> In (List.last l d) l.
Proof.
  induction l as [|x [|y l] IH]; intros H; [congruence | now left |].
  right. apply IH. discriminate.
Qed.

(** The last element of a sorted list is above all the others. *)
Lemma last_is_greatest (l : list string) (d x : string) :
  StronglySorted str_le l -> In x l -> str_le x (List.last l d).
Proof.
  intros Hs. induction Hs as [|y l Hs IH Hy]; intros Hx; [destruct Hx|].
  destruct l as [|z l].
  - destruct Hx as [<-|[]]. apply string_leb_refl.
  - change (List.last (y :: z :: l) d) with (List.last (z :: l) d).
    destruct Hx as [<-|Hx]; [|now apply IH].
    rewrite Forall_forall in Hy. apply Hy, list_elem_of_In, last_in. discriminate.
Qed.

(** The keys [load_latest_ml_dataset] chooses from. *)
Lemma parquet_keys_spec (b : bucket) (key : string) :
  In key (List.filter (Py.endswith ".parquet") (list_objects "ml_dataset/" b)) <->
  dataset_key b key.
Proof.
  unfold list_objects, dataset_key, Py.startswith.
  rewrite !filter_In, in_map_iff.
  split.
  - intros [[([k v] & <- & Hkv) Hp] He].
    apply list_elem_of_In, elem_of_map_to_list in Hkv. cbn [fst] in *.
    split; [exists v; exact Hkv | auto].
  - intros ([v Hv] & Hp & He).
    repeat split; auto.
    exists (key, v). split; [reflexivity|].
    now apply list_elem_of_In, elem_of_map_to_list.
Qed.


End LatestDataset.


(** ** Keys of the fused rows *)

Section Keys.

Import feature_builder Spec.

(** The keys of the entries that have a datetime. *)
Lemma valid_keys_app (l1 l2 : list fused) :
  valid_keys (l1 ++ l2) = valid_keys l1 ++ valid_keys l2.
Proof.
  unfold valid_keys, dropna. now rewrite List.filter_app, List.map_app.
Qed.

Lemma update_first_valid_keys st dt upd all all' :
  (forall x, station_id (upd x) = station_id x /\ datetime (upd x) = datetime x) ->
  update_first st dt upd all = Some all' ->
  valid_keys all' = valid_keys all.
Proof.
  intros Hupd. revert all'.
  induction all as [|y l IH]; intros all' H; [discriminate|].
  cbn [update_first] in H.
  destruct (same_key st dt y).
  - injection H as <-. destruct (Hupd y) as [Hs Hd].
    unfold valid_keys, dropna, has_datetime, key. cbn [List.filter].
    rewrite Hd. destruct (datetime y) eqn:Ey; cbn [List.map]; [|reflexivity].
    now rewrite Hs, Hd, Ey.
  - destruct (update_first st dt upd l) as [l'|]; [|discriminate].
    injection H as <-. specialize (IH l' eq_refl).
    unfold valid_keys, dropna in *. cbn [List.filter].
    destruct (has_datetime y); cbn [List.map]; now rewrite IH.
Qed.

Lemma update_first_not_found st t upd all :
  update_first st (Some t) upd all = None -> ~ In (st, Some t) (valid_keys all).
Proof.
  induction all as [|y l IH]; intros H; [intros []|].
  cbn [update_first] in H.
  destruct (same_key st (Some t) y) eqn:E; [discriminate|].
  destruct (update_first st (Some t) upd l); [discriminate|].
  unfold valid_keys, dropna in *. cbn [List.filter].
  destruct (has_datetime y) eqn:Ey; [|now apply IH].
  cbn [List.map]. intros [Hk|Hin]; [|now apply IH].
  unfold key in Hk. injection Hk as Hs Hd.
  unfold same_key in E. rewrite Hs, Hd, String.eqb_refl in E.
  cbn in E. now rewrite Z.eqb_refl in E.
Qed.

(** The find-or-create step keeps the valid keys distinct. *)
Lemma find_or_create_keeps_keys_distinct st dt upd new all :
  (forall x, station_id (upd x) = station_id x /\ datetime (upd x) = datetime x) ->
  station_id new = st -> datetime new = dt ->
  NoDup (valid_keys all) ->
  NoDup (valid_keys match update_first st dt upd all with
                    | Some updated => updated
                    | None => all ++ [new]
                    end).
Proof.
  intros Hupd Hs Hd Hnd.
  destruct (update_first st dt upd all) as [all'|] eqn:E.
  - now rewrite (update_first_valid_keys _ _ _ _ _ Hupd E).
  - rewrite valid_keys_app.
    unfold valid_keys at 2, dropna, has_datetime. cbn [List.filter].
    rewrite Hd. destruct dt as [t|]; cbn [List.map].
    + unfold key. rewrite Hs, Hd.
      apply NoDup_app. repeat split; [exact Hnd | | apply NoDup_singleton].
      intros k Hk Hk'. apply list_elem_of_In in Hk.
      apply list_elem_of_singleton in Hk'. subst k.
      now apply (update_first_not_found _ _ _ _ E).
    + now rewrite app_nil_r.
Qed.

Lemma pm10_row_keeps_keys_distinct all r :
  NoDup (valid_keys all) -> NoDup (valid_keys (pm10_row all r)).
Proof.
  unfold pm10_row. apply find_or_create_keeps_keys_distinct; auto.
Qed.

Lemma uv_row_keeps_keys_distinct all r :
  NoDup (valid_keys all) -> NoDup (valid_keys (uv_row all r)).
Proof.
  unfold uv_row. apply find_or_create_keeps_keys_distinct; auto.
Qed.

Lemma process_pm10_keeps_keys_distinct rows all :
  NoDup (valid_keys all) -> NoDup (valid_keys (process_pm10 rows all)).
Proof.
  unfold process_pm10. revert all.
  induction rows as [|r rows IH]; intros all H; [exact H|].
  cbn [fold_left]. now apply IH, pm10_row_keeps_keys_distinct.
Qed.

Lemma process_uv_keeps_keys_distinct rows all :
  NoDup (valid_keys all) -> NoDup (valid_keys (process_uv rows all)).
Proof.
  unfold process_uv. revert all.
  induction rows as [|r rows IH]; intros all H; [exact H|].
  cbn [fold_left]. now apply IH, uv_row_keeps_keys_distinct.
Qed.

(** The ASOS loop appends: its keys are distinct when the input's are. *)
Lemma process_asos_keys_distinct rows all :
  NoDup (valid_keys all ++ raw_valid_keys rows) ->
  NoDup (valid_keys (process_asos rows all)).
Proof.
  unfold process_asos. revert all.
  induction rows as [|r rows IH]; intros all H.
  - cbn. now rewrite app_nil_r in H.
  - cbn [fold_left]. apply IH.
    unfold asos_row.
    assert (Hk : raw_valid_keys (r :: rows) =
                 match raw.observed_at r with
                 | Some t => (raw.station_id r, Some t) :: raw_valid_keys rows
                 | None => raw_valid_keys rows
                 end).
    { unfold raw_valid_keys. cbn [List.filter].
      destruct (raw.observed_at r) eqn:Eo; cbn [List.map]; now rewrite ?Eo. }
    rewrite Hk in H. clear Hk.
    destruct (asos_temperature (raw.value r)) as [temp|].
    + rewrite valid_keys_app.
      unfold valid_keys at 2, dropna, has_datetime, key. cbn [List.filter datetime].
      destruct (raw.observed_at r); cbn [List.map station_id datetime].
      * now rewrite <- app_assoc.
      * now rewrite app_nil_r.
    + destruct (raw.observed_at r); [|exact H].
      apply NoDup_app in H as (H1 & H2 & H3).
      apply NoDup_cons in H3 as [_ H3].
      apply NoDup_app. repeat split; [exact H1 | | exact H3].
      intros x Hx Hx'. apply (H2 x Hx). apply elem_of_cons. now right.
Qed.

(** When no two ground-station records with a timestamp share a station
    and a timestamp, no two returned rows share their key: the PM10 and
    the UV loop never add a key that is there. *)
Lemma fused_keys_distinct (d : raw_data) :
  NoDup (raw_valid_keys (asos d)) ->
  NoDup (List.map (fun f => key (row f)) (create_ml_dataset d)).
Proof.
  intros H.
  rewrite <- (List.map_map row key), create_ml_dataset_rows.
  unfold sort_values.
  assert (Hp : List.map key (merge_sort key_le (dropna (collect d))) ≡ₚ valid_keys (collect d)).
  { unfold valid_keys. apply Permutation_map, merge_sort_Permutation. }
  rewrite Hp. unfold collect.
  now apply process_uv_keeps_keys_distinct, process_pm10_keeps_keys_distinct,
            process_asos_keys_distinct.
Qed.

End Keys.

(** ** The calendar *)

Section CalendarFacts.

Import Spec.

#[local] Open Scope Z_scope.

Lemma civil_of_days_month z : snd (fst (Calendar.civil_of_days z)) = Calendar.month_of_days z.
Proof. reflexivity. Qed.

Lemma month_of_days_range z : 1 <= Calendar.month_of_days z <= 12.
Proof.
  unfold Calendar.month_of_days.
  set (doe := z + 719468 - (z + 719468) / 146097 * 146097).
  assert (Hdoe : 0 <= doe < 146097).
  { unfold doe. pose proof (Z.mod_pos_bound (z + 719468) 146097 ltac:(lia)) as H.
    rewrite Z.mod_eq in H by lia. lia. }
  clearbody doe. cbv zeta.
  destruct (Z.ltb_spec ((5 * (doe - (365 * ((doe - doe / 1460 + doe / 36524 - doe / 146096) / 365) + (doe - doe / 1460 + doe / 36524 - doe / 146096) / 365 / 4 - (doe - doe / 1460 + doe / 36524 - doe / 146096) / 365 / 100)) + 2) / 153) 10) as [H|H];
    revert H; Z.div_mod_to_equations; lia.
Qed.

Lemma civil_of_days_inverse z :
  let '(y, m, d) := Calendar.civil_of_days z in
  Calendar.days_from_civil y m d = z /\ 1 <= m <= 12 /\ 1 <= d <= Calendar.days_in_month y m.
Proof.
  unfold Calendar.civil_of_days, Calendar.days_from_civil, Calendar.days_in_month, Calendar.is_leap.
  cbv zeta.
  set (era := (z + 719468) / 146097).
  set (doe := z + 719468 - era * 146097).
  assert (Hdoe : 0 <= doe < 146097).
  { unfold doe, era. pose proof (Z.mod_pos_bound (z + 719468) 146097 ltac:(lia)) as H.
    rewrite Z.mod_eq in H by lia. lia. }
  assert (Hz : z = era * 146097 + doe - 719468) by (unfold doe; lia).
  clearbody doe era. subst z.
  set (yoe := (doe - doe / 1460 + doe / 36524 - doe / 146096) / 365).
  set (doy := doe - (365 * yoe + yoe / 4 - yoe / 100)).
  assert (Hy : 0 <= yoe <= 399 /\ 0 <= doy <= 365 /\
               (doy = 365 -> yoe mod 4 = 3 /\ (yoe mod 100 <> 99 \/ yoe = 399))).
  { unfold doy, yoe. Z.div_mod_to_equations. lia. }
  assert (Hd : doe = 365 * yoe + yoe / 4 - yoe / 100 + doy) by (unfold doy; lia).
  clearbody doy yoe. subst doe. clear Hdoe.
  set (mp := (5 * doy + 2) / 153).
  assert (Hmp : 0 <= mp <= 11) by (unfold mp; Z.div_mod_to_equations; lia).
  assert (Hdoy : (153 * mp + 2) / 5 <= doy < (153 * (mp + 1) + 2) / 5 \/ (mp = 11 /\ 337 <= doy <= 365)).
  { unfold mp. Z.div_mod_to_equations. lia. }
  clearbody mp.
  assert (Hera : (yoe + era * 400) / 400 = era) by (Z.div_mod_to_equations; lia).
  assert (Hcases : mp = 0 \/ mp = 1 \/ mp = 2 \/ mp = 3 \/ mp = 4 \/ mp = 5 \/ mp = 6 \/
                   mp = 7 \/ mp = 8 \/ mp = 9 \/ mp = 10 \/ mp = 11) by lia.
  destruct Hy as (Hyoe & Hdoy' & Hleap).
  repeat (destruct Hcases as [-> | Hcases]); try subst mp;
    repeat match goal with
      | |- context [if ?a <? ?b then _ else _] => destruct (Z.ltb_spec a b); try lia
      | |- context [if ?a <=? ?b then _ else _] => destruct (Z.leb_spec a b); try lia
      | |- context [?a =? ?b] => destruct (Z.eqb_spec a b); try lia
      end;
    cbn [andb orb negb];
    clear Hera; Z.div_mod_to_equations; lia.
Qed.

Lemma civil_fields t :
  Calendar.days_from_civil (Calendar.year t) (Calendar.month t) (Calendar.day t)
    = t / Calendar.us_per_day /\
  1 <= Calendar.month t <= 12 /\
  1 <= Calendar.day t <= Calendar.days_in_month (Calendar.year t) (Calendar.month t).
Proof.
  pose proof (civil_of_days_inverse (t / Calendar.us_per_day)) as H.
  unfold Calendar.year, Calendar.month, Calendar.day.
  rewrite <- civil_of_days_month.
  destruct (Calendar.civil_of_days (t / Calendar.us_per_day)) as [[y m] d]. exact H.
Qed.

Lemma days_in_month_le_31 y m : Calendar.days_in_month y m <= 31.
Proof.
  unfold Calendar.days_in_month.
  destruct (m =? 2); [destruct (Calendar.is_leap y); lia|].
  destruct ((m =? 4) || (m =? 6) || (m =? 9) || (m =? 11)); lia.
Qed.

Lemma clock_fields t :
  0 <= Calendar.hour t <= 23 /\ 0 <= Calendar.minute t <= 59 /\ 0 <= Calendar.second t <= 59.
Proof.
  unfold Calendar.hour, Calendar.minute, Calendar.second.
  pose proof (Z.mod_pos_bound (t / Calendar.us_per_hour) 24 ltac:(lia)).
  pose proof (Z.mod_pos_bound (t / Calendar.us_per_minute) 60 ltac:(lia)).
  pose proof (Z.mod_pos_bound (t / 1000000) 60 ltac:(lia)).
  lia.
Qed.

Lemma dayofweek_range t : 0 <= Calendar.dayofweek t <= 6.
Proof.
  unfold Calendar.dayofweek.
  pose proof (Z.mod_pos_bound (t / Calendar.us_per_day + 3) 7 ltac:(lia)). lia.
Qed.

(** The fields of a timestamp build the timestamp back, cut to the
    minute. *)
Lemma datetime_of_fields t :
  1 <= Calendar.year t <= 9999 ->
  Calendar.datetime (Calendar.year t) (Calendar.month t) (Calendar.day t)
    (Calendar.hour t) (Calendar.minute t)
  = Some (t - t mod Calendar.us_per_minute).
Proof.
  intros Hy.
  destruct (civil_fields t) as (Hd & Hm & Hday).
  destruct (clock_fields t) as (HH & HM & _).
  unfold Calendar.datetime.
  replace (_ && _) with true.
  2:{ symmetry. repeat (apply andb_true_intro; split); apply Z.leb_le; lia. }
  f_equal. rewrite Hd.
  unfold Calendar.hour, Calendar.minute, Calendar.us_per_day, Calendar.us_per_hour,
    Calendar.us_per_minute.
  Z.div_mod_to_equations. lia.
Qed.

Lemma digit_char_digit n :
  Py.is_digit (Calendar.digit_char n) = true /\
  Py.digit_val (Calendar.digit_char n) = n mod 10 /\
  Ascii.eqb (Calendar.digit_char n) " " = false.
Proof.
  unfold Calendar.digit_char.
  pose proof (Z.mod_pos_bound n 10 ltac:(lia)) as H.
  set (k := n mod 10) in *.
  assert (Hc : k = 0 \/ k = 1 \/ k = 2 \/ k = 3 \/ k = 4 \/ k = 5 \/ k = 6 \/ k = 7 \/
               k = 8 \/ k = 9) by lia.
  clearbody k.
  repeat (destruct Hc as [-> | Hc]); try subst k; vm_compute; auto.
Qed.

Lemma two_digits_pad2 n :
  0 <= n <= 99 ->
  Calendar.two_digits (Calendar.digit_char (n / 10)) (Calendar.digit_char n) = Some n.
Proof.
  intros Hn. unfold Calendar.two_digits.
  destruct (digit_char_digit (n / 10)) as (-> & -> & _).
  destruct (digit_char_digit n) as (-> & -> & _).
  cbn [andb]. f_equal. Z.div_mod_to_equations. lia.
Qed.

Lemma day_field_pad2 n :
  0 <= n <= 99 ->
  Calendar.day_field (Calendar.digit_char (n / 10)) (Calendar.digit_char n) = Some n.
Proof.
  intros Hn. unfold Calendar.day_field.
  destruct (digit_char_digit (n / 10)) as (_ & _ & ->).
  cbn [andb]. apply two_digits_pad2, Hn.
Qed.

(** [strptime] reads back what [strftime] prints, to the minute. *)
Lemma strptime_YmdHM_strftime t :
  1 <= Calendar.year t <= 9999 ->
  Calendar.strptime_YmdHM (Calendar.strftime_YmdHM t) = Some (t - t mod Calendar.us_per_minute).
Proof.
  intros Hy.
  destruct (civil_fields t) as (Hd & Hm & Hday).
  destruct (clock_fields t) as (HH & HM & _).
  pose proof (days_in_month_le_31 (Calendar.year t) (Calendar.month t)) as H31.
  unfold Calendar.strftime_YmdHM, Calendar.pad4, Calendar.pad2.
  unfold Calendar.strptime_YmdHM. cbv [String.append].
  assert (Hyh : 0 <= Calendar.year t / 100 <= 99) by (Z.div_mod_to_equations; lia).
  assert (Hyl : 0 <= Calendar.year t mod 100 <= 99) by (Z.div_mod_to_equations; lia).
  rewrite (two_digits_pad2 _ Hyh), (two_digits_pad2 _ Hyl).
  rewrite (two_digits_pad2 (Calendar.month t)) by lia.
  rewrite (day_field_pad2 (Calendar.day t)) by lia.
  rewrite (two_digits_pad2 (Calendar.hour t)) by lia.
  rewrite (two_digits_pad2 (Calendar.minute t)) by lia.
  replace (1 <=? Calendar.day t) with true by (symmetry; apply Z.leb_le; lia).
  replace (100 * (Calendar.year t / 100) + Calendar.year t mod 100) with (Calendar.year t)
    by (Z.div_mod_to_equations; lia).
  apply datetime_of_fields, Hy.
Qed.

Ltac split_ifs :=
    repeat match goal with
      | |- context [if ?a <? ?b then _ else _] => destruct (Z.ltb_spec a b); try lia
      | |- context [if ?a <=? ?b then _ else _] => destruct (Z.leb_spec a b); try lia
      | |- context [?a =? ?b] => destruct (Z.eqb_spec a b); try lia
      | H : context [if ?a <? ?b then _ else _] |- _ => destruct (Z.ltb_spec a b); try lia
      | H : context [if ?a <=? ?b then _ else _] |- _ => destruct (Z.leb_spec a b); try lia
      | H : context [?a =? ?b] |- _ => destruct (Z.eqb_spec a b); try lia
      end.

Lemma dfc_same_year y m1 d1 m2 d2 :
  1 <= m1 <= 12 -> 1 <= m2 <= 12 ->
  1 <= d1 <= Calendar.days_in_month y m1 -> 1 <= d2 <= Calendar.days_in_month y m2 ->
  m1 < m2 ->
  Calendar.days_from_civil y m1 d1 < Calendar.days_from_civil y m2 d2.
Proof.
  intros H1 H2 Hd1 Hd2 Hlt.
  unfold Calendar.days_from_civil, Calendar.days_in_month, Calendar.is_leap in *.
  cbv zeta.
  assert (Hc1 : m1 = 1 \/ m1 = 2 \/ m1 = 3 \/ m1 = 4 \/ m1 = 5 \/ m1 = 6 \/ m1 = 7 \/ m1 = 8 \/ m1 = 9 \/ m1 = 10 \/ m1 = 11) by lia.
  repeat (destruct Hc1 as [-> | Hc1]); try subst m1.
  all: split_ifs; cbn [andb orb negb] in *; Z.div_mod_to_equations; lia.
Qed.

Lemma dfc_bounds y m d :
  1 <= m <= 12 -> 1 <= d <= Calendar.days_in_month y m ->
  Calendar.days_from_civil y 1 1 <= Calendar.days_from_civil y m d
    < Calendar.days_from_civil (y + 1) 1 1.
Proof.
  intros Hm Hd.
  unfold Calendar.days_from_civil, Calendar.days_in_month, Calendar.is_leap in *.
  cbv zeta.
  assert (Hc : m = 1 \/ m = 2 \/ m = 3 \/ m = 4 \/ m = 5 \/ m = 6 \/ m = 7 \/ m = 8 \/ m = 9 \/ m = 10 \/ m = 11 \/ m = 12) by lia.
  repeat (destruct Hc as [-> | Hc]); try subst m.
  all: split_ifs; cbn [andb orb negb] in *; Z.div_mod_to_equations; lia.
Qed.

Lemma dfc_new_year_mono y1 y2 :
  y1 <= y2 -> Calendar.days_from_civil y1 1 1 <= Calendar.days_from_civil y2 1 1.
Proof.
  intros H. unfold Calendar.days_from_civil. cbv zeta.
  split_ifs. Z.div_mod_to_equations. lia.
Qed.

(** Dates are ordered as the days they stand for. *)
Lemma dfc_compare y1 m1 d1 y2 m2 d2 :
  1 <= m1 <= 12 -> 1 <= m2 <= 12 ->
  1 <= d1 <= Calendar.days_in_month y1 m1 -> 1 <= d2 <= Calendar.days_in_month y2 m2 ->
  lex (y1 ?= y2) (lex (m1 ?= m2) (d1 ?= d2))
  = (Calendar.days_from_civil y1 m1 d1 ?= Calendar.days_from_civil y2 m2 d2).
Proof.
  intros Hm1 Hm2 Hd1 Hd2. symmetry.
  pose proof (dfc_bounds y1 m1 d1 Hm1 Hd1) as B1.
  pose proof (dfc_bounds y2 m2 d2 Hm2 Hd2) as B2.
  destruct (Z.compare_spec y1 y2) as [->|Hy|Hy]; cbn [lex].
  - destruct (Z.compare_spec m1 m2) as [->|Hm|Hm]; cbn [lex].
    + unfold Calendar.days_from_civil. cbv zeta.
      destruct (Z.compare_spec d1 d2); [apply Z.compare_eq_iff | apply Z.compare_lt_iff
                                       | apply Z.compare_gt_iff]; lia.
    + apply Z.compare_lt_iff. apply dfc_same_year; assumption.
    + apply Z.compare_gt_iff. apply dfc_same_year; assumption.
  - apply Z.compare_lt_iff.
    pose proof (dfc_new_year_mono (y1 + 1) y2 ltac:(lia)). lia.
  - apply Z.compare_gt_iff.
    pose proof (dfc_new_year_mono (y2 + 1) y1 ltac:(lia)). lia.
Qed.

Lemma civil_compare t1 t2 :
  lex (Calendar.year t1 ?= Calendar.year t2)
    (lex (Calendar.month t1 ?= Calendar.month t2) (Calendar.day t1 ?= Calendar.day t2))
  = (t1 / Calendar.us_per_day ?= t2 / Calendar.us_per_day).
Proof.
  destruct (civil_fields t1) as (E1 & Hm1 & Hd1).
  destruct (civil_fields t2) as (E2 & Hm2 & Hd2).
  rewrite <- E1, <- E2. apply dfc_compare; assumption.
Qed.

Lemma seconds_split t :
  t / 1000000 = t / Calendar.us_per_day * 86400 + Calendar.hour t * 3600
                + Calendar.minute t * 60 + Calendar.second t.
Proof.
  unfold Calendar.hour, Calendar.minute, Calendar.second, Calendar.us_per_day,
    Calendar.us_per_hour, Calendar.us_per_minute.
  change 86400000000 with (1000000 * 86400).
  change 3600000000 with (1000000 * 3600).
  change 60000000 with (1000000 * 60).
  rewrite <- !Z.div_div by lia.
  generalize (t / 1000000). intros s.
  Z.div_mod_to_equations. lia.
Qed.

(** The six fields of a timestamp, compared in order, compare as the
    timestamps cut to the second. *)
Lemma fields_compare t1 t2 :
  lex (Calendar.year t1 ?= Calendar.year t2)
    (lex (Calendar.month t1 ?= Calendar.month t2)
       (lex (Calendar.day t1 ?= Calendar.day t2)
          (lex (Calendar.hour t1 ?= Calendar.hour t2)
             (lex (Calendar.minute t1 ?= Calendar.minute t2)
                (Calendar.second t1 ?= Calendar.second t2)))))
  = (t1 / 1000000 ?= t2 / 1000000).
Proof.
  pose proof (civil_compare t1 t2) as H.
  assert (A : forall a b c : comparison, lex a (lex b c) = lex (lex a b) c)
    by (intros [] [] []; reflexivity).
  rewrite (A (Calendar.month t1 ?= Calendar.month t2)), A, H.
  rewrite (seconds_split t1), (seconds_split t2).
  pose proof (clock_fields t1) as C1. pose proof (clock_fields t2) as C2.
  generalize dependent (Calendar.hour t1). generalize dependent (Calendar.hour t2).
  generalize dependent (Calendar.minute t1). generalize dependent (Calendar.minute t2).
  generalize dependent (Calendar.second t1). generalize dependent (Calendar.second t2).
  generalize (t1 / Calendar.us_per_day) (t2 / Calendar.us_per_day).
  clear H. intros z1 z2 S2 S1 M2 M1 H2 C2 H1 C1.
  symmetry.
  repeat match goal with
    | |- context [lex (?a ?= ?b) _] => destruct (Z.compare_spec a b); cbn [lex]
    end;
    try match goal with
    | |- _ = (?a ?= ?b) => destruct (Z.compare_spec a b)
    end;
    first [apply Z.compare_eq_iff | apply Z.compare_lt_iff | apply Z.compare_gt_iff];
    lia.
Qed.

End CalendarFacts.

Section Strptime.

#[local] Open Scope Z_scope.

Lemma match_fields_cons alternatives rest s :
  Calendar.match_fields (alternatives :: rest) s =
  Calendar.first_some
    (fun a : Calendar.alternative =>
       match a s with
       | Some (v, s') =>
           match Calendar.match_fields rest s' with
           | Some (vs, remaining) => Some (v :: vs, remaining)
           | None => None
           end
       | None => None
       end) alternatives.
Proof. reflexivity. Qed.

Ltac field_by_cases n bound :=
  let k := fresh "k" in
  let E := fresh "E" in
  assert (E : n = Z.of_nat (Z.to_nat n)) by lia;
  assert (Z.to_nat n <= bound)%nat by lia;
  set (k := Z.to_nat n) in *; clearbody k; subst n;
  do 60 (destruct k as [|k];
         [ try lia;
           cbv -[Calendar.match_fields];
           match goal with H : Calendar.match_fields _ _ = _ |- _ => rewrite H end;
           reflexivity
         | ]);
  lia.

Lemma match_month n rest s vs r :
  1 <= n <= 12 ->
  Calendar.match_fields rest s = Some (vs, r) ->
  Calendar.match_fields (Calendar.month_field :: rest) (Calendar.pad2 n ++ s) = Some (n :: vs, r).
Proof.
  intros Hn H. rewrite match_fields_cons. field_by_cases n 12%nat.
Qed.

Lemma match_day n rest s vs r :
  1 <= n <= 31 ->
  Calendar.match_fields rest s = Some (vs, r) ->
  Calendar.match_fields (Calendar.day_field_any :: rest) (Calendar.pad2 n ++ s) = Some (n :: vs, r).
Proof.
  intros Hn H. rewrite match_fields_cons. field_by_cases n 31%nat.
Qed.

Lemma match_hour n rest s vs r :
  0 <= n <= 23 ->
  Calendar.match_fields rest s = Some (vs, r) ->
  Calendar.match_fields (Calendar.hour_field :: rest) (Calendar.pad2 n ++ s) = Some (n :: vs, r).
Proof.
  intros Hn H. rewrite match_fields_cons. field_by_cases n 23%nat.
Qed.

Lemma match_minute n rest s vs r :
  0 <= n <= 59 ->
  Calendar.match_fields rest s = Some (vs, r) ->
  Calendar.match_fields (Calendar.minute_field :: rest) (Calendar.pad2 n ++ s) = Some (n :: vs, r).
Proof.
  intros Hn H. rewrite match_fields_cons. field_by_cases n 59%nat.
Qed.

Lemma match_year y rest s vs r :
  0 <= y <= 9999 ->
  Calendar.match_fields rest s = Some (vs, r) ->
  Calendar.match_fields (Calendar.year_field :: rest) (Calendar.pad4 y ++ s) = Some (y :: vs, r).
Proof.
  intros Hy H. rewrite match_fields_cons.
  unfold Calendar.pad4, Calendar.pad2, Calendar.year_field. cbv [String.append Calendar.first_some].
  destruct (digit_char_digit (y / 100 / 10)) as (-> & -> & _).
  destruct (digit_char_digit (y / 100)) as (-> & -> & _).
  destruct (digit_char_digit (y mod 100 / 10)) as (-> & -> & _).
  destruct (digit_char_digit (y mod 100)) as (-> & -> & _).
  cbn [andb]. rewrite H.
  do 2 f_equal. f_equal. Z.div_mod_to_equations. lia.
Qed.

(** [strptime], on a string of any length, reads back what [strftime]
    prints. *)
Lemma strptime_strftime t :
  1 <= Calendar.year t <= 9999 ->
  Calendar.strptime (Calendar.strftime_YmdHM t) = Some (t - t mod Calendar.us_per_minute).
Proof.
  intros Hy.
  destruct (civil_fields t) as (Hd & Hm & Hday).
  destruct (clock_fields t) as (HH & HM & _).
  pose proof (days_in_month_le_31 (Calendar.year t) (Calendar.month t)) as H31.
  unfold Calendar.strptime, Calendar.strftime_YmdHM.
  erewrite match_year; [ | lia | ].
  2:{ apply match_month; [lia|]. apply match_day; [lia|]. apply match_hour; [lia|].
      replace (Calendar.pad2 (Calendar.minute t))
        with (Calendar.pad2 (Calendar.minute t) ++ "")%string by reflexivity.
      apply match_minute; [lia|]. reflexivity. }
  apply datetime_of_fields, Hy.
Qed.

End Strptime.

(** ** Object keys *)

Section KeyOrder.

Import Spec.

#[local] Open Scope Z_scope.

Lemma append_cons a (s r : string) : (String a s ++ r)%string = String a (s ++ r)%string.
Proof. reflexivity. Qed.

Lemma append_nil (r : string) : ("" ++ r)%string = r.
Proof. reflexivity. Qed.

Lemma append_assoc (a b c : string) : ((a ++ b) ++ c)%string = (a ++ (b ++ c))%string.
Proof. induction a as [|x a IH]; [reflexivity|]. rewrite !append_cons. now rewrite IH. Qed.

Lemma compare_cons a (s r : string) :
  String.compare (String a s) (String a r) = String.compare s r.
Proof.
  cbn [String.compare]. rewrite ascii_compare_N, N.compare_refl. reflexivity.
Qed.

Lemma compare_app_prefix (p a b : string) :
  String.compare (p ++ a) (p ++ b) = String.compare a b.
Proof.
  induction p as [|x p IH]; [reflexivity|]. rewrite !append_cons, compare_cons. exact IH.
Qed.

Lemma N_of_digit_char n : N_of_ascii (Calendar.digit_char n) = Z.to_N (48 + n mod 10).
Proof.
  unfold Calendar.digit_char. apply N_ascii_embedding.
  pose proof (Z.mod_pos_bound n 10 ltac:(lia)). lia.
Qed.

Lemma compare_digit_char a b :
  Ascii.compare (Calendar.digit_char a) (Calendar.digit_char b) = (a mod 10 ?= b mod 10).
Proof.
  rewrite ascii_compare_N, !N_of_digit_char.
  pose proof (Z.mod_pos_bound a 10 ltac:(lia)). pose proof (Z.mod_pos_bound b 10 ltac:(lia)).
  rewrite Z2N.inj_compare by lia.
  destruct (Z.compare_spec (a mod 10) (b mod 10));
    [apply Z.compare_eq_iff | apply Z.compare_lt_iff | apply Z.compare_gt_iff]; lia.
Qed.

Lemma compare_pad2 n1 n2 (s1 s2 : string) :
  0 <= n1 <= 99 -> 0 <= n2 <= 99 ->
  String.compare (Calendar.pad2 n1 ++ s1) (Calendar.pad2 n2 ++ s2)
  = lex (n1 ?= n2) (String.compare s1 s2).
Proof.
  intros H1 H2. unfold Calendar.pad2. rewrite !append_cons, !append_nil.
  cbn [String.compare]. rewrite !compare_digit_char.
  destruct (Z.compare_spec (n1 / 10 mod 10) (n2 / 10 mod 10)) as [E|E|E];
    [destruct (Z.compare_spec (n1 mod 10) (n2 mod 10)) as [E'|E'|E']| |];
    destruct (Z.compare_spec n1 n2) as [F|F|F]; cbn [lex]; try reflexivity;
    exfalso; revert E F; try revert E'; Z.div_mod_to_equations; lia.
Qed.

Lemma compare_pad4 n1 n2 (s1 s2 : string) :
  0 <= n1 <= 9999 -> 0 <= n2 <= 9999 ->
  String.compare (Calendar.pad4 n1 ++ s1) (Calendar.pad4 n2 ++ s2)
  = lex (n1 ?= n2) (String.compare s1 s2).
Proof.
  intros H1 H2. unfold Calendar.pad4. rewrite !append_assoc.
  rewrite !compare_pad2 by (Z.div_mod_to_equations; lia).
  destruct (Z.compare_spec (n1 / 100) (n2 / 100)) as [E|E|E];
    [destruct (Z.compare_spec (n1 mod 100) (n2 mod 100)) as [E'|E'|E']| |];
    destruct (Z.compare_spec n1 n2) as [F|F|F]; cbn [lex]; try reflexivity;
    exfalso; revert E F; try revert E'; Z.div_mod_to_equations; lia.
Qed.

(** A key laid out as the handler does: a prefix, the date, a separator,
    the time of day, a suffix. *)
Lemma compare_layout (prefix mid suffix : string) t1 t2 :
  0 <= Calendar.year t1 <= 9999 -> 0 <= Calendar.year t2 <= 9999 ->
  String.compare
    (prefix ++ Calendar.strftime_date_path t1 ++ mid ++ Calendar.strftime_HMS t1 ++ suffix)
    (prefix ++ Calendar.strftime_date_path t2 ++ mid ++ Calendar.strftime_HMS t2 ++ suffix)
  = (t1 / 1000000 ?= t2 / 1000000).
Proof.
  intros Hy1 Hy2.
  destruct (civil_fields t1) as (_ & Hm1 & Hd1). destruct (civil_fields t2) as (_ & Hm2 & Hd2).
  pose proof (days_in_month_le_31 (Calendar.year t1) (Calendar.month t1)).
  pose proof (days_in_month_le_31 (Calendar.year t2) (Calendar.month t2)).
  pose proof (clock_fields t1). pose proof (clock_fields t2).
  rewrite <- fields_compare.
  unfold Calendar.strftime_date_path, Calendar.strftime_HMS.
  rewrite compare_app_prefix, !append_assoc.
  rewrite compare_pad4 by lia. rewrite ?append_cons, ?append_nil, compare_cons.
  rewrite compare_pad2 by lia. rewrite ?append_cons, ?append_nil, compare_cons.
  rewrite compare_pad2 by lia. rewrite compare_app_prefix.
  rewrite !compare_pad2 by lia.
  replace (String.compare suffix suffix) with Eq.
  2:{ clear. induction suffix as [|x r IH]; [reflexivity|]. now rewrite compare_cons. }
  destruct (Calendar.second t1 ?= Calendar.second t2); reflexivity.
Qed.

End KeyOrder.

(** ** The storage handler *)

Section StorageHandler.

Import s3_client Spec.

#[local] Open Scope Z_scope.

Context {table : Type}.
Variable read_parquet : list Byte.byte -> option table.
Variable to_parquet : table -> list Byte.byte.

Lemma length_filter_Permutation {A : Type} (f : A -> bool) (l l' : list A) :
  l ≡ₚ l' -> List.length (List.filter f l) = List.length (List.filter f l').
Proof.
  induction 1 as [|x l l' _ IH|x y l|l l' l'' _ IH1 _ IH2]; cbn [List.filter].
  - reflexivity.
  - destruct (f x); cbn [List.length]; now rewrite IH.
  - destruct (f x), (f y); reflexivity.
  - now rewrite IH1.
Qed.

Lemma compare_refl (s : string) : String.compare s s = Eq.
Proof. induction s as [|x r IH]; [reflexivity|]. now rewrite compare_cons. Qed.

Lemma lookup_put (b : bucket) (key key' : string) (data : list Byte.byte) :
  <[key := data]> b !! key' = if decide (key' = key) then Some data else b !! key'.
Proof.
  unfold bucket in *. destruct (decide (key' = key)) as [->|N].
  - apply lookup_insert_eq.
  - apply lookup_insert_ne. congruence.
Qed.

Lemma lookup_put_eq (b : bucket) (key : string) (data : list Byte.byte) :
  <[key := data]> b !! key = Some data.
Proof. rewrite lookup_put. now rewrite decide_True. Qed.

Lemma lookup_put_ne (b : bucket) (key key' : string) (data : list Byte.byte) :
  key' <> key -> <[key := data]> b !! key' = b !! key'.
Proof. intros N. rewrite lookup_put. now rewrite decide_False. Qed.

(** Listing a prefix after a key was written. *)
Lemma list_objects_insert prefix key data (b : bucket) :
  List.length (list_objects prefix (<[key := data]> b)) =
  (List.length (list_objects prefix b) +
   if String.prefix prefix key && negb (bool_decide (is_Some (b !! key))) then 1 else 0)%nat.
Proof.
  unfold list_objects.
  destruct (b !! key) as [old|] eqn:E.
  - rewrite bool_decide_true by eauto. rewrite andb_false_r, Nat.add_0_r.
    rewrite <- (insert_delete_eq b key data).
    rewrite (length_filter_Permutation _ _ (List.map fst ((key, data) :: map_to_list (delete key b)))).
    2:{ apply Permutation_map. apply map_to_list_insert, lookup_delete_eq. }
    rewrite (length_filter_Permutation _ (List.map fst (map_to_list b))
               (List.map fst ((key, old) :: map_to_list (delete key b)))).
    2:{ apply Permutation_map. symmetry. now apply map_to_list_delete. }
    reflexivity.
  - rewrite bool_decide_false by (intros [? ?]; congruence). rewrite andb_true_r.
    rewrite (length_filter_Permutation _ _ (List.map fst ((key, data) :: map_to_list b))).
    2:{ apply Permutation_map. now apply map_to_list_insert. }
    cbn [List.map List.filter fst].
    destruct (String.prefix prefix key); cbn [List.length]; lia.
Qed.

Lemma prefix_app (p x : string) : String.prefix p (p ++ x) = true.
Proof.
  induction p as [|c p IH]; [destruct x; reflexivity|].
  rewrite append_cons. cbn [String.prefix]. destruct (ascii_dec c c); [exact IH | congruence].
Qed.

Lemma endswith_refl (p : string) : Py.endswith p p = true.
Proof. destruct p; cbn [Py.endswith]; now rewrite String.eqb_refl. Qed.

Lemma endswith_app (p a b : string) :
  Py.endswith p b = true -> Py.endswith p (a ++ b) = true.
Proof.
  intros H. induction a as [|c a IH]; [exact H|].
  rewrite append_cons. cbn [Py.endswith]. rewrite IH. apply orb_true_r.
Qed.

(** The three prefixes of the inventory exclude one another. *)
Lemma inventory_prefixes_disjoint (key : string) :
  (Nat.b2n (String.prefix "raw/" key) + Nat.b2n (String.prefix "processed/" key)
   + Nat.b2n (String.prefix "ml_dataset/" key) <= 1)%nat.
Proof.
  destruct key as [|c r]; [cbn; lia|].
  cbn [String.prefix].
  destruct (ascii_dec "r" c) as [E1|]; destruct (ascii_dec "p" c) as [E2|];
    destruct (ascii_dec "m" c) as [E3|]; try congruence; cbn [Nat.b2n]; try lia;
    match goal with |- context [Nat.b2n ?x] => destruct x end; cbn [Nat.b2n]; lia.
Qed.

Lemma filter_counts (l : list string) :
  (List.length (List.filter (String.prefix "raw/") l)
   + List.length (List.filter (String.prefix "processed/") l)
   + List.length (List.filter (String.prefix "ml_dataset/") l)
   <= List.length l)%nat.
Proof.
  induction l as [|k l IH]; [cbn; lia|].
  pose proof (inventory_prefixes_disjoint k) as H.
  cbn [List.filter List.length].
  destruct (String.prefix "raw/" k), (String.prefix "processed/" k),
    (String.prefix "ml_dataset/" k); cbn [Nat.b2n List.length] in *; lia.
Qed.


Lemma save_raw_weather_data_eq data_type raw t (b : bucket) :
  save_raw_weather_data data_type raw t b =
  let key := ("raw/" ++ data_type ++ "/" ++ Calendar.strftime_date_path t ++ "/"
              ++ Calendar.strftime_HMS t ++ ".txt")%string in
  (key, <[key := encode raw]> b).
Proof. reflexivity. Qed.

Lemma save_ml_dataset_eq df t (b : bucket) :
  save_ml_dataset to_parquet df t b =
  let key := ("ml_dataset/" ++ Calendar.strftime_date_path t ++ "/dataset_"
              ++ Calendar.strftime_HMS t ++ ".parquet")%string in
  (key, <[key := to_parquet df]> b).
Proof. reflexivity. Qed.

Lemma save_parsed_weather_data_eq {records : Type} (json_dumps : records -> string)
  data_type parsed t (b : bucket) :
  save_parsed_weather_data json_dumps data_type parsed t b =
  let key := ("processed/" ++ data_type ++ "/" ++ Calendar.strftime_date_path t ++ "/"
              ++ Calendar.strftime_HMS t ++ ".json")%string in
  (key, <[key := encode (json_dumps parsed)]> b).
Proof. reflexivity. Qed.


(** The latest dataset is the one under the greatest key. *)
Lemma load_latest_of_greatest (b : bucket) (days_back : Z) key obj :
  b !! key = Some obj ->
  dataset_key b key ->
  (forall key', dataset_key b key' -> String.leb key' key = true) ->
  load_latest_ml_dataset read_parquet days_back b =
  match read_parquet obj with
  | Some df => Returned (Some df)
  | None => Raised
  end.
Proof.
  intros Hobj Hkey Hmax.
  unfold load_latest_ml_dataset.
  set (keys := list_objects "ml_dataset/" b).
  set (parquet_keys := List.filter (Py.endswith ".parquet") keys).
  assert (Hin : In key parquet_keys) by now apply parquet_keys_spec.
  assert (Hne : parquet_keys <> []) by (intros E; now rewrite E in Hin).
  assert (Hk : keys <> []).
  { intros E. apply Hne. subst parquet_keys. now rewrite E. }
  destruct keys as [|k0 ks] eqn:Ek; [congruence|].
  destruct parquet_keys as [|p ps] eqn:Ep; [congruence|].
  rewrite <- Ep in *. clear Ep p ps.
  assert (Hperm : sorted parquet_keys ≡ₚ parquet_keys) by apply merge_sort_Permutation.
  assert (Hsorted : StronglySorted str_le (sorted parquet_keys))
    by (apply StronglySorted_merge_sort; typeclasses eauto).
  assert (Hlast : List.last (sorted parquet_keys) "" = key).
  { apply String.leb_antisym.
    - apply Hmax, parquet_keys_spec. fold keys. rewrite Ek. fold parquet_keys.
      apply (Permutation_in _ Hperm), last_in.
      intros E. rewrite E in Hperm. apply Permutation_nil in Hperm. congruence.
    - apply (last_is_greatest _ "" key Hsorted).
      apply (Permutation_in _ (Permutation_sym Hperm)). exact Hin. }
  rewrite Hlast. unfold get_object. now rewrite Hobj.
Qed.

Lemma save_ml_dataset_key df t (b : bucket) :
  let key := fst (save_ml_dataset to_parquet df t b) in
  Py.startswith "ml_dataset/" key = true /\ Py.endswith ".parquet" key = true.
Proof.
  rewrite save_ml_dataset_eq. cbv zeta. cbn [fst]. split.
  - apply prefix_app.
  - do 4 apply endswith_app. apply endswith_refl.
Qed.

(** X27: the order of the dataset keys is the order of their timestamps,
    to the second. *)
Theorem ml_dataset_key_order df1 df2 t1 t2 (b1 b2 : bucket) :
  four_digit_year t1 -> four_digit_year t2 ->
  String.compare (fst (save_ml_dataset to_parquet df1 t1 b1))
                 (fst (save_ml_dataset to_parquet df2 t2 b2))
  = (t1 / 1000000 ?= t2 / 1000000).
Proof.
  unfold four_digit_year. intros H1 H2. rewrite !save_ml_dataset_eq. cbv zeta. cbn [fst].
  apply compare_layout; lia.
Qed.


Lemma no_dataset_empty : no_dataset ∅.
Proof. intros key ([v Hv] & _). unfold bucket in *. rewrite lookup_empty in Hv. discriminate. Qed.

(** X26: two raw payloads of one type saved within the same second go
    under the same key, and only the later payload is kept. *)
Theorem save_raw_twice_in_a_second data_type raw1 raw2 t1 t2 (b : bucket) :
  four_digit_year t1 -> four_digit_year t2 ->
  t1 / 1000000 = t2 / 1000000 ->
  fst (save_raw_weather_data data_type raw1 t1 b)
  = fst (save_raw_weather_data data_type raw2 t2 b) /\
  snd (save_raw_weather_data data_type raw2 t2
         (snd (save_raw_weather_data data_type raw1 t1 b)))
  = snd (save_raw_weather_data data_type raw2 t2 b).
Proof.
  unfold four_digit_year. intros H1 H2 Hs.
  rewrite !save_raw_weather_data_eq. cbv zeta. cbn [fst snd].
  assert (E : ("raw/" ++ data_type ++ "/" ++ Calendar.strftime_date_path t1 ++ "/"
               ++ Calendar.strftime_HMS t1 ++ ".txt")%string
              = ("raw/" ++ data_type ++ "/" ++ Calendar.strftime_date_path t2 ++ "/"
                 ++ Calendar.strftime_HMS t2 ++ ".txt")%string).
  { apply String.compare_eq_iff.
    rewrite <- !(append_assoc data_type "/"), <- !(append_assoc "raw/").
    rewrite compare_layout by lia. now apply Z.compare_eq_iff. }
  rewrite E. split; [reflexivity|]. unfold bucket in *. apply insert_insert_eq.
Qed.

End StorageHandler.

(** ** Request times of the KMA client *)

Section KMAClient.

Import parsers kma_client Spec.

#[local] Open Scope Z_scope.

Variable now : nat -> Z.

Lemma on_the_hour_fields t :
  Calendar.on_the_hour t mod Calendar.us_per_hour = 0 /\
  Calendar.minute (Calendar.on_the_hour t) = 0 /\
  Calendar.second (Calendar.on_the_hour t) = 0 /\
  Calendar.hour (Calendar.on_the_hour t) = Calendar.hour t /\
  Calendar.on_the_hour t / Calendar.us_per_day = t / Calendar.us_per_day.
Proof.
  unfold Calendar.on_the_hour, Calendar.minute, Calendar.second, Calendar.hour,
    Calendar.us_per_hour, Calendar.us_per_minute, Calendar.us_per_day.
  assert (E : t - t mod 3600000000 = 3600000000 * (t / 3600000000)).
  { pose proof (Z.div_mod t 3600000000 ltac:(lia)). lia. }
  assert (F : (t - t mod 3600000000) / 86400000000 = t / 86400000000).
  { change 86400000000 with (3600000000 * 24). rewrite <- !Z.div_div by lia.
    rewrite E, (Z.mul_comm 3600000000), Z.div_mul by lia. reflexivity. }
  rewrite F. rewrite E. clear E F. generalize (t / 3600000000). intros h.
  repeat split.
  - rewrite Z.mul_comm. apply Z.mod_mul. lia.
  - replace (3600000000 * h) with (h * 60 * 60000000) by lia.
    rewrite Z.div_mul by lia. rewrite Z.mod_mul; lia.
  - replace (3600000000 * h) with (h * 60 * 60 * 1000000) by lia.
    rewrite Z.div_mul by lia. rewrite Z.mod_mul; lia.
  - rewrite Z.mul_comm, Z.div_mul by lia. reflexivity.
Qed.

Lemma on_the_hour_date t :
  Calendar.year (Calendar.on_the_hour t) = Calendar.year t /\
  Calendar.month (Calendar.on_the_hour t) = Calendar.month t /\
  Calendar.day (Calendar.on_the_hour t) = Calendar.day t.
Proof.
  destruct (on_the_hour_fields t) as (_ & _ & _ & _ & E).
  unfold Calendar.year, Calendar.month, Calendar.day. now rewrite E.
Qed.

Lemma on_the_hour_idempotent t :
  Calendar.on_the_hour (Calendar.on_the_hour t) = Calendar.on_the_hour t.
Proof.
  destruct (on_the_hour_fields t) as (E & _).
  unfold Calendar.on_the_hour at 1. rewrite E. lia.
Qed.

(** The hour of a timestamp cut to the minute. *)
Lemma on_the_hour_of_minute t :
  Calendar.on_the_hour (t - t mod Calendar.us_per_minute) = Calendar.on_the_hour t.
Proof.
  unfold Calendar.on_the_hour, Calendar.us_per_hour, Calendar.us_per_minute.
  Z.div_mod_to_equations. lia.
Qed.

(** X21: [_normalize_time] answers a time on the hour, the hour of its
    argument: minute and second are zero, the date and the hour are
    kept.  It reads the clock once when it is given no time and never
    otherwise, and raises only on a string that [strptime] rejects.
    Normalising its answer again changes nothing. *)
Theorem _normalize_time_on_the_hour (target_time : time_arg) (n : nat) :
  match _normalize_time now target_time n with
  | (Some target, n') =>
      Calendar.minute target = 0 /\ Calendar.second target = 0 /\
      target mod Calendar.us_per_hour = 0 /\
      (exists given,
         match target_time with
         | no_time => given = now n /\ n' = S n
         | time_str s => Calendar.strptime s = Some given /\ n' = n
         | time_datetime t => given = t /\ n' = n
         end /\
         Calendar.year target = Calendar.year given /\
         Calendar.month target = Calendar.month given /\
         Calendar.day target = Calendar.day given /\
         Calendar.hour target = Calendar.hour given /\
         given - Calendar.us_per_hour < target <= given) /\
      _normalize_time now (time_datetime target) n' = (Some target, n')
  | (None, n') =>
      n' = n /\ exists s, target_time = time_str s /\ Calendar.strptime s = None
  end.
Proof.
  assert (H : forall given,
             let target := Calendar.on_the_hour given in
             Calendar.minute target = 0 /\ Calendar.second target = 0 /\
             target mod Calendar.us_per_hour = 0 /\
             Calendar.year target = Calendar.year given /\
             Calendar.month target = Calendar.month given /\
             Calendar.day target = Calendar.day given /\
             Calendar.hour target = Calendar.hour given /\
             given - Calendar.us_per_hour < target <= given).
  { intros given target. subst target.
    destruct (on_the_hour_fields given) as (A & B & C & D & _).
    destruct (on_the_hour_date given) as (E & F & G).
    repeat split; try assumption;
      unfold Calendar.on_the_hour;
      pose proof (Z.mod_pos_bound given Calendar.us_per_hour ltac:(reflexivity)); lia. }
  destruct target_time as [|s|t]; cbn [_normalize_time bind ret datetime_now].
  - destruct (H (now n)) as (A & B & C & D). repeat split; try assumption.
    + exists (now n). repeat split; apply D.
    + now rewrite on_the_hour_idempotent.
  - destruct (Calendar.strptime s) as [given|] eqn:E.
    + destruct (H given) as (A & B & C & D). repeat split; try assumption.
      * exists given. repeat split; apply D.
      * now rewrite on_the_hour_idempotent.
    + split; [reflexivity|]. now exists s.
  - destruct (H t) as (A & B & C & D). repeat split; try assumption.
    + exists t. repeat split; apply D.
    + now rewrite on_the_hour_idempotent.
Qed.

Lemma strftime_on_the_hour t :
  Calendar.strftime_YmdHM (Calendar.on_the_hour t) =
  (Calendar.pad4 (Calendar.year t) ++ Calendar.pad2 (Calendar.month t)
   ++ Calendar.pad2 (Calendar.day t) ++ Calendar.pad2 (Calendar.hour t) ++ "00")%string.
Proof.
  unfold Calendar.strftime_YmdHM.
  destruct (on_the_hour_fields t) as (_ & -> & _ & -> & _).
  destruct (on_the_hour_date t) as (-> & -> & ->). reflexivity.
Qed.

(** X22: the [tm] parameter that [fetch_asos] and [fetch_uv] send for a
    [datetime] is its date and hour followed by [00], whatever its
    minutes; the station and the key come from the configuration, and
    the clock is not read. *)
Theorem fetch_sends_the_hour (config : KMAApiConfig) (t : Z) (n : nat) :
  four_digit_year t ->
  let tm := (Calendar.pad4 (Calendar.year t) ++ Calendar.pad2 (Calendar.month t)
             ++ Calendar.pad2 (Calendar.day t) ++ Calendar.pad2 (Calendar.hour t)
             ++ "00")%string in
  fetch_asos now config (time_datetime t) n =
    (Some {| url := (base_url config ++ "/kma_sfctm2.php")%string;
             params := [("tm", tm); ("stn", station_id config); ("authKey", api_key config)]%string;
             timeout := timeout_seconds config |}, n) /\
  fetch_uv now config (time_datetime t) n =
    (Some {| url := (base_url config ++ "/kma_sfctm_uv.php")%string;
             params := [("tm", tm); ("stn", station_id config); ("authKey", api_key config)]%string;
             timeout := timeout_seconds config |}, n) /\
  String.length tm = 12%nat.
Proof.
  intros _ tm.
  unfold fetch_asos, fetch_uv. cbn [_normalize_time bind ret].
  rewrite strftime_on_the_hour. repeat split.
Qed.

Lemma normalize_strftime t :
  four_digit_year t ->
  _normalize_time now (time_str (Calendar.strftime_YmdHM t)) =
  _normalize_time now (time_datetime t).
Proof.
  unfold four_digit_year. intros Hy. cbn [_normalize_time].
  rewrite strptime_strftime by lia. now rewrite on_the_hour_of_minute.
Qed.

(** X23: a time given as a [str] in the format [%Y%m%d%H%M] and the same
    time given as a [datetime] make the same request, for each of the
    three fetch methods. *)
Theorem fetch_str_as_datetime (config : KMAApiConfig) (t t' : Z) (n : nat) :
  four_digit_year t -> four_digit_year t' ->
  fetch_asos now config (time_str (Calendar.strftime_YmdHM t)) n
  = fetch_asos now config (time_datetime t) n /\
  fetch_uv now config (time_str (Calendar.strftime_YmdHM t)) n
  = fetch_uv now config (time_datetime t) n /\
  fetch_pm10 now config (time_str (Calendar.strftime_YmdHM t))
    (time_str (Calendar.strftime_YmdHM t')) n
  = fetch_pm10 now config (time_datetime t) (time_datetime t') n.
Proof.
  intros Hy Hy'.
  unfold fetch_asos, fetch_uv, fetch_pm10.
  rewrite !(normalize_strftime t), !(normalize_strftime t') by assumption.
  repeat split.
Qed.

End KMAClient.

(** ** Rows of [extract_measurements] *)

Section MeasurementRows.

Import parsers Spec.

Variable now : nat -> Z.

Lemma measurement_rows_spec observed_at items n :
  let '(rows, n') := measurement_rows now observed_at items n in
  n' = (n + List.length items)%nat /\
  List.length rows = List.length items /\
  Forall (fun r => measurement.observed_at r = observed_at) rows /\
  (forall i r, nth_error rows i = Some r -> measurement.created_at r = now (n + i)%nat) /\
  List.map measurement.station_id rows = List.map payload.stationId items /\
  List.map measurement.value rows = List.map payload.obsrValue items.
Proof.
  revert n. induction items as [|item rest IH]; intros n.
  - cbn. repeat split; auto with arith. intros [|i] r; discriminate.
  - cbn [measurement_rows]. unfold bind, datetime_now, ret.
    specialize (IH (S n)). destruct (measurement_rows now observed_at rest (S n)) as [rows n'].
    destruct IH as (A & B & C & D & E & F).
    cbn [List.length List.map measurement.station_id measurement.value].
    split; [lia|]. split; [lia|]. split; [|split; [|split; congruence]].
    + constructor; [reflexivity | exact C].
    + intros [|i] r H; cbn [nth_error] in H.
      * injection H as <-. cbn. f_equal. lia.
      * rewrite (D i r H). f_equal. lia.
Qed.

(** X20: [extract_measurements] answers one row per item, in order, all
    with the observation time read from the base date and time, each
    stamped with its own reading of the clock; or it raises, before
    reading the clock, when the base date or the base time is missing or
    empty or does not parse. *)
Theorem extract_measurements_rows (p : payload.t) (n : nat) :
  let body := response_body p in
  match extract_measurements now p n with
  | (Some rows, n') =>
      n' = (n + List.length rows)%nat /\
      List.length rows = List.length (items_of body) /\
      (exists base_date base_time observed_at,
         payload.baseDate body = Some base_date /\ payload.baseTime body = Some base_time /\
         Calendar.strptime (base_date ++ base_time) = Some observed_at /\
         Forall (fun r => measurement.observed_at r = observed_at) rows) /\
      (forall i r, nth_error rows i = Some r -> measurement.created_at r = now (n + i)%nat) /\
      List.map measurement.station_id rows = List.map payload.stationId (items_of body) /\
      List.map measurement.value rows = List.map payload.obsrValue (items_of body)
  | (None, n') =>
      n' = n /\
      match payload.baseDate body, payload.baseTime body with
      | Some base_date, Some base_time =>
          base_date = "" \/ base_time = "" \/ Calendar.strptime (base_date ++ base_time) = None
      | _, _ => True
      end
  end.
Proof.
  intros body. unfold extract_measurements. fold body.
  destruct (payload.baseDate body) as [d|]; [|now split].
  destruct (payload.baseTime body) as [t|]; [|now split].
  destruct d as [|c d]; [cbn; auto|].
  destruct t as [|c' t]; [cbn; auto|].
  cbn [Py.nonempty andb]. unfold _parse_datetime.
  destruct (Calendar.strptime _) as [obs|] eqn:E; [|cbn; auto].
  unfold bind.
  pose proof (measurement_rows_spec obs (items_of body) n) as H.
  destruct (measurement_rows now obs (items_of body) n) as [rows n'].
  destruct H as (A & B & C & D & F & G). cbn [ret].
  repeat split; try assumption; try lia.
  exists (String c d), (String c' t), obs. repeat split; assumption.
Qed.

End MeasurementRows.

(** ** What the fusion keeps *)

Section FusionRows.

Import feature_builder Spec.

Lemma raw_valid_keys_cons r rows k :
  In k (raw_valid_keys (r :: rows)) <->
  (k = raw_key r /\ raw.observed_at r <> None) \/ In k (raw_valid_keys rows).
Proof.
  unfold raw_valid_keys, raw_key. cbn [List.filter].
  destruct (raw.observed_at r) as [t|] eqn:E; cbn [List.map In]; rewrite ?E.
  - split; [intros [<-|H]; [left; split; [reflexivity|discriminate] | now right]
           | intros [[-> _]|H]; [now left | now right]].
  - split; [now right | intros [[_ H]|H]; [congruence | exact H]].
Qed.

Lemma raw_valid_keys_app l1 l2 k :
  In k (raw_valid_keys (l1 ++ l2)) <-> In k (raw_valid_keys l1) \/ In k (raw_valid_keys l2).
Proof.
  unfold raw_valid_keys. rewrite List.filter_app, List.map_app. apply in_app_iff.
Qed.

Lemma valid_keys_singleton x k :
  In k (valid_keys [x]) <-> k = key x /\ datetime x <> None.
Proof.
  unfold valid_keys, dropna, has_datetime. cbn [List.filter].
  destruct (datetime x) eqn:E; cbn [List.map In].
  - split; [intros [<-|[]]; split; [reflexivity|discriminate] | intros [-> _]; now left].
  - split; [intros [] | intros [_ H]; congruence].
Qed.

(** The keys after a find-or-create step. *)
Lemma find_or_create_keys st dt upd new all k :
  (forall x, station_id (upd x) = station_id x /\ datetime (upd x) = datetime x) ->
  station_id new = st -> datetime new = dt ->
  In k (valid_keys match update_first st dt upd all with
                   | Some updated => updated
                   | None => all ++ [new]
                   end)
  <-> In k (valid_keys all) \/ (k = (st, dt) /\ dt <> None).
Proof.
  intros Hupd Hs Hd.
  destruct (update_first st dt upd all) as [all'|] eqn:E.
  - rewrite (update_first_valid_keys _ _ _ _ _ Hupd E).
    split; [now left|]. intros [H|[-> Hdt]]; [exact H|].
    destruct (update_first_found _ _ _ _ _ E) as (x & Hx & Hk & _).
    apply same_key_true in Hk as [Hxs Hxd].
    unfold valid_keys, dropna. apply in_map_iff. exists x. split.
    + unfold key. now rewrite Hxs, Hxd.
    + apply filter_In. split; [exact Hx|]. unfold has_datetime. rewrite Hxd.
      destruct dt; congruence.
  - rewrite valid_keys_app, in_app_iff, valid_keys_singleton.
    unfold key. now rewrite Hs, Hd.
Qed.

Lemma pm10_row_keys all r k :
  In k (valid_keys (pm10_row all r)) <->
  In k (valid_keys all) \/ (k = raw_key r /\ raw.observed_at r <> None).
Proof. unfold pm10_row. apply find_or_create_keys; auto. Qed.

Lemma uv_row_keys all r k :
  In k (valid_keys (uv_row all r)) <->
  In k (valid_keys all) \/ (k = raw_key r /\ raw.observed_at r <> None).
Proof. unfold uv_row. apply find_or_create_keys; auto. Qed.

Lemma asos_row_keys all r k :
  In k (valid_keys (asos_row all r)) <->
  In k (valid_keys all) \/
  (asos_accepted r = true /\ k = raw_key r /\ raw.observed_at r <> None).
Proof.
  unfold asos_row, asos_accepted.
  destruct (asos_temperature (raw.value r)) as [temp|].
  - rewrite valid_keys_app, in_app_iff, valid_keys_singleton. unfold key, raw_key.
    cbn [station_id datetime]. intuition.
  - split; [now left | intros [H|[H _]]; [exact H | discriminate]].
Qed.

Lemma process_pm10_keys rows all k :
  In k (valid_keys (process_pm10 rows all)) <->
  In k (valid_keys all) \/ In k (raw_valid_keys rows).
Proof.
  unfold process_pm10. revert all.
  induction rows as [|r rows IH]; intros all; cbn [fold_left].
  - cbn. intuition.
  - rewrite IH, pm10_row_keys, raw_valid_keys_cons. intuition.
Qed.

Lemma process_uv_keys rows all k :
  In k (valid_keys (process_uv rows all)) <->
  In k (valid_keys all) \/ In k (raw_valid_keys rows).
Proof.
  unfold process_uv. revert all.
  induction rows as [|r rows IH]; intros all; cbn [fold_left].
  - cbn. intuition.
  - rewrite IH, uv_row_keys, raw_valid_keys_cons. intuition.
Qed.

Lemma process_asos_keys rows all k :
  In k (valid_keys (process_asos rows all)) <->
  In k (valid_keys all) \/ In k (raw_valid_keys (List.filter asos_accepted rows)).
Proof.
  unfold process_asos. revert all.
  induction rows as [|r rows IH]; intros all; cbn [fold_left List.filter].
  - cbn. intuition.
  - rewrite IH, asos_row_keys.
    destruct (asos_accepted r); [rewrite raw_valid_keys_cons|]; intuition; discriminate.
Qed.

Lemma dataset_keys_valid_keys d k :
  In k (dataset_keys (create_ml_dataset d)) <-> In k (valid_keys (collect d)).
Proof.
  unfold dataset_keys.
  rewrite <- (List.map_map row key), create_ml_dataset_rows.
  unfold sort_values, valid_keys.
  split; intros H; apply list_elem_of_In; apply list_elem_of_In in H.
  - now rewrite merge_sort_Permutation in H.
  - now rewrite merge_sort_Permutation.
Qed.

(** X1: the keys of the returned rows are the keys of the input records
    that have a timestamp, those of the ground-station records that
    [float] rejects excepted: no record with a timestamp is lost
    otherwise, and no key is made up. *)
Theorem dataset_keys_are_input_keys (d : raw_data) (k : string * option Z) :
  In k (dataset_keys (create_ml_dataset d)) <->
  In k (raw_valid_keys (List.filter asos_accepted (asos d))) \/
  In k (raw_valid_keys (pm10_records d)) \/
  In k (raw_valid_keys (uv d)).
Proof.
  rewrite dataset_keys_valid_keys. unfold collect.
  rewrite process_uv_keys, process_pm10_keys, process_asos_keys. cbn. intuition.
Qed.

(** X2: when no two ground-station records with a timestamp share a
    station and a timestamp, no two returned rows share their key, however
    many particulate and ultraviolet records there are for a key. *)
Theorem dataset_keys_distinct (d : raw_data) :
  NoDup (raw_valid_keys (asos d)) -> NoDup (dataset_keys (create_ml_dataset d)).
Proof. apply fused_keys_distinct. Qed.

Lemma update_first_length st dt upd all all' :
  update_first st dt upd all = Some all' -> List.length all' = List.length all.
Proof.
  revert all'. induction all as [|y l IH]; intros all' H; [discriminate|].
  cbn [update_first] in H. destruct (same_key st dt y).
  - now injection H as <-.
  - destruct (update_first st dt upd l) as [l'|]; [|discriminate].
    injection H as <-. cbn [List.length]. now rewrite (IH l' eq_refl).
Qed.

Lemma fold_left_length_bound {A : Type} (f : list fused -> A -> list fused) rows all :
  (forall all r, List.length (f all r) <= S (List.length all)) ->
  List.length (fold_left f rows all) <= List.length all + List.length rows.
Proof.
  intros Hf. revert all. induction rows as [|r rows IH]; intros all; cbn [fold_left List.length].
  - lia.
  - specialize (IH (f all r)). specialize (Hf all r). lia.
Qed.

Lemma find_or_create_length st dt upd new all :
  List.length match update_first st dt upd all with
              | Some updated => updated
              | None => all ++ [new]
              end <= S (List.length all).
Proof.
  destruct (update_first st dt upd all) as [all'|] eqn:E.
  - rewrite (update_first_length _ _ _ _ _ E). lia.
  - rewrite length_app. cbn. lia.
Qed.

(** X3: the dataset has at most one row per input record. *)
Theorem create_ml_dataset_length (d : raw_data) :
  List.length (create_ml_dataset d)
  <= List.length (asos d) + List.length (pm10_records d) + List.length (uv d).
Proof.
  rewrite <- (length_map row), create_ml_dataset_rows.
  unfold sort_values. rewrite merge_sort_Permutation.
  unfold dropna. 
  assert (H : List.length (List.filter has_datetime (collect d)) <= List.length (collect d)).
  { generalize (collect d). intros l. induction l as [|x l IH]; cbn [List.filter]; [lia|].
    destruct (has_datetime x); cbn [List.length]; lia. }
  etransitivity; [exact H|]. unfold collect, process_uv, process_pm10, process_asos.
  pose proof (fold_left_length_bound uv_row (uv d)
                (fold_left pm10_row (pm10_records d) (fold_left asos_row (asos d) [])))
    as H1.
  pose proof (fold_left_length_bound pm10_row (pm10_records d) (fold_left asos_row (asos d) []))
    as H2.
  pose proof (fold_left_length_bound asos_row (asos d) []) as H3.
  cbn [List.length] in H3.
  assert (Ha : forall all r, List.length (asos_row all r) <= S (List.length all)).
  { intros all r. unfold asos_row. destruct (asos_temperature _); [|lia].
    rewrite length_app. cbn. lia. }
  specialize (H1 (fun all r => find_or_create_length _ _ _ _ all)).
  specialize (H2 (fun all r => find_or_create_length _ _ _ _ all)).
  specialize (H3 Ha). lia.
Qed.

(** X6: a ground-station record on whose value [float] raises leaves no
    trace: the dataset is the one built without the record. *)
Theorem rejected_asos_record_is_dropped (l1 l2 : list raw.t) (r : raw.t)
  (pm10_rows uv_rows : list raw.t) :
  asos_temperature (raw.value r) = None ->
  create_ml_dataset {| asos := l1 ++ r :: l2; pm10_records := pm10_rows; uv := uv_rows |}
  = create_ml_dataset {| asos := l1 ++ l2; pm10_records := pm10_rows; uv := uv_rows |}.
Proof.
  intros H.
  assert (E : process_asos (l1 ++ r :: l2) [] = process_asos (l1 ++ l2) []).
  { unfold process_asos. rewrite fold_left_app_step, fold_left_app.
    unfold asos_row at 2. now rewrite H. }
  unfold create_ml_dataset, collect. cbn [asos pm10_records uv]. now rewrite E.
Qed.

End FusionRows.

Section Provenance.

Import feature_builder Spec.

(** Where the entries come from after the scan. *)
Lemma update_first_inv st dt upd all all' y :
  update_first st dt upd all = Some all' ->
  In y all' ->
  In y all \/ exists x, In x all /\ same_key st dt x = true /\ y = upd x.
Proof.
  revert all'. induction all as [|z l IH]; intros all' H Hy; [discriminate|].
  cbn [update_first] in H.
  destruct (same_key st dt z) eqn:E.
  - injection H as <-. destruct Hy as [<-|Hy].
    + right. exists z. repeat split; [now left | exact E].
    + left. now right.
  - destruct (update_first st dt upd l) as [l'|]; [|discriminate].
    injection H as <-. destruct Hy as [<-|Hy]; [left; now left|].
    destruct (IH l' eq_refl Hy) as [H|(x & Hx & Hk & ->)].
    + left. now right.
    + right. exists x. repeat split; [now right | exact Hk].
Qed.

(** An entry the scan passes over is kept as it is. *)
Lemma update_first_other st dt upd all all' x :
  update_first st dt upd all = Some all' ->
  In x all -> same_key st dt x = false -> In x all'.
Proof.
  revert all'. induction all as [|z l IH]; intros all' H Hx Hk; [destruct Hx|].
  cbn [update_first] in H.
  destruct (same_key st dt z) eqn:E.
  - injection H as <-. destruct Hx as [->|Hx]; [congruence | now right].
  - destruct (update_first st dt upd l) as [l'|]; [|discriminate].
    injection H as <-. destruct Hx as [->|Hx]; [now left | right; now apply IH].
Qed.

Variable d : raw_data.

Lemma asos_row_provenance all r :
  In r (asos d) -> Forall (provenance d) all -> Forall (provenance d) (asos_row all r).
Proof.
  intros Hr Hall. unfold asos_row.
  destruct (asos_temperature (raw.value r)) as [temp|] eqn:E; [|exact Hall].
  apply Forall_app. split; [exact Hall|]. constructor; [|constructor].
  unfold provenance, key, raw_key. cbn [temperature pm10 uv_uvb uv_uva uv_euv station_id datetime].
  split; [|split].
  - intros v ->. exists r. repeat split; assumption.
  - discriminate.
  - intros [H|[H|H]]; congruence.
Qed.

Lemma pm10_row_provenance all r :
  In r (pm10_records d) -> Forall (provenance d) all -> Forall (provenance d) (pm10_row all r).
Proof.
  intros Hr Hall. unfold pm10_row.
  destruct (update_first _ _ _ all) as [all'|] eqn:E.
  - apply Forall_forall. intros y Hy. apply list_elem_of_In in Hy.
    rewrite Forall_forall in Hall.
    destruct (update_first_inv _ _ _ _ _ y E Hy) as [H|(x & Hx & Hk & ->)].
    + apply Hall, list_elem_of_In, H.
    + apply list_elem_of_In, Hall in Hx. destruct Hx as (Ht & _ & Hu).
      apply same_key_true in Hk as [Hs Hd].
      unfold provenance, key, raw_key in *.
      cbn [set_pm10 temperature pm10 uv_uvb uv_uva uv_euv station_id datetime].
      split; [exact Ht | split; [|exact Hu]].
      intros v Hv. exists r. rewrite Hs, Hd. repeat split; assumption.
  - apply Forall_app. split; [exact Hall|]. constructor; [|constructor].
    unfold provenance, key, raw_key.
    cbn [temperature pm10 uv_uvb uv_uva uv_euv station_id datetime].
    split; [discriminate | split].
    + intros v Hv. exists r. repeat split; assumption.
    + intros [H|[H|H]]; congruence.
Qed.

Lemma uv_row_provenance all r :
  In r (uv d) -> Forall (provenance d) all -> Forall (provenance d) (uv_row all r).
Proof.
  intros Hr Hall. unfold uv_row.
  destruct (update_first _ _ _ all) as [all'|] eqn:E.
  - apply Forall_forall. intros y Hy. apply list_elem_of_In in Hy.
    rewrite Forall_forall in Hall.
    destruct (update_first_inv _ _ _ _ _ y E Hy) as [H|(x & Hx & Hk & ->)].
    + apply Hall, list_elem_of_In, H.
    + apply list_elem_of_In, Hall in Hx. destruct Hx as (Ht & Hp & _).
      apply same_key_true in Hk as [Hs Hd].
      unfold provenance, key, raw_key in *.
      cbn [set_uv temperature pm10 uv_uvb uv_uva uv_euv station_id datetime].
      split; [exact Ht | split; [exact Hp|]].
      intros _. exists r. rewrite Hs, Hd. repeat split; assumption.
  - apply Forall_app. split; [exact Hall|]. constructor; [|constructor].
    unfold provenance, key, raw_key.
    cbn [temperature pm10 uv_uvb uv_uva uv_euv station_id datetime].
    split; [discriminate | split; [discriminate|]].
    intros _. exists r. repeat split; assumption.
Qed.

Lemma fold_left_provenance (f : list fused -> raw.t -> list fused) (source : list raw.t) :
  (forall all r, In r source -> Forall (provenance d) all -> Forall (provenance d) (f all r)) ->
  forall rows all,
    (forall r, In r rows -> In r source) ->
    Forall (provenance d) all -> Forall (provenance d) (fold_left f rows all).
Proof.
  intros Hf rows. induction rows as [|r rows IH]; intros all Hsub Hall; [exact Hall|].
  cbn [fold_left]. apply IH.
  - intros r' Hr'. apply Hsub. now right.
  - apply Hf; [apply Hsub; now left | exact Hall].
Qed.

(** X4: no value of a returned row is made up or moved between rows: each
    comes from an input record of the row's own station and timestamp,
    and the three ultraviolet values come from one record. *)
Theorem dataset_values_come_from_records :
  Forall (fun f => provenance d (row f)) (create_ml_dataset d).
Proof.
  assert (H : Forall (provenance d) (collect d)).
  { unfold collect, process_uv, process_pm10, process_asos.
    apply (fold_left_provenance uv_row (uv d) uv_row_provenance); [auto|].
    apply (fold_left_provenance pm10_row (pm10_records d) pm10_row_provenance); [auto|].
    apply (fold_left_provenance asos_row (asos d) asos_row_provenance); [auto|].
    constructor. }
  apply Forall_forall. intros f Hf. apply list_elem_of_In in Hf.
  assert (Hr : In (row f) (List.map row (create_ml_dataset d))) by now apply in_map.
  rewrite create_ml_dataset_rows in Hr. unfold sort_values in Hr.
  apply list_elem_of_In in Hr. rewrite merge_sort_Permutation in Hr.
  apply list_elem_of_In in Hr. unfold dropna in Hr. apply filter_In in Hr as [Hr _].
  rewrite Forall_forall in H. apply H, list_elem_of_In, Hr.
Qed.

End Provenance.

Section LastWrite.

Import feature_builder Spec.

Lemma same_key_false_of_key st dt x :
  key x <> (st, dt) -> dt <> None -> same_key st dt x = false.
Proof.
  intros Hk Hd. destruct (same_key st dt x) eqn:E; [|reflexivity].
  apply same_key_true in E as [Hs Ht]. exfalso. apply Hk. unfold key. now rewrite Hs, Ht.
Qed.

Lemma same_key_none st x : same_key st None x = false.
Proof.
  unfold same_key, datetime_eqb. destruct (datetime x); apply andb_false_r.
Qed.

Lemma pm10_row_sets all r :
  raw.observed_at r <> None ->
  exists x, In x (pm10_row all r) /\ has_pm10 (raw_key r) (pm10_value (raw.value r)) x.
Proof.
  intros Hd. unfold pm10_row.
  destruct (update_first _ _ _ all) as [all'|] eqn:E.
  - destruct (update_first_found _ _ _ _ _ E) as (x & _ & Hk & Hin).
    apply same_key_true in Hk as [Hs Ht].
    eexists. split; [exact Hin|]. unfold has_pm10, key, raw_key. cbn. now rewrite Hs, Ht.
  - eexists. split; [apply in_or_app; right; now left|]. now unfold has_pm10, key, raw_key.
Qed.

Lemma pm10_row_keeps_other k v all r :
  raw_key r <> k ->
  (exists x, In x all /\ has_pm10 k v x) -> exists x, In x (pm10_row all r) /\ has_pm10 k v x.
Proof.
  intros Hne (x & Hx & Hk & Hv). exists x. split; [|now split].
  unfold pm10_row.
  destruct (update_first _ _ _ all) as [all'|] eqn:E; [|apply in_or_app; now left].
  apply (update_first_other _ _ _ _ _ x E Hx).
  destruct (raw.observed_at r) as [t|] eqn:Et; [|apply same_key_none].
  apply same_key_false_of_key; [|discriminate].
  rewrite Hk. intros ->. apply Hne. unfold raw_key. now rewrite Et.
Qed.

Lemma uv_row_keeps_pm10 k v all r :
  (exists x, In x all /\ has_pm10 k v x) -> exists x, In x (uv_row all r) /\ has_pm10 k v x.
Proof.
  intros (x & Hx & Hk & Hv). unfold uv_row.
  destruct (update_first _ _ _ all) as [all'|] eqn:E.
  - destruct (update_first_In _ _ _ _ _ x E Hx) as [H|H].
    + exists x. now repeat split.
    + eexists. split; [exact H|]. now split.
  - exists x. split; [apply in_or_app; now left | now split].
Qed.


End LastWrite.

(** ** Engineered features *)

Section FloatTotal.

#[local] Open Scope float_scope.

Lemma SFltb_false_SFleb (a b : spec_float) :
  SFeqb a a = true -> SFeqb b b = true -> SFltb a b = false -> SFleb b a = true.
Proof.
  unfold SFleb, SFltb, SFeqb, SFcompare.
  destruct a as [[|]|[|]| |[|] ma ea], b as [[|]|[|]| |[|] mb eb];
    try discriminate; try reflexivity; intros _ _;
    change (Pos.compare_cont Eq) with Pos.compare;
    destruct (Z.compare_spec ea eb), (Z.compare_spec eb ea);
    try discriminate; try reflexivity; try lia; subst;
    destruct (Pos.compare_spec ma mb), (Pos.compare_spec mb ma);
    cbn; try discriminate; try reflexivity; try lia.
Qed.

Lemma SFltb_SFleb (a b : spec_float) : SFltb a b = true -> SFleb a b = true.
Proof.
  unfold SFleb, SFltb. destruct (SFcompare a b) as [[| |]|]; try discriminate; reflexivity.
Qed.

Lemma SFleb_SFltb_trans (a b c : spec_float) :
  SFleb a b = true -> SFltb b c = true -> SFltb a c = true.
Proof.
  unfold SFleb, SFltb, SFcompare.
  destruct a as [[|]|[|]| |[|] ma ea], b as [[|]|[|]| |[|] mb eb], c as [[|]|[|]| |[|] mc ec];
    try discriminate; try reflexivity;
    change (Pos.compare_cont Eq) with Pos.compare;
    destruct (Z.compare_spec ea eb), (Z.compare_spec eb ec), (Z.compare_spec ea ec);
    try discriminate; try reflexivity; try lia; subst;
    destruct (Pos.compare_spec ma mb), (Pos.compare_spec mb mc), (Pos.compare_spec ma mc);
    cbn; try discriminate; try reflexivity; try lia.
Qed.

Lemma SFltb_SFleb_trans (a b c : spec_float) :
  SFltb a b = true -> SFleb b c = true -> SFltb a c = true.
Proof.
  unfold SFleb, SFltb, SFcompare.
  destruct a as [[|]|[|]| |[|] ma ea], b as [[|]|[|]| |[|] mb eb], c as [[|]|[|]| |[|] mc ec];
    try discriminate; try reflexivity;
    change (Pos.compare_cont Eq) with Pos.compare;
    destruct (Z.compare_spec ea eb), (Z.compare_spec eb ec), (Z.compare_spec ea ec);
    try discriminate; try reflexivity; try lia; subst;
    destruct (Pos.compare_spec ma mb), (Pos.compare_spec mb mc), (Pos.compare_spec ma mc);
    cbn; try discriminate; try reflexivity; try lia.
Qed.

Lemma is_nan_SFeqb (x : float) : is_nan x = false -> SFeqb (Prim2SF x) (Prim2SF x) = true.
Proof.
  unfold is_nan. rewrite FloatAxioms.eqb_spec. now destruct (SFeqb _ _).
Qed.

Lemma ltb_false_leb (x y : float) :
  is_nan x = false -> is_nan y = false -> (x <? y) = false -> (y <=? x) = true.
Proof.
  intros Hx Hy. rewrite FloatAxioms.ltb_spec, FloatAxioms.leb_spec.
  apply SFltb_false_SFleb; now apply is_nan_SFeqb.
Qed.

Lemma ltb_leb (x y : float) : (x <? y) = true -> (x <=? y) = true.
Proof. rewrite FloatAxioms.ltb_spec, FloatAxioms.leb_spec. apply SFltb_SFleb. Qed.

Lemma leb_ltb_trans (x y z : float) :
  (x <=? y) = true -> (y <? z) = true -> (x <? z) = true.
Proof. rewrite FloatAxioms.leb_spec, !FloatAxioms.ltb_spec. apply SFleb_SFltb_trans. Qed.

Lemma ltb_leb_trans (x y z : float) :
  (x <? y) = true -> (y <=? z) = true -> (x <? z) = true.
Proof. rewrite FloatAxioms.leb_spec, !FloatAxioms.ltb_spec. apply SFltb_SFleb_trans. Qed.

Lemma ltb_asym (x y : float) : (x <? y) = true -> (y <? x) = false.
Proof. intros H. apply leb_ltb_false, ltb_leb, H. Qed.

Lemma ltb_is_nan_l (x y : float) : is_nan x = true -> (x <? y) = false.
Proof.
  intros H. destruct (x <? y) eqn:E; [|reflexivity].
  apply ltb_leb, leb_not_nan_l in E. congruence.
Qed.

Lemma ltb_is_nan_r (x y : float) : is_nan y = true -> (x <? y) = false.
Proof.
  intros H. destruct (x <? y) eqn:E; [|reflexivity].
  apply ltb_not_nan_r in E. congruence.
Qed.

Lemma leb_is_nan_l (x y : float) : is_nan x = true -> (x <=? y) = false.
Proof.
  intros H. destruct (x <=? y) eqn:E; [|reflexivity].
  apply leb_not_nan_l in E. congruence.
Qed.

Lemma SFleb_false_SFltb (a b : spec_float) :
  SFeqb a a = true -> SFeqb b b = true -> SFleb a b = false -> SFltb b a = true.
Proof.
  unfold SFleb, SFltb, SFeqb, SFcompare.
  destruct a as [[|]|[|]| |[|] ma ea], b as [[|]|[|]| |[|] mb eb];
    try discriminate; try reflexivity; intros _ _;
    change (Pos.compare_cont Eq) with Pos.compare;
    destruct (Z.compare_spec ea eb), (Z.compare_spec eb ea);
    try discriminate; try reflexivity; try lia; subst;
    destruct (Pos.compare_spec ma mb), (Pos.compare_spec mb ma);
    cbn; try discriminate; try reflexivity; try lia.
Qed.

Lemma SFleb_trans (a b c : spec_float) :
  SFleb a b = true -> SFleb b c = true -> SFleb a c = true.
Proof.
  unfold SFleb, SFcompare.
  destruct a as [[|]|[|]| |[|] ma ea], b as [[|]|[|]| |[|] mb eb], c as [[|]|[|]| |[|] mc ec];
    try discriminate; try reflexivity;
    change (Pos.compare_cont Eq) with Pos.compare;
    destruct (Z.compare_spec ea eb), (Z.compare_spec eb ec), (Z.compare_spec ea ec);
    try discriminate; try reflexivity; try lia; subst;
    destruct (Pos.compare_spec ma mb), (Pos.compare_spec mb mc), (Pos.compare_spec ma mc);
    cbn; try discriminate; try reflexivity; try lia.
Qed.

Lemma leb_false_ltb (x y : float) :
  is_nan x = false -> is_nan y = false -> (x <=? y) = false -> (y <? x) = true.
Proof.
  intros Hx Hy. rewrite FloatAxioms.ltb_spec, FloatAxioms.leb_spec.
  apply SFleb_false_SFltb; now apply is_nan_SFeqb.
Qed.

Lemma leb_trans (x y z : float) :
  (x <=? y) = true -> (y <=? z) = true -> (x <=? z) = true.
Proof. rewrite !FloatAxioms.leb_spec. apply SFleb_trans. Qed.

End FloatTotal.

(** Deciding the comparisons of one number [v] with constants: the
    comparisons that are false are turned round, and two bounds that leave
    no room for [v] close the case. *)
Ltac turn_round :=
  repeat match goal with
    | H : (?x <? ?y)%float = false |- _ =>
        apply ltb_false_leb in H; [ | first [assumption | reflexivity] ..]
    | H : (?x <=? ?y)%float = false |- _ =>
        apply leb_false_ltb in H; [ | first [assumption | reflexivity] ..]
    end.

Ltac no_room :=
  match goal with
  | H1 : (?a <? ?v)%float = true, H2 : (?v <? ?b)%float = true |- _ =>
      let H := fresh in pose proof (ltb_trans a v b H1 H2) as H; vm_compute in H; discriminate H
  | H1 : (?a <? ?v)%float = true, H2 : (?v <=? ?b)%float = true |- _ =>
      let H := fresh in pose proof (ltb_leb_trans a v b H1 H2) as H; vm_compute in H; discriminate H
  | H1 : (?a <=? ?v)%float = true, H2 : (?v <? ?b)%float = true |- _ =>
      let H := fresh in pose proof (leb_ltb_trans a v b H1 H2) as H; vm_compute in H; discriminate H
  | H1 : (?a <=? ?v)%float = true, H2 : (?v <=? ?b)%float = true |- _ =>
      let H := fresh in pose proof (leb_trans a v b H1 H2) as H; vm_compute in H; discriminate H
  end.

Ltac compare_all v :=
  repeat match goal with
    | |- context [(?e <? v)%float] => let E := fresh "E" in destruct (e <? v)%float eqn:E
    | |- context [(v <? ?e)%float] => let E := fresh "E" in destruct (v <? e)%float eqn:E
    | |- context [(?e <=? v)%float] => let E := fresh "E" in destruct (e <=? v)%float eqn:E
    | |- context [(v <=? ?e)%float] => let E := fresh "E" in destruct (v <=? e)%float eqn:E
    end.

Ltac by_comparisons v :=
  compare_all v;
  first [ solve [cbn; repeat split; reflexivity]
        | exfalso; turn_round; no_room ].

Section Features.

Import feature_builder Spec.

#[local] Open Scope float_scope.

(** Every returned row is an engineered row with a datetime. *)
Lemma create_ml_dataset_In (d : raw_data) (f : feature) :
  In f (create_ml_dataset d) -> exists x, f = engineer x /\ datetime x <> None.
Proof.
  unfold create_ml_dataset. destruct (collect d) as [|y l]; [intros []|].
  unfold add_engineered_features. intros H. apply in_map_iff in H as (x & <- & Hx).
  exists x. split; [reflexivity|].
  unfold sort_values in Hx. apply list_elem_of_In in Hx.
  rewrite merge_sort_Permutation in Hx.
  pose proof (dropna_has_datetime (y :: l)) as Hd. rewrite Forall_forall in Hd.
  now apply Hd.
Qed.

Lemma season_of_month (m : Z) :
  (1 <= m <= 12)%Z ->
  season_of m = Some (if (m <=? 2)%Z then winter
                      else if (m <=? 5)%Z then spring
                      else if (m <=? 8)%Z then summer
                      else if (m <=? 11)%Z then autumn
                      else winter).
Proof.
  intros H.
  assert (Hc : (m = 1 \/ m = 2 \/ m = 3 \/ m = 4 \/ m = 5 \/ m = 6 \/ m = 7 \/ m = 8 \/
                m = 9 \/ m = 10 \/ m = 11 \/ m = 12)%Z) by lia.
  repeat (destruct Hc as [-> | Hc]); try subst m; reflexivity.
Qed.

(** X7: every row of the dataset has its hour (0 to 23), its day of the
    week (0 to 6), its month (1 to 12) and the season of that month, and
    is a weekday row exactly when it is not a weekend row. *)
Theorem dataset_rows_are_timed (d : raw_data) : Forall timed (create_ml_dataset d).
Proof.
  apply Forall_forall. intros f Hf. apply list_elem_of_In, create_ml_dataset_In in Hf.
  destruct Hf as (x & -> & Hx).
  destruct (datetime x) as [t|] eqn:E; [clear Hx | congruence].
  exists t, (Calendar.hour t), (Calendar.dayofweek t), (Calendar.month t).
  pose proof (month_of_days_range (t / Calendar.us_per_day)) as Hm.
  eexists. unfold engineer.
  cbn [row hour day_of_week month season is_weekday is_weekend].
  rewrite E. cbn [option_map opt_test].
  repeat split; try reflexivity; try apply clock_fields; try apply dayofweek_range;
    try apply Hm.
  - apply season_of_month, Hm.
  - apply Z.ltb_antisym.
Qed.

(** X8: the rush-hour column is the union of the morning and the evening
    column, which exclude each other; the weekday and the weekend column
    exclude each other, and one of them is set when the row has a
    datetime. *)
Theorem rush_and_week_flags (r : fused) :
  let f := engineer r in
  is_rush_hour f = is_morning_rush f || is_evening_rush f /\
  is_morning_rush f && is_evening_rush f = false /\
  is_weekday f && is_weekend f = false /\
  is_weekday f || is_weekend f = has_datetime r.
Proof.
  unfold engineer, has_datetime.
  cbn [is_rush_hour is_morning_rush is_evening_rush is_weekday is_weekend].
  destruct (datetime r) as [t|]; cbn [option_map opt_test]; [|repeat split].
  unfold isin. cbn [existsb].
  generalize (Calendar.hour t) (Calendar.dayofweek t). intros h w.
  repeat split.
  - destruct (h =? 7)%Z, (h =? 8)%Z, (h =? 9)%Z, (h =? 18)%Z, (h =? 19)%Z, (h =? 20)%Z;
      reflexivity.
  - destruct (Z.eqb_spec h 7), (Z.eqb_spec h 8), (Z.eqb_spec h 9), (Z.eqb_spec h 18),
      (Z.eqb_spec h 19), (Z.eqb_spec h 20); cbn; try reflexivity; lia.
  - destruct (Z.ltb_spec w 5), (Z.leb_spec 5 w); cbn; try reflexivity; lia.
  - destruct (Z.ltb_spec w 5), (Z.leb_spec 5 w); cbn; try reflexivity; lia.
Qed.

(** [v <= hi] as the negation of [hi < v], for numbers. *)
Lemma leb_negb_ltb (v hi : float) :
  is_nan v = false -> is_nan hi = false -> (v <=? hi) = negb (hi <? v).
Proof.
  intros Hv Hh. destruct (hi <? v) eqn:E; cbn [negb].
  - destruct (v <=? hi) eqn:E'; [|reflexivity].
    apply leb_ltb_false in E'. congruence.
  - now apply ltb_false_leb.
Qed.

(** The comparisons of a value with increasing edges. *)
Lemma above_edges (lo hi v : float) :
  (lo <? hi) = true -> (lo <? v) = false -> (hi <? v) = false.
Proof.
  intros Hlh Hlo. destruct (hi <? v) eqn:E; [|reflexivity].
  rewrite (ltb_trans _ _ _ Hlh E) in Hlo. discriminate.
Qed.

Ltac cut_edges v :=
  repeat match goal with
    | |- context [?e <? v] =>
        let E := fresh "E" in
        destruct (e <? v) eqn:E;
        [ repeat match goal with
            | |- context [?lo <? v] => rewrite (below_edge lo e v eq_refl E)
            end
        | repeat match goal with
            | |- context [?hi <? v] => rewrite (above_edges e hi v eq_refl E)
            end ]
    end.

(** X11: the particulate grade of a row is the bin of its PM10 value:
    (0,30] good, (30,80] moderate, (80,150] unhealthy, (150,999] very
    unhealthy, and no grade for a value outside the bins, for NaN and for
    a missing value. *)
Theorem pm10_grade_bins (r : fused) (g : pm10_grade_t) :
  pm10_grade (engineer r) = Some g <->
  exists v, pm10 r = Some v /\ in_grade g v = true.
Proof.
  cbn [pm10_grade engineer].
  destruct (pm10 r) as [v|]; cbn [pm10_grade_of pd_cut].
  2:{ split; [discriminate | intros (v & H & _); discriminate]. }
  assert (H : pm10_grade_of (Some v) = Some g <-> in_grade g v = true).
  { unfold pm10_grade_of, pd_cut, searchsorted_left.
    destruct (is_nan v) eqn:N.
    - split; [discriminate|].
      destruct g; cbn [in_grade]; rewrite ltb_is_nan_r by exact N; discriminate.
    - unfold in_grade. rewrite !(leb_negb_ltb v) by (exact N || reflexivity).
      cut_edges v;
        destruct g; cbn; split; intros H; congruence. }
  rewrite H. split; [intros Hg; now exists v | intros (v' & [= <-] & Hg); exact Hg].
Qed.

(** X9: the temperature category of a row is the bin of its temperature,
    and nothing else: (-999,0] very cold, (0,10] cold, (10,20] mild,
    (20,30] warm, (30,999] hot. *)
Theorem temp_category_only_in_bin (r : fused) (c : temp_category_t) :
  temp_category (engineer r) = Some c <->
  exists v, temperature r = Some v /\ in_category c v = true.
Proof.
  cbn [temp_category engineer].
  destruct (temperature r) as [v|]; cbn [temp_category_of pd_cut].
  2:{ split; [discriminate | intros (v & H & _); discriminate]. }
  assert (H : temp_category_of (Some v) = Some c <-> in_category c v = true).
  { unfold temp_category_of, pd_cut, searchsorted_left.
    destruct (is_nan v) eqn:N.
    - split; [discriminate|].
      destruct c; cbn [in_category]; rewrite ltb_is_nan_r by exact N; discriminate.
    - unfold in_category. rewrite !(leb_negb_ltb v) by (exact N || reflexivity).
      cut_edges v;
        destruct c; cbn; split; intros H; congruence. }
  rewrite H. split; [intros Hg; now exists v | intros (v' & [= <-] & Hg); exact Hg].
Qed.

(** X10: heating and cooling are never both needed, and an extreme
    temperature needs one of them; the flags agree with the temperature
    category of the row. *)
Theorem temperature_flags (r : fused) :
  let f := engineer r in
  heating_needed f && cooling_needed f = false /\
  implb (temp_extreme f) (heating_needed f || cooling_needed f) = true /\
  match temp_category f with
  | Some very_cold => heating_needed f = true /\ cooling_needed f = false
  | Some cold => cooling_needed f = false /\ temp_extreme f = false
  | Some mild => heating_needed f = false /\ cooling_needed f = false /\ temp_extreme f = false
  | Some warm => heating_needed f = false /\ temp_extreme f = false
  | Some hot => heating_needed f = false /\ cooling_needed f = true /\ temp_extreme f = true
  | None => True
  end.
Proof.
  unfold engineer. cbn [heating_needed cooling_needed temp_extreme temp_category].
  destruct (temperature r) as [v|]; [|cbn; auto].
  unfold temp_category_of, pd_cut, searchsorted_left, col_test.
  destruct (is_nan v) eqn:N.
  - rewrite !(ltb_is_nan_l v), !(ltb_is_nan_r _ v) by exact N. cbn. auto.
  - by_comparisons v.
Qed.

(** X12: the mask and the outdoor-activity column agree with the
    particulate grade of the row: no mask and outdoor activity for a good
    grade, outdoor activity for a moderate one, a mask and no outdoor
    activity for the two unhealthy ones. *)
Theorem pm10_flags (r : fused) :
  let f := engineer r in
  match pm10_grade f with
  | Some good => mask_needed f = false /\ outdoor_activity_ok f = true
  | Some moderate => outdoor_activity_ok f = true
  | Some unhealthy => mask_needed f = true /\ outdoor_activity_ok f = false
  | Some very_unhealthy => mask_needed f = true /\ outdoor_activity_ok f = false
  | None => True
  end /\
  implb (mask_needed f && outdoor_activity_ok f)
        (match pm10_grade f with Some moderate => true | _ => false end) = true.
Proof.
  unfold engineer. cbn [mask_needed outdoor_activity_ok pm10_grade].
  destruct (pm10 r) as [v|]; [|cbn; auto].
  unfold pm10_grade_of, pd_cut, searchsorted_left, col_test.
  destruct (is_nan v) eqn:N.
  - rewrite (leb_is_nan_l v), !(ltb_is_nan_r _ v) by exact N. cbn. auto.
  - by_comparisons v.
Qed.

(** X13: sun protection is asked for only in a row that has an ultraviolet
    reading above zero. *)
Theorem sun_protection_needs_uv (r : fused) :
  implb (sun_protection_needed (engineer r)) (has_uv (engineer r)) = true.
Proof.
  unfold engineer. cbn [sun_protection_needed has_uv].
  destruct (uv_uvb r) as [v|]; [|reflexivity].
  unfold col_test, Py.isna.
  destruct (is_nan v) eqn:N.
  - rewrite !(ltb_is_nan_r _ v) by exact N. reflexivity.
  - by_comparisons v.
Qed.

Lemma isin_In (x : string) (l : list string) : isin String.eqb x l = true -> In x l.
Proof.
  unfold isin. intros H. apply existsb_exists in H as (y & Hy & E).
  apply String.eqb_eq in E. now subst.
Qed.

(** X14: the metropolitan and the coastal stations all lie in the central
    region. *)
Theorem metro_and_coastal_are_central (r : fused) :
  is_metro_area (engineer r) = true \/ is_coastal (engineer r) = true ->
  region (engineer r) = central.
Proof.
  unfold engineer. cbn [is_metro_area is_coastal region].
  intros [H|H]; apply isin_In in H; cbn in H;
    repeat (destruct H as [<-|H]; [reflexivity|]); destruct H.
Qed.

(** The score of an engineered row, from its two sub-scores and its
    three flags. *)
Lemma engineer_comfort_score (r : fused) :
  comfort_score (engineer r) =
  clip ((50.0 * 0.5 + temp_score (temperature r) * 0.5) * 0.7
        + pm10_score (pm10 r) * 0.3
        - times (is_rush_hour (engineer r)) 10
        + times (is_weekend (engineer r)) 5
        - times (temp_extreme (engineer r)) 20) 0 100.
Proof. reflexivity. Qed.

Lemma temp_score_present (v : float) :
  is_nan v = false -> In (temp_score (Some v)) [90; 70; 50; 20; 10].
Proof.
  intros N. unfold temp_score. rewrite N.
  repeat match goal with
         | |- context [if ?b then _ else _] => destruct b
         end; simpl; auto 10.
Qed.

Lemma temp_score_extreme (v : float) :
  (v <? 0) || (30 <? v) = true -> In (temp_score (Some v)) [20; 10].
Proof.
  intros H. unfold temp_score.
  destruct (is_nan v) eqn:N.
  - rewrite (ltb_is_nan_l v), (ltb_is_nan_r _ v) in H by exact N. discriminate.
  - revert H. compare_all v; cbn; intros H; try discriminate; auto;
      exfalso; turn_round; no_room.
Qed.

(** X15: the score of a row of the dataset never reaches the upper bound
    of the clip: it is at most 84.5, at most 81 for a row that has a
    temperature, and at most 36.5 for a row with an extreme
    temperature. *)
Theorem comfort_score_ceiling (r : fused) :
  (comfort_score (engineer r)
   <=? (if temp_extreme (engineer r) then 36.5
        else if Py.isna (temperature r) then 84.5 else 81)) = true.
Proof.
  rewrite engineer_comfort_score.
  assert (Ht : if temp_extreme (engineer r) then In (temp_score (temperature r)) [20; 10]
               else if Py.isna (temperature r) then In (temp_score (temperature r)) [100]
               else In (temp_score (temperature r)) [90; 70; 50; 20; 10]).
  { unfold engineer. cbn [temp_extreme]. unfold col_test, Py.isna.
    destruct (temperature r) as [v|]; [|cbn; auto].
    destruct ((v <? 0) || (30 <? v)) eqn:E; [now apply temp_score_extreme|].
    destruct (is_nan v) eqn:N; [|now apply temp_score_present].
    unfold temp_score. rewrite N. cbn. auto. }
  pose proof (pm10_score_values (pm10 r)) as Hp.
  destruct (temp_extreme (engineer r)), (Py.isna (temperature r));
    cbn [In] in Ht, Hp;
    repeat match goal with
           | H : _ \/ _ |- _ => destruct H as [<-|H]
           | H : False |- _ => destruct H
           end;
    destruct (is_rush_hour (engineer r)), (is_weekend (engineer r));
    vm_compute; reflexivity.
Qed.

(** X16: a missing temperature is scored as the best one: with the
    temperature of a row taken away, its score does not go down. *)
Theorem missing_temperature_scores_best (r : fused) (t : option float) :
  (comfort_score (engineer (with_temperature t r))
   <=? comfort_score (engineer (with_temperature None r))) = true.
Proof.
  rewrite !engineer_comfort_score.
  change (is_rush_hour (engineer (with_temperature t r))) with (is_rush_hour (engineer r)).
  change (is_rush_hour (engineer (with_temperature None r))) with (is_rush_hour (engineer r)).
  change (is_weekend (engineer (with_temperature t r))) with (is_weekend (engineer r)).
  change (is_weekend (engineer (with_temperature None r))) with (is_weekend (engineer r)).
  change (temp_extreme (engineer (with_temperature None r))) with false.
  cbn [with_temperature temperature pm10].
  pose proof (temp_score_values t) as Ht.
  pose proof (pm10_score_values (pm10 r)) as Hp.
  change (temp_score None) with 100.
  cbn [In] in Ht, Hp.
  repeat match goal with
         | H : _ \/ _ |- _ => destruct H as [<-|H]
         | H : False |- _ => destruct H
         end;
    destruct (is_rush_hour (engineer r)), (is_weekend (engineer r)),
      (temp_extreme (engineer (with_temperature t r)));
    vm_compute; reflexivity.
Qed.

End Features.

(** ** Records of the parsers *)

Section Records.

Import parsers Spec.

Variable now : nat -> Z.

Lemma token_cons (c : ascii) (s : string) :
  Py.isspace c = false ->
  (s = "" \/ token s) -> token (String c s).
Proof.
  intros Hc [->|[_ Hs]]; (split; [discriminate|]); cbn; constructor; auto.
Qed.

Lemma split_ws_tokens (s : string) : Forall token (Py.split_ws s).
Proof.
  induction s as [|c r IH]; [constructor|].
  cbn [Py.split_ws]. destruct (Py.isspace c) eqn:Ec; [exact IH|].
  destruct r as [|c' r'].
  - constructor; [|constructor]. apply token_cons; auto.
  - destruct (Py.isspace c') eqn:Ec'.
    + constructor; [|exact IH]. apply token_cons; auto.
    + destruct (Py.split_ws (String c' r')) as [|h t] eqn:E.
      * constructor; [|constructor]. apply token_cons; auto.
      * apply Forall_cons in IH as [Hh Ht]. constructor; [|exact Ht].
        apply token_cons; auto.
Qed.

Lemma nth_token (parts : list string) (i : nat) :
  Forall token parts -> (i < List.length parts)%nat -> token (nth i parts "").
Proof.
  intros H Hi. rewrite Forall_forall in H. apply H, list_elem_of_In, nth_In, Hi.
Qed.

Lemma digits_value_nonneg (s : string) (acc : Z) :
  (0 <= acc)%Z -> Py.all_digits s = true -> (0 <= Py.digits_value acc s)%Z.
Proof.
  revert acc. induction s as [|c r IH]; intros acc Ha Hd; [exact Ha|].
  cbn [Py.all_digits Py.digits_value] in *. apply andb_prop in Hd as [Hc Hr].
  apply IH; [|exact Hr].
  unfold Py.is_digit, Py.digit_val in *. apply andb_prop in Hc as [H1 H2].
  apply N.leb_le in H1. lia.
Qed.

(** What the loop over the lines gives, from what its body gives. *)
Lemma for_lines_Forall (body : string -> Clock (option record)) (P : record -> Prop) :
  (forall line n, match fst (body line n) with Some r => P r | None => True end) ->
  forall lines n, Forall P (fst (for_lines body lines n)).
Proof.
  intros Hb lines. induction lines as [|line rest IH]; intros n; [constructor|].
  cbn [for_lines]. unfold bind, ret.
  specialize (Hb line n). destruct (body line n) as [o k]. cbn [fst] in Hb.
  specialize (IH k). destruct (for_lines body rest k) as [rs k']. cbn [fst] in *.
  destruct o; [constructor|]; assumption.
Qed.

Lemma asos_line_shape line n :
  match fst (asos_line now line n) with Some r => asos_shape r | None => True end.
Proof.
  unfold asos_line.
  destruct (3 <=? List.length (Py.split_ws line))%nat eqn:E; [|exact I].
  apply Nat.leb_le in E.
  unfold bind, ret, datetime_now.
  destruct (if Py.nonempty _ then _ else _) as [obs k]. cbn [fst].
  pose proof (split_ws_tokens line) as Ht.
  unfold asos_shape. cbn [category unit station_id value uva_value euv_value].
  replace (1 <? List.length (Py.split_ws line))%nat with true
    by (symmetry; apply Nat.ltb_lt; lia).
  replace (2 <? List.length (Py.split_ws line))%nat with true
    by (symmetry; apply Nat.ltb_lt; lia).
  repeat split; try reflexivity.
  - apply nth_token; [exact Ht | lia].
  - apply nth_token; [exact Ht | lia].
  - eexists. split; [reflexivity|]. apply nth_token; [exact Ht | lia].
Qed.

Lemma uv_line_shape line n :
  match fst (uv_line now line n) with Some r => uv_shape r | None => True end.
Proof.
  unfold uv_line.
  destruct (5 <=? List.length (Py.split_ws line))%nat eqn:E; [|exact I].
  apply Nat.leb_le in E.
  unfold bind, ret, datetime_now.
  destruct (if Py.nonempty _ then _ else _) as [obs k]. cbn [fst].
  pose proof (split_ws_tokens line) as Ht.
  unfold uv_shape. cbn [category unit station_id value uva_value euv_value].
  replace (1 <? List.length (Py.split_ws line))%nat with true
    by (symmetry; apply Nat.ltb_lt; lia).
  replace (2 <? List.length (Py.split_ws line))%nat with true
    by (symmetry; apply Nat.ltb_lt; lia).
  replace (3 <? List.length (Py.split_ws line))%nat with true
    by (symmetry; apply Nat.ltb_lt; lia).
  replace (4 <? List.length (Py.split_ws line))%nat with true
    by (symmetry; apply Nat.ltb_lt; lia).
  split; [reflexivity|]. split; [reflexivity|].
  split; [apply nth_token; [exact Ht | lia]|].
  repeat split; eexists; (split; [reflexivity|]); apply nth_token; try exact Ht; lia.
Qed.

Lemma pm10_line_shape line n :
  match fst (pm10_line now line n) with Some r => pm10_shape r | None => True end.
Proof.
  unfold pm10_line.
  destruct (3 <=? List.length (Py.split "," line))%nat eqn:E; [|exact I].
  unfold bind, ret, datetime_now.
  destruct (if Py.nonempty (if Py.nonempty _ then _ else _) then _ else _) as [obs k].
  cbn [fst]. unfold pm10_shape. cbn [category unit value uva_value euv_value].
  repeat split; try reflexivity.
  destruct (2 <? List.length (Py.split "," line))%nat; [|now left].
  destruct (Py.nonempty _ && Py.isdigit _) eqn:D; [|now left].
  right. eexists. split; [reflexivity|].
  apply andb_prop in D as [_ D]. unfold Py.int_of_digits.
  apply digits_value_nonneg; [lia|].
  unfold Py.isdigit in D. now destruct (Py.strip _).
Qed.

(** X17: the records of the parsers have a fixed shape: the category and
    the unit of their parser; for the ground-station and the ultraviolet
    parser, a station and values that are tokens of the line (strings,
    never empty, without whitespace); for the particulate parser, a value
    that is missing or a non-negative integer. *)
Theorem parsed_records_shape (raw_data : string) (n : nat) :
  Forall asos_shape (fst (parse_asos_raw now raw_data n)) /\
  Forall pm10_shape (fst (parse_pm10_raw now raw_data n)) /\
  Forall uv_shape (fst (parse_uv_raw now raw_data n)).
Proof.
  unfold parse_asos_raw, parse_pm10_raw, parse_uv_raw.
  split; [|split]; apply for_lines_Forall.
  - apply asos_line_shape.
  - apply pm10_line_shape.
  - apply uv_line_shape.
Qed.

End Records.

Section Stamps.

Import parsers Spec.

#[local] Open Scope Z_scope.

Variable now : nat -> Z.

Lemma _parse_datetime_from_line_clock (s : string) (n : nat) :
  snd (_parse_datetime_from_line now s n) = n \/
  _parse_datetime_from_line now s n = (now n, S n).
Proof.
  unfold _parse_datetime_from_line, ret, datetime_now.
  destruct (String.length s =? 12)%nat.
  - destruct (Calendar.strptime_YmdHM s); auto.
  - destruct (String.length s =? 10)%nat; [|auto].
    destruct (Calendar.strptime_YmdHM _); auto.
Qed.

Lemma observed_then_created (obs : Clock Z) (mk : Z -> Z -> record) (n : nat) :
  (snd (obs n) = n \/ obs n = (now n, S n)) ->
  (forall o c, created_at (mk o c) = c) ->
  let '(o, k) := (o <- obs ;; c <- datetime_now now ;; ret (Some (mk o c))) n in
  line_stamp now n o k.
Proof.
  intros Ho Hmk. unfold bind, ret, datetime_now.
  destruct (obs n) as [o k] eqn:E. cbn [snd] in Ho. unfold line_stamp.
  rewrite Hmk. destruct Ho as [->|[= -> ->]].
  - split; [now left | f_equal; lia].
  - split; [now right | f_equal; lia].
Qed.

Lemma asos_line_stamp line n :
  let '(o, k) := asos_line now line n in line_stamp now n o k.
Proof.
  unfold asos_line.
  destruct (3 <=? List.length (Py.split_ws line))%nat; [|reflexivity].
  apply (observed_then_created _
           (fun o c => {| station_id := _; observed_at := o; category := _; value := _;
                          uva_value := _; euv_value := _; unit := _; created_at := c;
                          raw_line := _ |})); [|reflexivity].
  destruct (Py.nonempty _); [apply _parse_datetime_from_line_clock | now right].
Qed.

Lemma uv_line_stamp line n :
  let '(o, k) := uv_line now line n in line_stamp now n o k.
Proof.
  unfold uv_line.
  destruct (5 <=? List.length (Py.split_ws line))%nat; [|reflexivity].
  apply (observed_then_created _
           (fun o c => {| station_id := _; observed_at := o; category := _; value := _;
                          uva_value := _; euv_value := _; unit := _; created_at := c;
                          raw_line := _ |})); [|reflexivity].
  destruct (Py.nonempty _); [apply _parse_datetime_from_line_clock | now right].
Qed.

Lemma pm10_line_stamp line n :
  let '(o, k) := pm10_line now line n in line_stamp now n o k.
Proof.
  unfold pm10_line.
  destruct (3 <=? List.length (Py.split "," line))%nat; [|reflexivity].
  apply (observed_then_created _
           (fun o c => {| station_id := _; observed_at := o; category := _; value := _;
                          uva_value := _; euv_value := _; unit := _; created_at := c;
                          raw_line := _ |})); [|reflexivity].
  destruct (Py.nonempty _); [apply _parse_datetime_from_line_clock | now right].
Qed.

Lemma for_lines_stamped (body : string -> Clock (option record)) :
  (forall line n, let '(o, k) := body line n in line_stamp now n o k) ->
  forall lines n,
    let '(rows, n') := for_lines body lines n in stamped now n rows n'.
Proof.
  intros Hb lines. induction lines as [|line rest IH]; intros n.
  - cbn [for_lines ret]. unfold ret, stamped. cbn [List.length].
    split; [lia|]. exists []. repeat split; constructor.
  - cbn [for_lines]. unfold bind, ret.
    specialize (Hb line n). destruct (body line n) as [o k].
    specialize (IH k). destruct (for_lines body rest k) as [rs n'].
    destruct IH as (Hlen & ks & Hks & Hsorted & Hrange).
    destruct o as [r|]; unfold line_stamp in Hb.
    + destruct Hb as (Hk & Hc). split; [cbn [List.length]; lia|].
      exists ((k - 1)%nat :: ks). split; [|split].
      * cbn [List.map]. now rewrite Hc, Hks.
      * constructor; [exact Hsorted|].
        eapply Forall_impl; [exact Hrange|]. cbn. intros x Hx. lia.
      * constructor; [lia|].
        eapply Forall_impl; [exact Hrange|]. cbn. intros x Hx. lia.
    + subst k. split; [exact Hlen|]. exists ks. auto.
Qed.

(** X18: each record of a parser is stamped with a reading of the clock of
    its own, later than the readings of the records before it; a parser
    reads the clock at least once and at most twice per record, and not
    at all for a payload without records. *)
Theorem parsers_read_the_clock (raw_data : string) (n : nat) :
  (let '(rows, n') := parse_asos_raw now raw_data n in stamped now n rows n') /\
  (let '(rows, n') := parse_pm10_raw now raw_data n in stamped now n rows n') /\
  (let '(rows, n') := parse_uv_raw now raw_data n in stamped now n rows n').
Proof.
  unfold parse_asos_raw, parse_pm10_raw, parse_uv_raw.
  split; [|split]; apply for_lines_stamped.
  - apply asos_line_stamp.
  - apply pm10_line_stamp.
  - apply uv_line_stamp.
Qed.

Lemma strftime_YmdHM_length t : String.length (Calendar.strftime_YmdHM t) = 12%nat.
Proof. reflexivity. Qed.

(** X19: a timestamp of twelve digits, as [strftime] prints it, is read
    back to the minute without reading the clock; so is the timestamp of
    ten digits left when its leading [20] is cut off; and a timestamp of
    any other length is replaced by the current time. *)
Theorem _parse_datetime_from_line_reads (t : Z) (s : string) (n : nat) :
  four_digit_year t ->
  _parse_datetime_from_line now (Calendar.strftime_YmdHM t) n
  = (t - t mod Calendar.us_per_minute, n) /\
  (Calendar.year t / 100 = 20 ->
   _parse_datetime_from_line now
     (String.substring 2 10 (Calendar.strftime_YmdHM t)) n
   = (t - t mod Calendar.us_per_minute, n)) /\
  (String.length s <> 12%nat -> String.length s <> 10%nat ->
   _parse_datetime_from_line now s n = (now n, S n)).
Proof.
  unfold four_digit_year. intros Hy. split; [|split].
  - unfold _parse_datetime_from_line. rewrite strftime_YmdHM_length. cbn [Nat.eqb].
    rewrite strptime_YmdHM_strftime by lia. reflexivity.
  - intros H20.
    assert (E : Calendar.strftime_YmdHM t
                = ("20" ++ String.substring 2 10 (Calendar.strftime_YmdHM t))%string).
    { unfold Calendar.strftime_YmdHM, Calendar.pad4. rewrite H20.
      change (Calendar.pad2 20) with "20"%string.
      unfold Calendar.pad2. cbv [String.append String.substring]. reflexivity. }
    unfold _parse_datetime_from_line.
    replace (String.length (String.substring 2 10 (Calendar.strftime_YmdHM t))) with 10%nat
      by reflexivity.
    cbn [Nat.eqb]. rewrite <- E.
    rewrite strptime_YmdHM_strftime by lia. reflexivity.
  - intros H12 H10. unfold _parse_datetime_from_line.
    apply Nat.eqb_neq in H12, H10. now rewrite H12, H10.
Qed.

End Stamps.

(** ** The processing pipeline *)

Section Report.

Import parsers weather_processor s3_client Spec.

Variable now : nat -> Z.
Variable json_dumps : list parsers.record -> string.
Variable to_parquet : list feature_builder.feature -> list Byte.byte.
Variable accepted : feature_builder.raw_data -> bool.

Lemma faithful_report_start (b : bucket) : faithful_report b [] b.
Proof. split; [intros ? ? [] | reflexivity]. Qed.

(** A store under a new name keeps the report faithful. *)
Lemma faithful_report_put (b : bucket) stored (b1 : bucket) name key data :
  under_prefixes key = true ->
  faithful_report b stored b1 ->
  faithful_report b (store name key stored) (<[key := data]> b1).
Proof.
  intros Hu [H1 H2]. unfold store. split.
  - intros nm k Hin. apply in_app_or in Hin as [Hin|[[= <- <-]|[]]].
    + split; [|now apply (H1 nm)].
      rewrite lookup_put. destruct (decide (k = key)); [eauto | now apply (H1 nm)].
    + rewrite lookup_put_eq. eauto.
  - intros k Hk. rewrite List.map_app, in_app_iff in Hk. cbn in Hk.
    rewrite lookup_put_ne by (intros ->; apply Hk; right; now left).
    apply H2. intros Hin. apply Hk. now left.
Qed.

Lemma faithful_report_grown (b : bucket) stored (b' : bucket) :
  faithful_report b stored b' -> grown b b'.
Proof.
  intros [H1 H2]. split; intros key Hk.
  - destruct (in_dec string_dec key (List.map snd stored)) as [Hin|Hout].
    + apply in_map_iff in Hin as ([nm k] & <- & Hin). now apply (H1 nm).
    + now rewrite H2.
  - apply H2. intros Hin. apply in_map_iff in Hin as ([nm k] & <- & Hin).
    destruct (H1 nm k Hin) as [_ Hu]. cbn [snd] in Hk. congruence.
Qed.

Lemma store_raw_spec (b : bucket) name data_type raw t st :
  faithful_report b (fst st) (snd st) ->
  let st' := store_raw name data_type raw t st in
  faithful_report b (fst st') (snd st') /\
  List.map fst (fst st') = List.map fst (fst st) ++ (if given raw then [name] else []).
Proof.
  intros H. unfold store_raw. destruct (given raw).
  - rewrite save_raw_weather_data_eq. cbv zeta. cbn [fst snd]. split.
    + apply faithful_report_put; [|exact H].
      unfold under_prefixes, Py.startswith. now rewrite prefix_app.
    + unfold store. now rewrite List.map_app.
  - split; [exact H | now rewrite app_nil_r].
Qed.

Lemma store_parsed_spec (b : bucket) name data_type parsed t st :
  faithful_report b (fst st) (snd st) ->
  let st' := store_parsed json_dumps name data_type parsed t st in
  faithful_report b (fst st') (snd st') /\
  List.map fst (fst st') =
  List.map fst (fst st) ++ (match parsed with [] => [] | _ => [name] end).
Proof.
  intros H. unfold store_parsed. destruct parsed as [|r rs].
  - split; [exact H | now rewrite app_nil_r].
  - rewrite save_parsed_weather_data_eq. cbv zeta. cbn [fst snd]. split.
    + apply faithful_report_put; [|exact H].
      unfold under_prefixes, Py.startswith. rewrite prefix_app, orb_true_r. reflexivity.
    + unfold store. now rewrite List.map_app.
Qed.

Lemma parse_if_given_nil parse raw n :
  given raw = false -> fst (parse_if_given parse raw n) = [].
Proof. unfold parse_if_given. now intros ->. Qed.

(** A parsed particulate or ultraviolet record always makes a row. *)
Lemma parsed_rows_make_a_dataset (pa pp pu : list parsers.record) :
  pp <> [] \/ pu <> [] ->
  feature_builder.create_ml_dataset (raw_data_of pa pp pu) <> [].
Proof.
  intros H E.
  assert (Hk : exists k, In k (dataset_keys
                                 (feature_builder.create_ml_dataset (raw_data_of pa pp pu)))).
  { destruct H as [H|H]; [destruct pp as [|r rs] | destruct pu as [|r rs]];
      try congruence;
      exists (raw_key (raw.of_record r)); apply dataset_keys_are_input_keys;
      [right; left | right; right];
      cbn [raw_data_of feature_builder.pm10_records feature_builder.uv List.map];
      apply raw_valid_keys_cons; left; (split; [reflexivity | discriminate]). }
  destruct Hk as [k Hk]. rewrite E in Hk. destruct Hk.
Qed.

Lemma opt_sublist {A : Type} (c : bool) (x : A) : (if c then [x] else []) `sublist_of` [x].
Proof. destruct c; [reflexivity | apply sublist_nil_l]. Qed.

(** X29: the report of [process_and_store_weather_data] and the bucket.
    Every reported key holds an object; no object of the bucket is lost,
    and only objects under [raw/], [processed/] and [ml_dataset/] are
    written.  The names come in the order of the stores, each at most
    once; a raw payload is reported only when it is given, a parsed
    payload only with its raw payload, and a parsed particulate or
    ultraviolet payload only with a dataset.  The report is empty (the
    dataset step raised, or nothing was given), or it is complete: every
    given payload is reported and every object written is. *)
Theorem process_and_store_report (asos_raw pm10_raw uv_raw : option string)
  (timestamp : option Z) (b : bucket) (n : nat) :
  let result :=
    fst (process_and_store_weather_data now json_dumps to_parquet accepted
           asos_raw pm10_raw uv_raw timestamp b n) in
  let stored_keys := fst result in
  let b' := snd result in
  let names := List.map fst stored_keys in
  (forall name key, In (name, key) stored_keys -> is_Some (b' !! key)) /\
  grown b b' /\
  names `sublist_of` report_names /\
  (In "asos_raw" names -> given asos_raw = true) /\
  (In "pm10_raw" names -> given pm10_raw = true) /\
  (In "uv_raw" names -> given uv_raw = true) /\
  (In "asos_parsed" names -> In "asos_raw" names) /\
  (In "pm10_parsed" names -> In "pm10_raw" names /\ In "ml_dataset" names) /\
  (In "uv_parsed" names -> In "uv_raw" names /\ In "ml_dataset" names) /\
  (stored_keys = [] \/
   (faithful_report b stored_keys b' /\
    (given asos_raw = true -> In "asos_raw" names) /\
    (given pm10_raw = true -> In "pm10_raw" names) /\
    (given uv_raw = true -> In "uv_raw" names))).
Proof.
  intros result.
  assert (E : result = fst (process_and_store_weather_data now json_dumps to_parquet accepted
                              asos_raw pm10_raw uv_raw timestamp b n)) by reflexivity.
  clearbody result. cbv zeta.
  unfold process_and_store_weather_data in E.
  set (clock := match timestamp with Some t => ret t | None => datetime_now now end) in E.
  clearbody clock. unfold bind at 1 in E. destruct (clock n) as [ts n0].
  unfold bind, ret in E.
  pose proof (parse_if_given_nil (parse_asos_raw now) asos_raw n0) as Na.
  destruct (parse_if_given (parse_asos_raw now) asos_raw n0) as [pa n1].
  pose proof (parse_if_given_nil (parse_pm10_raw now) pm10_raw n1) as Np.
  destruct (parse_if_given (parse_pm10_raw now) pm10_raw n1) as [pp n2].
  pose proof (parse_if_given_nil (parse_uv_raw now) uv_raw n2) as Nu.
  destruct (parse_if_given (parse_uv_raw now) uv_raw n2) as [pu n3].
  cbn [fst] in Na, Np, Nu, E.
  pose proof (parsed_rows_make_a_dataset pa pp pu) as Hml.
  destruct (store_raw_spec b "asos_raw" "asos" asos_raw ts ([], b) (faithful_report_start b))
    as [F1 M1].
  set (st1 := store_raw "asos_raw" "asos" asos_raw ts ([], b)) in *.
  destruct (store_raw_spec b "pm10_raw" "pm10" pm10_raw ts st1 F1) as [F2 M2].
  set (st2 := store_raw "pm10_raw" "pm10" pm10_raw ts st1) in *.
  destruct (store_raw_spec b "uv_raw" "uv" uv_raw ts st2 F2) as [F3 M3].
  set (st3 := store_raw "uv_raw" "uv" uv_raw ts st2) in *.
  destruct (store_parsed_spec b "asos_parsed" "asos" pa ts st3 F3) as [F4 M4].
  set (st4 := store_parsed json_dumps "asos_parsed" "asos" pa ts st3) in *.
  destruct (store_parsed_spec b "pm10_parsed" "pm10" pp ts st4 F4) as [F5 M5].
  set (st5 := store_parsed json_dumps "pm10_parsed" "pm10" pp ts st4) in *.
  destruct (store_parsed_spec b "uv_parsed" "uv" pu ts st5 F5) as [F6 M6].
  set (st6 := store_parsed json_dumps "uv_parsed" "uv" pu ts st5) in *.
  cbn [fst List.map app] in M1. rewrite M1 in M2. rewrite M2 in M3. rewrite M3 in M4.
  rewrite M4 in M5. rewrite M5 in M6. clear M1 M2 M3 M4 M5.
  clear F1 F2 F3 F4 F5. clearbody st6. clear st1 st2 st3 st4 st5.
  set (ds := feature_builder.create_ml_dataset (raw_data_of pa pp pu)) in *.
  (* the three ways out: the handler, no dataset, a dataset *)
  assert (Hout : (result = ([], snd st6) /\ (pa <> [] \/ pp <> [] \/ pu <> [])) \/
                 (result = st6 /\ ((pa = [] /\ pp = [] /\ pu = []) \/ ds = [])) \/
                 (exists ml_key data,
                    result = (store "ml_dataset" ml_key (fst st6), <[ml_key := data]> (snd st6))
                    /\ under_prefixes ml_key = true)).
  { subst result.
    assert (Hs : forall f fs,
               exists ml_key data,
                 (let '(ml_key, b0) := save_ml_dataset to_parquet (f :: fs) ts (snd st6) in
                  (store "ml_dataset" ml_key (fst st6), b0))
                 = (store "ml_dataset" ml_key (fst st6), <[ml_key := data]> (snd st6))
                 /\ under_prefixes ml_key = true).
    { intros f fs. rewrite save_ml_dataset_eq. cbv zeta. eexists _, _. split; [reflexivity|].
      unfold under_prefixes, Py.startswith. rewrite prefix_app. apply orb_true_r. }
    destruct (accepted (raw_data_of pa pp pu)).
    - destruct ds as [|f fs].
      + right; left. split; [|now right]. destruct pa, pp, pu; reflexivity.
      + destruct pa, pp, pu;
          first [ right; left; split; [reflexivity | left; auto]
                | right; right; apply Hs ].
    - destruct pa, pp, pu;
        first [ right; left; split; [reflexivity | left; auto]
              | left; split; [reflexivity | intuition discriminate] ]. }
  clear E.
  assert (G6 : grown b (snd st6)) by (eapply faithful_report_grown; exact F6).
  assert (Hin : forall (x : string) l, In x l <-> existsb (String.eqb x) l = true).
  { intros x l. rewrite existsb_exists. split.
    - intros H. exists x. split; [exact H | apply String.eqb_refl].
    - intros (y & Hy & E). apply String.eqb_eq in E. now subst. }
  assert (Ea : given asos_raw = false -> pa = []) by exact Na.
  assert (Ep : given pm10_raw = false -> pp = []) by exact Np.
  assert (Eu : given uv_raw = false -> pu = []) by exact Nu.
  clear Na Np Nu.
  assert (Sraw : forall l1 l2 l3 : list string,
             (((((if given asos_raw then ["asos_raw"] else []) ++
                 (if given pm10_raw then ["pm10_raw"] else [])) ++
                (if given uv_raw then ["uv_raw"] else [])) ++ l1) ++ l2) ++ l3
             = ((if given asos_raw then ["asos_raw"] else []) ++
                (if given pm10_raw then ["pm10_raw"] else []) ++
                (if given uv_raw then ["uv_raw"] else [])) ++ l1 ++ l2 ++ l3).
  { intros. now rewrite <- !app_assoc. }
  destruct Hout as [[-> Hne]|[[-> Hno]|(ml_key & data & -> & Hu)]]; cbn [fst snd List.map].
  - (* the handler answered *)
    split; [intros ? ? []|]. split; [exact G6|]. split; [apply sublist_nil_l|].
    repeat (split; [intros []|]). now left.
  - (* no dataset *)
    split; [intros nm k Hk; now apply (proj1 F6 nm)|]. split; [exact G6|].
    rewrite M6. clear M6 G6.
    assert (Hnone : pp = [] /\ pu = []).
    { destruct Hno as [(_ & -> & ->)|Hds]; [auto|].
      destruct pp; [|exfalso; apply Hml; [left; discriminate | exact Hds]].
      destruct pu; [|exfalso; apply Hml; [right; discriminate | exact Hds]]. auto. }
    destruct Hnone as [-> ->]. clear Hml Hno Ep Eu.
    split.
    { change report_names
        with ((((["asos_raw"] ++ ["pm10_raw"]) ++ ["uv_raw"]) ++ ["asos_parsed"])
              ++ ["pm10_parsed"; "uv_parsed"; "ml_dataset"])%list.
      rewrite !app_nil_r. rewrite <- (app_nil_r (_ ++ match pa with [] => [] | _ => _ end)).
      repeat apply sublist_app; try apply opt_sublist; try apply sublist_nil_l.
      destruct pa; [apply sublist_nil_l | reflexivity]. }
    assert (Hright : faithful_report b (fst st6) (snd st6)) by exact F6.
    clear F6. rewrite !Hin. clear Hin Sraw.
    destruct (given asos_raw), (given pm10_raw), (given uv_raw);
      try (rewrite (Ea eq_refl)); destruct pa as [|ra pa'];
      try (specialize (Ea eq_refl)); try discriminate;
      (repeat (split; [vm_compute; intuition discriminate|]));
      right; (split; [exact Hright|]); vm_compute; intuition discriminate.
  - (* a dataset *)
    assert (F7 : faithful_report b (store "ml_dataset" ml_key (fst st6))
                   (<[ml_key := data]> (snd st6)))
      by (apply faithful_report_put; assumption).
    split; [intros nm k Hk; now apply (proj1 F7 nm)|].
    split; [eapply faithful_report_grown; exact F7|].
    unfold store in *. rewrite List.map_app, M6. cbn [List.map fst]. clear M6 G6 F6 Hml.
    split.
    { change report_names
        with (((((((["asos_raw"] ++ ["pm10_raw"]) ++ ["uv_raw"]) ++ ["asos_parsed"])
                 ++ ["pm10_parsed"]) ++ ["uv_parsed"]) ++ ["ml_dataset"])%list).
      repeat apply sublist_app; try apply opt_sublist; try reflexivity.
      - destruct pa; [apply sublist_nil_l | reflexivity].
      - destruct pp; [apply sublist_nil_l | reflexivity].
      - destruct pu; [apply sublist_nil_l | reflexivity]. }
    assert (Hright : faithful_report b (fst st6 ++ [("ml_dataset", ml_key)])
                       (<[ml_key := data]> (snd st6))) by exact F7.
    clear F7. rewrite !Hin. clear Hin Sraw.
    destruct (given asos_raw), (given pm10_raw), (given uv_raw);
      try (rewrite (Ea eq_refl)); try (rewrite (Ep eq_refl)); try (rewrite (Eu eq_refl));
      destruct pa as [|ra pa'], pp as [|rp pp'], pu as [|ru pu'];
      try (specialize (Ea eq_refl)); try (specialize (Ep eq_refl));
      try (specialize (Eu eq_refl)); try discriminate;
      (repeat (split; [vm_compute; intuition discriminate|]));
      right; (split; [exact Hright|]); vm_compute; intuition discriminate.
Qed.

End Report.

Section ProcessThenLoad.

Import parsers weather_processor s3_client Spec.

Variable now : nat -> Z.
Variable json_dumps : list parsers.record -> string.
Variable to_parquet : list feature_builder.feature -> list Byte.byte.
Variable accepted : feature_builder.raw_data -> bool.
Variable read_parquet : list Byte.byte -> option (list feature_builder.feature).

(** A store outside [ml_dataset/] adds no dataset. *)
Lemma no_dataset_put (b : bucket) key data :
  Py.startswith "ml_dataset/" key = false ->
  no_dataset b -> no_dataset (<[key := data]> b).
Proof.
  intros Hk Hb k ([v Hv] & Hp & He).
  rewrite lookup_put in Hv. destruct (decide (k = key)) as [->|]; [congruence|].
  apply (Hb k). split; [eauto | auto].
Qed.

Lemma store_raw_no_dataset name data_type raw t st :
  no_dataset (snd st) -> no_dataset (snd (store_raw name data_type raw t st)).
Proof.
  intros H. unfold store_raw. destruct (given raw); [|exact H].
  rewrite save_raw_weather_data_eq. cbv zeta. cbn [snd].
  apply no_dataset_put; [|exact H].
  unfold Py.startswith. rewrite append_cons. reflexivity.
Qed.

Lemma store_parsed_no_dataset name data_type parsed t st :
  no_dataset (snd st) ->
  no_dataset (snd (store_parsed json_dumps name data_type parsed t st)).
Proof.
  intros H. unfold store_parsed. destruct parsed; [exact H|].
  rewrite save_parsed_weather_data_eq. cbv zeta. cbn [snd].
  apply no_dataset_put; [|exact H].
  unfold Py.startswith. rewrite append_cons. reflexivity.
Qed.

(** The dataset saved into a bucket without datasets is the latest. *)
Lemma load_latest_after_save (b : bucket) ds t days_back :
  read_parquet (to_parquet ds) = Some ds ->
  no_dataset b ->
  load_latest_ml_dataset read_parquet days_back (snd (save_ml_dataset to_parquet ds t b))
  = Returned (Some ds).
Proof.
  intros Hr Hb.
  destruct (save_ml_dataset_key to_parquet ds t b) as (Hs & He).
  rewrite save_ml_dataset_eq in *. cbv zeta in *. cbn [fst snd] in *.
  set (key := ("ml_dataset/" ++ _)%string) in *.
  rewrite (load_latest_of_greatest read_parquet _ days_back key (to_parquet ds)).
  - now rewrite Hr.
  - apply lookup_put_eq.
  - split; [|auto]. rewrite lookup_put_eq. eauto.
  - intros k ([v Hv] & Hp & Hq). rewrite lookup_put in Hv.
    destruct (decide (k = key)) as [->|]; [apply string_leb_refl|].
    exfalso. apply (Hb k). split; [eauto | auto].
Qed.


End ProcessThenLoad.

(** ** Instances *)

Ltac year_in_range :=
  unfold Spec.four_digit_year; split; apply Z.leb_le; vm_compute; reflexivity.

(** Two datasets a second apart: the keys are in the order of the
    times. *)
Lemma ml_dataset_key_order_witness :
  String.compare
    (fst (s3_client.save_ml_dataset (fun df : list Byte.byte => df) [Byte.x01]
            1735736400000000 ∅))
    (fst (s3_client.save_ml_dataset (fun df : list Byte.byte => df) [Byte.x02]
            1735736401000000 ∅))
  = Lt.
Proof.
  apply (ml_dataset_key_order (fun df : list Byte.byte => df) [Byte.x01] [Byte.x02]
           1735736400000000 1735736401000000 ∅ ∅); year_in_range.
Defined.


(** Two payloads half a second apart. *)
Lemma save_raw_twice_in_a_second_witness :
  fst (s3_client.save_raw_weather_data "asos" "first" 1735736400000000 ∅)
  = fst (s3_client.save_raw_weather_data "asos" "second" 1735736400500000 ∅) /\
  snd (s3_client.save_raw_weather_data "asos" "second" 1735736400500000
         (snd (s3_client.save_raw_weather_data "asos" "first" 1735736400000000 ∅)))
  = snd (s3_client.save_raw_weather_data "asos" "second" 1735736400500000 ∅).
Proof.
  apply (save_raw_twice_in_a_second "asos" "first" "second"
           1735736400000000 1735736400500000 ∅).
  - year_in_range.
  - year_in_range.
  - reflexivity.
Defined.

(** 2025-01-01 13:30:45 is asked for as 13:00. *)
Lemma fetch_sends_the_hour_witness :
  let config := {| kma_client.base_url := "https://apihub.kma.go.kr/api/typ01/url";
                   kma_client.api_key := "key";
                   kma_client.station_id := "0";
                   kma_client.timeout_seconds := 10 |} in
  kma_client.fetch_asos Spec.midnight config (kma_client.time_datetime 1735738245000000) O
  = (Some {| kma_client.url := "https://apihub.kma.go.kr/api/typ01/url/kma_sfctm2.php";
             kma_client.params := [("tm", "202501011300"); ("stn", "0"); ("authKey", "key")];
             kma_client.timeout := 10 |}, O) /\
  kma_client.fetch_uv Spec.midnight config (kma_client.time_datetime 1735738245000000) O
  = (Some {| kma_client.url := "https://apihub.kma.go.kr/api/typ01/url/kma_sfctm_uv.php";
             kma_client.params := [("tm", "202501011300"); ("stn", "0"); ("authKey", "key")];
             kma_client.timeout := 10 |}, O) /\
  String.length "202501011300" = 12%nat.
Proof.
  intros config.
  apply (fetch_sends_the_hour Spec.midnight config 1735738245000000 O). year_in_range.
Defined.

(** The same time as a string and as a [datetime]. *)
Lemma fetch_str_as_datetime_witness :
  let config := {| kma_client.base_url := "https://apihub.kma.go.kr/api/typ01/url";
                   kma_client.api_key := "key";
                   kma_client.station_id := "0";
                   kma_client.timeout_seconds := 10 |} in
  kma_client.fetch_asos Spec.midnight config (kma_client.time_str "202501011330") O
  = kma_client.fetch_asos Spec.midnight config (kma_client.time_datetime 1735738200000000) O /\
  kma_client.fetch_uv Spec.midnight config (kma_client.time_str "202501011330") O
  = kma_client.fetch_uv Spec.midnight config (kma_client.time_datetime 1735738200000000) O /\
  kma_client.fetch_pm10 Spec.midnight config (kma_client.time_str "202501011330")
    (kma_client.time_str "202501011430") O
  = kma_client.fetch_pm10 Spec.midnight config (kma_client.time_datetime 1735738200000000)
      (kma_client.time_datetime 1735741800000000) O.
Proof.
  intros config.
  apply (fetch_str_as_datetime Spec.midnight config 1735738200000000 1735741800000000 O);
    year_in_range.
Defined.

(** A ground-station value with two points passes the digit test and is
    refused by [float]. *)
Lemma rejected_asos_record_is_dropped_witness :
  let bad := {| raw.station_id := "112"; raw.observed_at := Some 1735736400000000%Z;
                raw.value := Py.PStr "1.2.3"; raw.uva_value := Py.PNone;
                raw.euv_value := Py.PNone |} in
  feature_builder.create_ml_dataset
    {| feature_builder.asos := [Spec.asos_108] ++ bad :: [];
       feature_builder.pm10_records := [Spec.pm10_108];
       feature_builder.uv := [] |}
  = feature_builder.create_ml_dataset
      {| feature_builder.asos := [Spec.asos_108] ++ [];
         feature_builder.pm10_records := [Spec.pm10_108];
         feature_builder.uv := [] |}.
Proof.
  intros bad.
  apply (rejected_asos_record_is_dropped [Spec.asos_108] [] bad [Spec.pm10_108] []).
  vm_compute. reflexivity.
Defined.


Lemma dataset_keys_distinct_witness :
  NoDup (Spec.dataset_keys
           (feature_builder.create_ml_dataset
              {| feature_builder.asos := [Spec.asos_108];
                 feature_builder.pm10_records := [Spec.pm10_108; Spec.pm10_108];
                 feature_builder.uv := [] |})).
Proof.
  apply (dataset_keys_distinct
           {| feature_builder.asos := [Spec.asos_108];
              feature_builder.pm10_records := [Spec.pm10_108; Spec.pm10_108];
              feature_builder.uv := [] |}).
  apply NoDup_singleton.
Defined.

(** Station 108 is a metropolitan station. *)
Lemma metro_and_coastal_are_central_witness :
  feature_builder.region
    (feature_builder.engineer
       {| feature_builder.station_id := "108";
          feature_builder.datetime := Some 1735736400000000%Z;
          feature_builder.temperature := None; feature_builder.pm10 := None;
          feature_builder.uv_uvb := None; feature_builder.uv_uva := None;
          feature_builder.uv_euv := None |}) = feature_builder.central.
Proof.
  apply (metro_and_coastal_are_central
           {| feature_builder.station_id := "108";
              feature_builder.datetime := Some 1735736400000000%Z;
              feature_builder.temperature := None; feature_builder.pm10 := None;
              feature_builder.uv_uvb := None; feature_builder.uv_uva := None;
              feature_builder.uv_euv := None |}).
  left. reflexivity.
Defined.

(** 2025-01-01 13:00 in twelve and in ten digits, and a string of four
    characters. *)
Lemma _parse_datetime_from_line_reads_witness :
  parsers._parse_datetime_from_line Spec.midnight "202501011300" O = (1735736400000000%Z, O) /\
  parsers._parse_datetime_from_line Spec.midnight "2501011300" O = (1735736400000000%Z, O) /\
  parsers._parse_datetime_from_line Spec.midnight "2025" O = (0%Z, 1%nat).
Proof.
  assert (Hy : Spec.four_digit_year 1735736400000000) by year_in_range.
  destruct (_parse_datetime_from_line_reads Spec.midnight 1735736400000000 "2025" O Hy)
    as (A & B & C).
  split; [exact A | split; [exact (B eq_refl) | apply C; cbn; lia]].
Defined.


